(** * pmtud: the capture-classify-ratelimit-forward path of [src/main.c]

    A shallow embedding of [handle_packet] and of the pieces of its
    environment that it talks to (the two rate-limit tables, the optional
    port bitmap, the raw socket and standard output), followed by the
    properties of the packet path.

    Conventions.
    - A captured frame is a [list byte]; [p[i]] is a checked read [rd p i]
      that yields [None] outside the buffer.  In C such an access is
      undefined behaviour, so [None] as the value of [handle_packet] means
      "the code touched memory outside the frame".
    - C [int] values (lengths, offsets, the verbosity level) are [Z].  All
      offsets computed by the code are below 200, far from the 32-bit
      range, so no wrap-around is written for them; the two [uint16_t]
      assignments have their truncation written out.
    - The frame buffer, the two tables and the output are mutated in
      place by the C code; here they are threaded explicitly and returned
      in a [result].
    - [handle_pcap] calls [handle_packet(state, data, hdr->caplen)], and
      only for packets captured whole, so the properties of a capture
      take [data_len] to be the length of the buffer. *)

From Stdlib Require Import ZArith QArith Qcanon String.
From Stdlib Require Import Init.Byte.
From stdpp Require Import base option list.

Local Open Scope Z_scope.

(** ** Bytes and frames *)

Abbreviation frame := (list byte) (only parsing).

(** The value of a [uint8_t]. *)
Definition u8 (b : byte) : Z := Z.of_N (Byte.to_N b).

(** [p[i]] for a [const uint8_t *p] that points to [length p] bytes. *)
Definition rd (p : frame) (i : Z) : option Z :=
  if 0 <=? i then u8 <$> p !! Z.to_nat i else None.

(** The [len] bytes starting at [p + off], as read by [memcpy], [send],
    [to_hex], [ip_to_string] and the hashing of a key. *)
Definition rd_range (p : frame) (off len : Z) : option (list byte) :=
  if (0 <=? off) && (0 <=? len) && (off + len <=? Z.of_nat (length p))
  then Some (take (Z.to_nat len) (drop (Z.to_nat off) p))
  else None.

(** [pp[i] = b]. *)
Definition wr (pp : frame) (i : Z) (b : byte) : option frame :=
  if (0 <=? i) && (i <? Z.of_nat (length pp))
  then Some (<[Z.to_nat i := b]> pp)
  else None.

(** [for (i = start; i < start + n; i++) body] over a piece of state. *)
Fixpoint for_loop {A : Type} (n : nat) (i : Z)
    (body : Z -> A -> option A) (a : A) : option A :=
  match n with
  | O => Some a
  | S n' => a' ← body i a; for_loop n' (i + 1) body a'
  end.

(** [(((uint16_t)hi) << 8) | (uint16_t)lo], stored in a [uint16_t]. *)
Definition be16 (hi lo : Z) : Z := Z.lor (Z.shiftl hi 8) lo mod 65536.

(** ** The collaborators declared in [hashlimit.h] and [pmtud.h] *)

(** The rate limiter.  [hashlimit_touch_hash h now key] is
    [hashlimit_touch_hash(h, key, key_len)] running while the monotonic
    clock reads [now]; it returns the decision and the updated table.
    [hashlimit_touch] is the scalar-key entry point. *)
Class Hashlimit (H : Type) := {
  hashlimit_touch_hash : H -> Z -> list byte -> bool * H;
  hashlimit_touch : H -> Z -> Z -> bool * H
}.

(** The port bitmap: [bitmap_get(map, i)] is non-zero when bit [i] is
    set. *)
Class Bitmap (B : Type) := {
  bitmap_get : B -> Z -> Z
}.

(** ** What [handle_packet] does to the outside world *)

Inductive event :=
| Printed (ip : list byte) (reason : string) (dump : option (list byte))
    (** [printf] of [ip_to_string(hash, hash_len)], the reason and, when
        [dump] is present, [to_hex(p, data_len)]; the helpers' arguments
        stand for the text they render *)
| Send (buf : list byte).
    (** [send(raw_sd, pp, data_len, 0)] *)

(** What the environment answers during one call: the clock seen by each
    of the two limiter touches, and the outcome of [send]. *)
Record env := {
  t_sources : Z;
  t_ifaces : Z;
  send_r : Z;             (* return value of send() *)
  send_enobufs : bool     (* errno == ENOBUFS after send() *)
}.

(** The path taken through the function. [Dropped] is one of the two
    plain [return -1] at the top, [Rejected] is the [reject:] label,
    [Transmitting] is [return 1], and [SendFatal] is [PFATAL("send()")]. *)
Inductive verdict :=
| Dropped
| Rejected (reason : string)
| Transmitting
| SendFatal.

(** The [int] returned to the caller; [PFATAL] does not return. *)
Definition retcode (v : verdict) : option Z :=
  match v with
  | Dropped | Rejected _ => Some (-1)
  | Transmitting => Some 1
  | SendFatal => None
  end.

(** A frame is admitted when it passed every check, i.e. the code reached
    the transmit block. *)
Definition admitted (v : verdict) : bool :=
  match v with
  | Transmitting | SendFatal => true
  | _ => false
  end.

Inductive flow (A : Type) :=
| Next (a : A)
| GotoReject (reason : string).
Arguments Next {A} a.
Arguments GotoReject {A} reason.

(** The locals [icmp_offset], [valid], [hash] and [hash_len]; [hash] is a
    pointer into the frame, kept as an offset, [None] for [NULL]. *)
Record locals := {
  icmp_offset : Z;
  valid : Z;
  hash : option Z;
  hash_len : Z
}.

Definition init_locals : locals :=
  {| icmp_offset := -1; valid := 0; hash := None; hash_len := 0 |}.

(** The bytes [hash[0 .. hash_len)] handed to [ip_to_string] and to
    [hashlimit_touch_hash]; nothing is read through a [NULL] pointer of
    length 0. *)
Definition hash_bytes (p : frame) (l : locals) : option (list byte) :=
  match hash l with
  | None => Some []
  | Some off => rd_range p off (hash_len l)
  end.

(** Lines 107-108: the unrolled, short-circuit comparison of the first
    six bytes with [0xff]. *)
Definition and_then (a : option bool) (b : option bool) : option bool :=
  x ← a; if x : bool then b else Some false.

Definition is_ff (p : frame) (i : Z) : option bool :=
  b ← rd p i; Some (b =? 0xff).

Definition dst_is_broadcast (p : frame) : option bool :=
  and_then (is_ff p 0) (and_then (is_ff p 1) (and_then (is_ff p 2)
    (and_then (is_ff p 3) (and_then (is_ff p 4) (is_ff p 5))))).

(** Lines 115-120: EtherType and the offset of the L3 header. *)
Definition l2_demux (p : frame) : option (Z * Z) :=
  b12 ← rd p 12; b13 ← rd p 13;
  let eth_type := be16 b12 b13 in
  if eth_type =? 0x8100 then
    b16 ← rd p 16; b17 ← rd p 17;
    Some (be16 b16 b17, 18)
  else Some (eth_type, 14).

(** Lines 124-140. *)
Definition ipv4_branch (p : frame) (data_len eth_type l3_offset : Z)
    (l : locals) : option (flow locals) :=
  c ← (if eth_type =? 0x0800
       then b ← rd p l3_offset; Some (Z.land b 0xF0 =? 0x40)
       else Some false);
  if c : bool then
    b ← rd p l3_offset;
    let l3_hdr_len := Z.land b 0x0F * 4 in
    if l3_hdr_len <? 20 then Some (GotoReject "IPv4 header invalid length")
    else
      let icmp_offset' := l3_offset + l3_hdr_len in
      protocol ← rd p (l3_offset + 9);
      if (protocol =? 1) && (l3_offset + 20 + 8 + 20 + 8 <=? data_len) then
        Some (Next {| icmp_offset := icmp_offset'; valid := 1;
                      hash := Some (l3_offset + 12); hash_len := 4 |})
      else
        Some (Next {| icmp_offset := icmp_offset'; valid := valid l;
                      hash := hash l; hash_len := hash_len l |})
  else Some (Next l).

(** Lines 142-153. *)
Definition ipv6_branch (p : frame) (data_len eth_type l3_offset : Z)
    (l : locals) : option locals :=
  c ← (if eth_type =? 0x86dd
       then b ← rd p l3_offset; Some (Z.land b 0xF0 =? 0x60)
       else Some false);
  if c : bool then
    let icmp_offset' := l3_offset + 40 in
    protocol ← rd p (l3_offset + 6);
    if (protocol =? 58) && (l3_offset + 40 + 8 + 32 <=? data_len) then
      Some {| icmp_offset := icmp_offset'; valid := 1;
              hash := Some (l3_offset + 8); hash_len := 16 |}
    else
      Some {| icmp_offset := icmp_offset'; valid := valid l;
              hash := hash l; hash_len := hash_len l |}
  else Some l.

(** Lines 155-158. *)
Definition is_null (ptr : option Z) : bool :=
  match ptr with None => true | Some _ => false end.

Definition check_valid (l : locals) : flow unit :=
  if (valid l =? 0) || is_null (hash l)
     || (hash_len l =? 0) || (icmp_offset l <? 0)
  then GotoReject "Invalid protocol or too short"
  else Next ().

(** Lines 122-158 together: the classification of a frame whose EtherType
    and L3 offset are known.  The locals come back also on a reject, for
    the [reject:] block prints through them. *)
Definition classify (p : frame) (data_len eth_type l3_offset : Z)
    : option (locals * flow unit) :=
  f4 ← ipv4_branch p data_len eth_type l3_offset init_locals;
  match f4 with
  | GotoReject reason => Some (init_locals, GotoReject reason)
  | Next l4 =>
      l6 ← ipv6_branch p data_len eth_type l3_offset l4;
      Some (l6, check_valid l6)
  end.

(** Lines 169-181: the [switch] that finds the inner L4 header. *)
Definition inner_l4_offset (p : frame) (payload_offset : Z)
    : option (flow Z) :=
  v ← rd p (payload_offset + 8);
  let sel := Z.land v 0xF0 in
  if sel =? 0x40 then
    b ← rd p payload_offset;
    Some (Next (payload_offset + Z.land b 0x0F * 4))
  else if sel =? 0x60 then
    Some (Next (payload_offset + 40))
  else Some (GotoReject "Invalid ICMP payload").

Section HandlePacket.
Context {H B : Type} `{!Hashlimit H} `{!Bitmap B}.

(** [struct state], without the two OS handles. *)
Record state := {
  sources : H;
  ifaces : H;
  verbose : Z;
  dry_run : Z;
  ports_map : option B
}.

(** The observable outcome of one call: the path taken, the frame
    buffer as the call leaves it, the two tables, and what was printed
    and sent, in order. *)
Record result := {
  r_verdict : verdict;
  r_frame : frame;
  r_sources : H;
  r_ifaces : H;
  r_out : list event
}.

(** Lines 160-193; the block is skipped when [state->ports_map] is
    [NULL]. *)
Definition port_filter (ports_map : option B) (p : frame) (data_len : Z)
    (l : locals) : option (flow unit) :=
  match ports_map with
  | None => Some (Next ())
  | Some m =>
      let payload_offset := icmp_offset l + 8 in
      if data_len <? payload_offset + 9 then
        Some (GotoReject "Payload too short")
      else
        f ← inner_l4_offset p payload_offset;
        match f with
        | GotoReject reason => Some (GotoReject reason)
        | Next l4_offset =>
            if data_len <? l4_offset + 2 then
              Some (GotoReject "Too short to read L4 source port")
            else
              hi ← rd p l4_offset; lo ← rd p (l4_offset + 1);
              let l4_sport := be16 hi lo in
              if bitmap_get m l4_sport =? 0 then
                Some (GotoReject "L4 source port not on whitelist")
              else Some (Next ())
        end
  end.

(** Lines 195-208: save the destination MAC, then overwrite the first
    twelve bytes of the capture buffer in place. *)
Definition rewrite_macs (p : frame) : option frame :=
  dst_mac ← rd_range p 0 6;
  pp ← for_loop 6 0 (λ i q, wr q i Byte.xff) p;
  for_loop 6 0 (λ i q, b ← dst_mac !! Z.to_nat i; wr q (6 + i) b) pp.

(** Lines 236-244: the [reject:] label. *)
Definition reject (st : state) (p : frame) (data_len : Z)
    (reason : string) (l : locals) (src ifc : H) : option result :=
  out ← (if 2 <? verbose st then
           ip ← hash_bytes p l; hex ← rd_range p 0 data_len;
           Some [Printed ip reason (Some hex)]
         else if 1 <? verbose st then
           ip ← hash_bytes p l; Some [Printed ip reason None]
         else Some []);
  Some {| r_verdict := Rejected reason; r_frame := p;
          r_sources := src; r_ifaces := ifc; r_out := out |}.

(** Lines 219-234: print, send, [return 1]. *)
Definition transmit (st : state) (e : env) (pp : frame) (data_len : Z)
    (l : locals) (src ifc : H) : option result :=
  let reason := "transmitting"%string in
  out ← (if 2 <? verbose st then
           ip ← hash_bytes pp l; hex ← rd_range pp 0 data_len;
           Some [Printed ip reason (Some hex)]
         else if verbose st =? 1 then
           ip ← hash_bytes pp l; Some [Printed ip reason None]
         else Some []);
  if dry_run st =? 0 then
    buf ← rd_range pp 0 data_len;
    let v := if (send_r e <? 0) && negb (send_enobufs e)
             then SendFatal else Transmitting in
    Some {| r_verdict := v; r_frame := pp;
            r_sources := src; r_ifaces := ifc;
            r_out := out ++ [Send buf] |}
  else
    Some {| r_verdict := Transmitting; r_frame := pp;
            r_sources := src; r_ifaces := ifc; r_out := out |}.

(** Lines 210-217 and what follows them. *)
Definition ratelimit_and_send (st : state) (e : env) (pp : frame)
    (data_len : Z) (l : locals) : option result :=
  key ← hash_bytes pp l;
  let '(ok, src) := hashlimit_touch_hash (sources st) (t_sources e) key in
  if negb ok then
    reject st pp data_len "Ratelimited on source IP" l src (ifaces st)
  else
    let '(ok', ifc) := hashlimit_touch (ifaces st) (t_ifaces e) 0 in
    if negb ok' then
      reject st pp data_len "Ratelimited on outgoing interface" l src ifc
    else transmit st e pp data_len l src ifc.

(** The plain [return -1] of lines 104 and 109. *)
Definition dropped (st : state) (p : frame) : result :=
  {| r_verdict := Dropped; r_frame := p;
     r_sources := sources st; r_ifaces := ifaces st; r_out := [] |}.

(** [handle_packet(state, p, data_len)]. *)
Definition handle_packet (st : state) (e : env) (p : frame)
    (data_len : Z) : option result :=
  if data_len <? 14 + 20 + 8 + 8 then Some (dropped st p)
  else
    bc ← dst_is_broadcast p;
    if bc : bool then Some (dropped st p)
    else
      '(eth_type, l3_offset) ← l2_demux p;
      '(l, c) ← classify p data_len eth_type l3_offset;
      match c with
      | GotoReject reason =>
          reject st p data_len reason l (sources st) (ifaces st)
      | Next _ =>
          f ← port_filter (ports_map st) p data_len l;
          match f with
          | GotoReject reason =>
              reject st p data_len reason l (sources st) (ifaces st)
          | Next _ =>
              pp ← rewrite_macs p;
              ratelimit_and_send st e pp data_len l
          end
      end.

End HandlePacket.

Arguments state : clear implicits.
Arguments result : clear implicits.

(** ** Vocabulary of the properties *)

(** Where the key pointer may point: inside the first [n] bytes. *)
Definition key_within (n : Z) (l : locals) : Prop :=
  match hash l with
  | None => True
  | Some off => 0 <= off /\ 0 <= hash_len l /\ off + hash_len l <= n
  end.

(** The shape of the locals after classification: either no key yet, or
    a key of 4 or 16 bytes that lies before the ICMP header. *)
Definition classified (data_len l3_offset : Z) (l : locals) : Prop :=
  (hash l = None /\ hash_len l = 0 /\ valid l = 0)
  \/ (valid l = 1 /\ l3_offset + 20 <= icmp_offset l
      /\ ((hash l = Some (l3_offset + 12) /\ hash_len l = 4
           /\ l3_offset + 56 <= data_len)
          \/ (hash l = Some (l3_offset + 8) /\ hash_len l = 16
              /\ icmp_offset l = l3_offset + 40
              /\ l3_offset + 80 <= data_len))).

(** The bytes handed to [send], in order. *)
Definition sent (out : list event) : list (list byte) :=
  omap (fun ev => match ev with Send buf => Some buf | _ => None end) out.

(** The lines handed to [printf], in order. *)
Definition printed (out : list event) : list event :=
  omap (fun ev => match ev with Printed _ _ _ => Some ev | _ => None end)
       out.

(** The frame after the in-place rewrite of its Ethernet addresses. *)
Definition rewritten (p : frame) : frame :=
  replicate 6 Byte.xff ++ take 6 p ++ drop 12 p.

(** The reasons given by the two rate-limit rejects. *)
Definition ratelimit_reason (reason : string) : bool :=
  (reason =? "Ratelimited on source IP")%string
  || (reason =? "Ratelimited on outgoing interface")%string.

(** [p2] is [p1] except, possibly, for the bytes at offsets [o] and
    [o + 1]. *)
Definition differ_only_at (o : Z) (p1 p2 : frame) : Prop :=
  length p2 = length p1
  /\ forall i : nat, Z.of_nat i <> o -> Z.of_nat i <> o + 1 ->
       p2 !! i = p1 !! i.

(** The locals with which the IPv6 branch accepts a frame. *)
Definition ipv6_locals (l3_offset : Z) : locals :=
  {| icmp_offset := l3_offset + 40; valid := 1;
     hash := Some (l3_offset + 8); hash_len := 16 |}.

(** The conditions of lines 142 and 148 on a frame. *)
Definition ipv6_conditions (p : frame) (data_len eth_type l3_offset : Z)
    : Prop :=
  eth_type = 0x86dd
  /\ (exists b, rd p l3_offset = Some b /\ Z.land b 0xF0 = 0x60)
  /\ rd p (l3_offset + 6) = Some 58
  /\ l3_offset + 40 + 8 + 32 <= data_len.

(** The [switch] of lines 169-181 as the specification words it: the
    version nibble is that of the inner IP header, i.e. of the byte at
    [payload_offset], the byte that also holds the IHL. *)
Definition spec_inner_l4_offset (p : frame) (payload_offset : Z)
    : option (flow Z) :=
  b ← rd p payload_offset;
  let version := Z.land b 0xF0 in
  if version =? 0x40 then
    Some (Next (payload_offset + Z.land b 0x0F * 4))
  else if version =? 0x60 then
    Some (Next (payload_offset + 40))
  else Some (GotoReject "Invalid ICMP payload").

(** The address that a printed line shows: the key bytes that the
    classification of the ingress frame selected (none when it had not
    found a source address). *)
Definition printed_ip (p : frame) (data_len : Z) (ip : list byte) : Prop :=
  exists eth_type l3_offset l c,
    l2_demux p = Some (eth_type, l3_offset)
    /\ classify p data_len eth_type l3_offset = Some (l, c)
    /\ hash_bytes p l = Some ip.

Section Vocabulary.
Context {H B : Type}.
Implicit Types (st : state H B) (r : result H) (e : env) (p pp : frame).

(** What the [reject:] block prints, by verbosity. *)
Definition reject_lines st p (data_len : Z) (reason : string)
    (l : locals) (out : list event) : Prop :=
  (verbose st <= 1 /\ out = [])
  \/ (verbose st = 2 /\ exists ip,
        hash_bytes p l = Some ip /\ out = [Printed ip reason None])
  \/ (3 <= verbose st /\ exists ip hex,
        hash_bytes p l = Some ip /\ rd_range p 0 data_len = Some hex
        /\ out = [Printed ip reason (Some hex)]).

(** What the transmit block prints, by verbosity; level 2 takes
    neither branch of lines 220-225. *)
Definition transmit_lines st pp (data_len : Z) (l : locals)
    (out : list event) : Prop :=
  ((verbose st <= 0 \/ verbose st = 2) /\ out = [])
  \/ (verbose st = 1 /\ exists ip,
        hash_bytes pp l = Some ip
        /\ out = [Printed ip "transmitting" None])
  \/ (3 <= verbose st /\ exists ip hex,
        hash_bytes pp l = Some ip /\ rd_range pp 0 data_len = Some hex
        /\ out = [Printed ip "transmitting" (Some hex)]).

(** The same state with another per-interface table. *)
Definition with_ifaces st (ifc : H) : state H B :=
  {| sources := sources st; ifaces := ifc; verbose := verbose st;
     dry_run := dry_run st; ports_map := ports_map st |}.

(** The same state with another dry-run flag. *)
Definition with_dry_run st (d : Z) : state H B :=
  {| sources := sources st; ifaces := ifaces st; verbose := verbose st;
     dry_run := d; ports_map := ports_map st |}.

(** What a real run [r_wet] and a dry run [r_dry] of the same call
    share: the decision (a send that fails fatally has been admitted
    all the same), both tables, the frame buffer and the printed lines;
    they differ in the send alone. *)
Definition dry_twin (r_wet r_dry : result H) : Prop :=
  r_verdict r_dry = (if admitted (r_verdict r_wet) then Transmitting
                     else r_verdict r_wet)
  /\ r_sources r_dry = r_sources r_wet
  /\ r_ifaces r_dry = r_ifaces r_wet
  /\ r_frame r_dry = r_frame r_wet
  /\ r_out r_dry = printed (r_out r_wet)
  /\ sent (r_out r_dry) = []
  /\ sent (r_out r_wet) = (if admitted (r_verdict r_wet)
                           then [r_frame r_wet] else []).

(** The decision taken on a frame: the way out of [handle_packet] and
    the two tables it leaves. *)
Definition decision r : verdict * H * H :=
  (r_verdict r, r_sources r, r_ifaces r).

End Vocabulary.

(** The tables live on the heap and are mutated in place, so the next
    call of the capture loop starts from the tables this one left. *)
Definition next_state {H B : Type} (st : state H B) (r : result H)
    : state H B :=
  {| sources := r_sources r; ifaces := r_ifaces r; verbose := verbose st;
     dry_run := dry_run st; ports_map := ports_map st |}.

(** ** Models of the collaborators *)

(** Modelled from the spec: the token-bucket table of [hashlimit.h]
    (its implementation is not part of [src/]), after section 4.B: one
    slot per hash value, a colliding key evicts the occupant, a bucket
    refills by [rate_pps] tokens per second up to [burst], and a touch
    admits when at least one token is there.  Tokens are exact rationals.
    The hash is left open by the spec; a 64-bit FNV-1a stands for it. *)
Module TokenBucket.

Inductive key :=
| Scalar (k : Z)
| Bytes (bs : list byte).

Record bucket := {
  occupant : key;
  tokens : Qc;
  last_refill_ns : Z
}.

Record table := {
  capacity : Z;
  rate_pps : Qc;
  burst : Qc;
  slots : list (option bucket)
}.

Definition hashlimit_alloc (capacity : Z) (rate_pps burst : Qc) : table :=
  {| capacity := capacity; rate_pps := rate_pps; burst := burst;
     slots := replicate (Z.to_nat capacity) None |}.

Definition fnv1a (bs : list Z) : Z :=
  fold_left (fun h b => (Z.lxor h b * 1099511628211) mod 2 ^ 64)
            bs 14695981039346656037.

Definition le_bytes (n : nat) (k : Z) : list Z :=
  map (fun i => Z.shiftr k (8 * Z.of_nat i) mod 256) (seq 0 n).

Definition hash_key (k : key) : Z :=
  match k with
  | Scalar z => fnv1a (le_bytes 8 z)
  | Bytes bs => fnv1a (map u8 bs)
  end.

Definition key_eqb (a b : key) : bool :=
  match a, b with
  | Scalar x, Scalar y => x =? y
  | Bytes x, Bytes y => bool_decide (map u8 x = map u8 y)
  | _, _ => false
  end.

Definition qc_le (a b : Qc) : bool := Qle_bool a b.

Definition refill (t : table) (now : Z) (b : bucket) : bucket :=
  let dt := Q2Qc (inject_Z (now - last_refill_ns b) / 1000000000) in
  let grown := (tokens b + rate_pps t * dt)%Qc in
  {| occupant := occupant b;
     tokens := if qc_le (burst t) grown then burst t else grown;
     last_refill_ns := now |}.

Definition touch (t : table) (now : Z) (k : key) : bool * table :=
  let slot := Z.to_nat (hash_key k mod capacity t) in
  let fresh := {| occupant := k; tokens := burst t;
                  last_refill_ns := now |} in
  let b := match slots t !! slot with
           | Some (Some b) =>
               if key_eqb (occupant b) k then refill t now b else fresh
           | _ => fresh
           end in
  let put b' := {| capacity := capacity t; rate_pps := rate_pps t;
                   burst := burst t;
                   slots := <[slot := Some b']> (slots t) |} in
  if qc_le 1 (tokens b) then
    (true, put {| occupant := occupant b; tokens := (tokens b - 1)%Qc;
                  last_refill_ns := last_refill_ns b |})
  else (false, put b).

End TokenBucket.

#[global] Instance token_bucket_hashlimit : Hashlimit TokenBucket.table := {
  hashlimit_touch_hash t now key :=
    TokenBucket.touch t now (TokenBucket.Bytes key);
  hashlimit_touch t now k :=
    TokenBucket.touch t now (TokenBucket.Scalar k)
}.

(** Modelled from the spec: the bitmap of [pmtud.h] (not part of [src/]),
    after section 4.A: a dense bit set over [0, n_bits), here an array of
    [uint64_t] words as the type of [ports_map] says. *)
Module PortBitmap.

Definition bitmap := list Z.

Definition bitmap_alloc (n_bits : Z) : bitmap :=
  replicate (Z.to_nat ((n_bits + 63) / 64)) 0.

Definition bitmap_set (b : bitmap) (i : Z) : bitmap :=
  let w := Z.to_nat (i / 64) in
  <[w := Z.lor (default 0 (b !! w)) (Z.shiftl 1 (i mod 64))]> b.

Definition get (b : bitmap) (i : Z) : Z :=
  Z.land (Z.shiftr (default 0 (b !! Z.to_nat (i / 64))) (i mod 64)) 1.

(** [--ports=a,b,...] as [main] builds it. *)
Definition of_ports (ports : list Z) : bitmap :=
  fold_left bitmap_set ports (bitmap_alloc 65536).

End PortBitmap.

#[global] Instance port_bitmap : Bitmap PortBitmap.bitmap := {
  bitmap_get := PortBitmap.get
}.

(** ** Sample frames and states *)

Module Samples.

Definition byte_of_Z (z : Z) : byte :=
  default Byte.x00 (Byte.of_N (Z.to_N (z mod 256))).

Definition bytes (zs : list Z) : frame := map byte_of_Z zs.

Definition eth_hdr : list Z :=
  [0x02; 0x00; 0x00; 0x00; 0x00; 0x01;   (* destination MAC *)
   0x02; 0x00; 0x00; 0x00; 0x00; 0x02;   (* source MAC *)
   0x08; 0x00].

(** Outer IPv4 header, protocol 1, source 10.0.0.1. *)
Definition ip4_hdr : list Z :=
  [0x45; 0x00; 0x00; 0x38; 0x00; 0x00; 0x00; 0x00; 0x40; 0x01; 0x00; 0x00;
   0x0a; 0x00; 0x00; 0x01;
   0x0a; 0x00; 0x00; 0x02].

(** ICMP destination unreachable, fragmentation needed, MTU 1500. *)
Definition icmp_hdr (type code : Z) : list Z :=
  [type; code; 0x00; 0x00; 0x00; 0x00; 0x05; 0xdc].

(** The quoted IPv4 header with its TTL byte, then eight bytes of TCP
    starting with the source port. *)
Definition quoted (ttl sport : Z) : list Z :=
  [0x45; 0x00; 0x05; 0xdc; 0x00; 0x00; 0x40; 0x00; ttl; 0x06; 0x00; 0x00;
   0x0a; 0x00; 0x00; 0x02; 0xc0; 0xa8; 0x00; 0x01;
   sport / 256; sport mod 256; 0x30; 0x39; 0x00; 0x00; 0x00; 0x00].

(** Seventy bytes: Ethernet, IPv4, ICMP, and the quoted IPv4 header
    with eight bytes of TCP. *)
Definition icmp4_frame (type code ttl sport : Z) : frame :=
  bytes (eth_hdr ++ ip4_hdr ++ icmp_hdr type code ++ quoted ttl sport).

Definition valid_ipv4 : frame := icmp4_frame 3 4 64 443.

(** The same frame cut after eight quoted bytes: fifty bytes. *)
Definition short_ipv4 : frame := take 50 valid_ipv4.

(** Forty-nine bytes: below the size guard. *)
Definition tiny_ipv4 : frame := take 49 valid_ipv4.

Definition broadcast_ipv4 : frame :=
  replicate 6 Byte.xff ++ drop 6 valid_ipv4.

(** IPv6 packet too big from 2001:db8::1, with 32 quoted bytes. *)
Definition ip6_hdr : list Z :=
  [0x60; 0x00; 0x00; 0x00; 0x00; 0x28; 0x3a; 0x40;
   0x20; 0x01; 0x0d; 0xb8; 0; 0; 0; 0; 0; 0; 0; 0; 0; 0; 0; 0x01;
   0x20; 0x01; 0x0d; 0xb8; 0; 0; 0; 0; 0; 0; 0; 0; 0; 0; 0; 0x02].

Definition minimal_ipv6 : frame :=
  bytes (take 12 eth_hdr ++ [0x86; 0xdd] ++ ip6_hdr ++ icmp_hdr 2 0
         ++ replicate 32 0x60).

(** The two tables as [main] allocates them (lines 406-407): the burst
    is 1.9 times the rate. *)
Definition sources_for (src_rate : Qc) : TokenBucket.table :=
  TokenBucket.hashlimit_alloc 8191 src_rate (src_rate * Q2Qc (19 # 10))%Qc.

Definition ifaces_for (iface_rate : Qc) : TokenBucket.table :=
  TokenBucket.hashlimit_alloc 1 iface_rate (iface_rate * Q2Qc (19 # 10))%Qc.

(** The default rates, [SRC_RATE_PPS] and [IFACE_RATE_PPS]. *)
Definition sources0 : TokenBucket.table := sources_for (Q2Qc 1).

Definition ifaces0 : TokenBucket.table := ifaces_for (Q2Qc 10).

Definition state0 (verbose dry_run : Z)
    (ports : option PortBitmap.bitmap)
    : state TokenBucket.table PortBitmap.bitmap :=
  {| sources := sources0; ifaces := ifaces0; verbose := verbose;
     dry_run := dry_run; ports_map := ports |}.

Definition env0 : env :=
  {| t_sources := 1000; t_ifaces := 1001; send_r := 50;
     send_enobufs := false |}.

End Samples.

Module Runs.
Import Samples.

Abbreviation st := (state TokenBucket.table PortBitmap.bitmap).

(** [pmtud --iface=...], at the given verbosity. *)
Definition plain (verbose : Z) : st := state0 verbose 0 None.

(** The state after one frame from 10.0.0.1 has been forwarded. *)
Definition after_one (verbose : Z) : st :=
  match handle_packet (plain verbose) env0 valid_ipv4 70 with
  | Some r => next_state (plain verbose) r
  | None => plain verbose
  end.

(** [pmtud --iface=... --iface-rate=0.5]: a burst of 0.95 tokens. *)
Definition slow_iface : st :=
  {| sources := sources0; ifaces := ifaces_for (Q2Qc (1 # 2));
     verbose := 0; dry_run := 0; ports_map := None |}.

(** [pmtud --iface=... --ports=443]. *)
Definition https_only : st :=
  state0 0 0 (Some (PortBitmap.of_ports [443])).

End Runs.

(** Runs a sample call to its result. *)
Ltac run_call r Hr :=
  match goal with
  | |- context [handle_packet ?s ?e ?p ?n] =>
      destruct (handle_packet s e p n) as [r|] eqn:Hr;
      [|by vm_compute in Hr]
  end.

(** Reads a component of the result of a sample call by evaluation. *)
Ltac observe Hr f v H :=
  match type of Hr with
  | handle_packet ?s ?e ?p ?n = Some ?r =>
      assert (H : f <$> handle_packet s e p n = Some v)
        by (vm_compute; reflexivity);
      rewrite Hr in H; injection H as H
  end.

(** ** Vocabulary of the further properties *)

(** The conditions of lines 124, 126 and 135 on a frame whose first L3
    byte is [b]. *)
Definition ipv4_conditions (p : frame) (data_len eth_type l3_offset b : Z)
    : Prop :=
  eth_type = 0x0800
  /\ rd p l3_offset = Some b /\ Z.land b 0xF0 = 0x40
  /\ 20 <= Z.land b 0x0F * 4
  /\ rd p (l3_offset + 9) = Some 1
  /\ l3_offset + 20 + 8 + 20 + 8 <= data_len.

(** The locals with which the IPv4 branch accepts a frame whose first L3
    byte is [b]. *)
Definition ipv4_locals (l3_offset b : Z) : locals :=
  {| icmp_offset := l3_offset + Z.land b 0x0F * 4; valid := 1;
     hash := Some (l3_offset + 12); hash_len := 4 |}.

(** The reason strings of the source, by the stage that gives them. *)
Definition classify_reasons : list string :=
  ["IPv4 header invalid length"; "Invalid protocol or too short"]%string.

Definition port_filter_reasons : list string :=
  ["Payload too short"; "Invalid ICMP payload";
   "Too short to read L4 source port";
   "L4 source port not on whitelist"]%string.

Definition ratelimit_reasons : list string :=
  ["Ratelimited on source IP"; "Ratelimited on outgoing interface"]%string.

(** The reason shown by a printed line. *)
Definition line_reason (ev : event) : option string :=
  match ev with
  | Printed _ reason _ => Some reason
  | Send _ => None
  end.

Section MoreVocabulary.
Context {H B : Type}.
Implicit Types (st : state H B) (r : result H) (e : env) (p pp : frame).

(** The same state at another verbosity. *)
Definition with_verbose st (v : Z) : state H B :=
  {| sources := sources st; ifaces := ifaces st; verbose := v;
     dry_run := dry_run st; ports_map := ports_map st |}.

(** The same state with another port bitmap, or none. *)
Definition with_ports st (pm : option B) : state H B :=
  {| sources := sources st; ifaces := ifaces st; verbose := verbose st;
     dry_run := dry_run st; ports_map := pm |}.

(** What a call does apart from printing: the way out, the frame buffer,
    the two tables and the buffers handed to [send]. *)
Definition effect r : verdict * frame * H * H * list (list byte) :=
  (r_verdict r, r_frame r, r_sources r, r_ifaces r, sent (r_out r)).

End MoreVocabulary.

(** ** The capture loop *)

(** What one call of [pcap_next_ex] hands back: its return value and,
    when that is 1, the on-wire length [hdr->len] and the captured bytes
    ([hdr->caplen] is their number).  [nx_env] holds what the environment
    answers while the packet is handled. *)
Record next_ex := {
  nx_ret : Z;
  nx_len : Z;
  nx_data : frame;
  nx_env : env
}.

(** How a run of [handle_pcap] over a script of [pcap_next_ex] results
    ends: with [return 0] (lines 268 and 275), with the process ended by
    [FATAL] (line 271) or by the [PFATAL] of [handle_packet], or, the
    script used up, inside the next call of [pcap_next_ex]. *)
Inductive ending :=
| Return0
| Exited
| Waiting.

Section CaptureLoop.
Context {H B : Type} `{!Hashlimit H} `{!Bitmap B}.

(** A run: how it ended, the state it left, what was printed and sent in
    order, and the results not asked for. *)
Record pcap_run := {
  pr_ending : ending;
  pr_state : state H B;
  pr_out : list event;
  pr_unread : list next_ex
}.

Definition stopped (how : ending) (st : state H B) (rest : list next_ex)
    : pcap_run :=
  {| pr_ending := how; pr_state := st; pr_out := []; pr_unread := rest |}.

(** The output of a packet precedes that of the packets after it. *)
Definition after_output (out : list event) (run : pcap_run) : pcap_run :=
  {| pr_ending := pr_ending run; pr_state := pr_state run;
     pr_out := out ++ pr_out run; pr_unread := pr_unread run |}.

(** [handle_pcap] (lines 247-278), the [while (1)] run over the results
    that [pcap_next_ex] gives one after the other.  Modelled from the
    spec: [FATAL], like [PFATAL], ends the process (section 7). *)
Fixpoint handle_pcap (st : state H B) (script : list next_ex)
    : option pcap_run :=
  match script with
  | [] => Some (stopped Waiting st [])
  | x :: rest =>
      if nx_ret x =? 1 then
        if nx_len x =? Z.of_nat (length (nx_data x)) then
          r ← handle_packet st (nx_env x) (nx_data x)
                (Z.of_nat (length (nx_data x)));
          match r_verdict r with
          | SendFatal =>
              Some (after_output (r_out r)
                      (stopped Exited (next_state st r) rest))
          | _ =>
              run ← handle_pcap (next_state st r) rest;
              Some (after_output (r_out r) run)
          end
        else handle_pcap st rest
      else if nx_ret x =? 0 then Some (stopped Return0 st rest)
      else if nx_ret x =? -1 then Some (stopped Exited st rest)
      else if nx_ret x =? -2 then Some (stopped Return0 st rest)
      else handle_pcap st rest
  end.

(** A run without what it left unread. *)
Definition visible (run : pcap_run) : ending * state H B * list event :=
  (pr_ending run, pr_state run, pr_out run).

End CaptureLoop.

Arguments pcap_run : clear implicits.

(** A result of [pcap_next_ex] that delivers a packet captured whole. *)
Definition whole (x : next_ex) : bool :=
  (nx_ret x =? 1) && (nx_len x =? Z.of_nat (length (nx_data x))).

(** A result that leaves no trace: a packet captured in part, shorter
    than 50 bytes or addressed to the broadcast address, or a return
    value other than 1, 0, -1 and -2. *)
Definition inert (x : next_ex) : bool :=
  if nx_ret x =? 1 then
    negb (nx_len x =? Z.of_nat (length (nx_data x)))
    || (Z.of_nat (length (nx_data x)) <? 50)
    || bool_decide (dst_is_broadcast (nx_data x) = Some true)
  else negb ((nx_ret x =? 0) || (nx_ret x =? -1) || (nx_ret x =? -2)).


Section LoopEnding.
Context {H B : Type} `{!Hashlimit H} `{!Bitmap B}.



End LoopEnding.

(** ** 802.1Q tags *)

(** The frame [p] with an 802.1Q tag (TPID 0x8100, then the two bytes of
    the TCI) put in after the two MAC addresses. *)
Definition vlan_tagged (tci_hi tci_lo : byte) (p : frame) : frame :=
  take 12 p ++ [Byte.x81; Byte.x00; tci_hi; tci_lo] ++ drop 12 p.

(** The locals of the classification moved four bytes on: the offsets
    that have been set grow by the length of the tag. *)
Definition vlan_shift (l : locals) : locals :=
  {| icmp_offset := if icmp_offset l <? 0 then icmp_offset l
                    else icmp_offset l + 4;
     valid := valid l;
     hash := (fun off => off + 4) <$> hash l;
     hash_len := hash_len l |}.

Definition flow_map {A A' : Type} (f : A -> A') (x : flow A) : flow A' :=
  match x with
  | Next a => Next (f a)
  | GotoReject reason => GotoReject reason
  end.

(** ** The source MAC address *)

(** [p2] is [p1] except, possibly, for the source MAC address (bytes 6
    to 11). *)
Definition same_but_source_mac (p1 p2 : frame) : Prop :=
  length p2 = length p1
  /\ forall i : nat, (i < 6 \/ 12 <= i)%nat -> p2 !! i = p1 !! i.

Section Outcome.
Context {H B : Type}.

(** What a call decides and puts on the wire. *)
Definition outcome (r : result H) : verdict * H * H * list (list byte) :=
  (r_verdict r, r_sources r, r_ifaces r, sent (r_out r)).

End Outcome.

(** ** More sample frames, and sample captures *)

Module MoreSamples.
Import Samples.

(** [valid_ipv4] with an IHL of 4. *)
Definition bad_ihl_ipv4 : frame := <[14%nat := byte_of_Z 0x44]> valid_ipv4.

(** [valid_ipv4] with one 802.1Q tag, VLAN 100. *)
Definition tagged_ipv4 : frame :=
  vlan_tagged Byte.x00 (byte_of_Z 100) valid_ipv4.

(** The same with a second tag in front (QinQ). *)
Definition qinq_ipv4 : frame :=
  vlan_tagged Byte.x00 (byte_of_Z 200) tagged_ipv4.

(** [valid_ipv4] as sent by another station. *)
Definition other_sender_ipv4 : frame :=
  <[11%nat := byte_of_Z 0x99]> (<[6%nat := byte_of_Z 0x06]> valid_ipv4).

(** [send] fails with [EPERM]. *)
Definition env_send_fails : env :=
  {| t_sources := 1000; t_ifaces := 1001; send_r := -1;
     send_enobufs := false |}.

(** What [pcap_next_ex] may hand back. *)
Definition packet (p : frame) : next_ex :=
  {| nx_ret := 1; nx_len := Z.of_nat (length p); nx_data := p;
     nx_env := env0 |}.

(** Sixty bytes on the wire, of which [p] was captured. *)
Definition partial (p : frame) : next_ex :=
  {| nx_ret := 1; nx_len := Z.of_nat (length p) + 10; nx_data := p;
     nx_env := env0 |}.

Definition code (ret : Z) : next_ex :=
  {| nx_ret := ret; nx_len := 0; nx_data := []; nx_env := env0 |}.


(** Two frames from 10.0.0.1 around a partial capture, then an IPv6
    frame. *)
Definition burst : list next_ex :=
  [packet valid_ipv4; partial valid_ipv4; packet valid_ipv4;
   packet minimal_ipv6].

End MoreSamples.

(** Runs a sample capture to its end. *)
Ltac run_capture run Hrun :=
  match goal with
  | |- context [handle_pcap ?s ?c = Some _] =>
      destruct (handle_pcap s c) as [run|] eqn:Hrun;
      [|by vm_compute in Hrun]
  end.

(** * Proofs *)

(** ** Reads and writes that stay inside the buffer *)

Lemma u8_range (b : byte) : 0 <= u8 b < 256.
Proof.
  unfold u8. pose proof (Byte.to_N_bounded b) as Hb. lia.
Qed.

Lemma rd_Some_lt (p : frame) (i v : Z) :
  rd p i = Some v -> 0 <= i < Z.of_nat (length p).
Proof.
  unfold rd. destruct (Z.leb_spec 0 i); [|discriminate].
  intros Hv. destruct (p !! Z.to_nat i) as [b|] eqn:Hl; [|discriminate].
  apply lookup_lt_Some in Hl. lia.
Qed.

Lemma rd_in_range (p : frame) (i : Z) :
  0 <= i < Z.of_nat (length p) ->
  exists b, p !! Z.to_nat i = Some b /\ rd p i = Some (u8 b).
Proof.
  intros Hi. unfold rd.
  destruct (Z.leb_spec 0 i); [|lia].
  destruct (lookup_lt_is_Some_2 p (Z.to_nat i)) as [b Hb]; [lia|].
  exists b. by rewrite Hb.
Qed.

Lemma rd_is_Some (p : frame) (i : Z) :
  0 <= i < Z.of_nat (length p) -> is_Some (rd p i).
Proof. intros Hi. destruct (rd_in_range p i Hi) as (b & _ & ->). eauto. Qed.

Lemma rd_range_in_range (p : frame) (off len : Z) :
  0 <= off -> 0 <= len -> off + len <= Z.of_nat (length p) ->
  rd_range p off len = Some (take (Z.to_nat len) (drop (Z.to_nat off) p)).
Proof.
  intros Ho Hl Hb. unfold rd_range.
  destruct (Z.leb_spec 0 off); [|lia].
  destruct (Z.leb_spec 0 len); [|lia].
  destruct (Z.leb_spec (off + len) (Z.of_nat (length p))); [|lia].
  reflexivity.
Qed.

Lemma rd_range_all (p : frame) : rd_range p 0 (Z.of_nat (length p)) = Some p.
Proof.
  rewrite rd_range_in_range by lia.
  rewrite Nat2Z.id. simpl. by rewrite take_ge.
Qed.

Lemma wr_in_range (pp : frame) (i : Z) (b : byte) :
  0 <= i < Z.of_nat (length pp) ->
  wr pp i b = Some (<[Z.to_nat i := b]> pp).
Proof.
  intros Hi. unfold wr.
  destruct (Z.leb_spec 0 i); [|lia].
  destruct (Z.ltb_spec i (Z.of_nat (length pp))); [|lia].
  reflexivity.
Qed.

(** The in-place rewrite of lines 195-208 on a frame of at least twelve
    bytes: six [0xff], the old destination address, the rest as it was. *)
Lemma rewrite_macs_spec (p : frame) :
  12 <= Z.of_nat (length p) ->
  rewrite_macs p = Some (replicate 6 Byte.xff ++ take 6 p ++ drop 12 p).
Proof.
  intros Hlen.
  do 12 (destruct p as [|? p]; [simpl in Hlen; lia|]).
  unfold rewrite_macs.
  rewrite rd_range_in_range by (simpl length; lia).
  generalize wr_in_range. generalize wr. intros store Hstore.
  simpl.
  repeat (rewrite Hstore by (simpl length; lia); simpl).
  by rewrite drop_0.
Qed.

Lemma rewrite_macs_length (p pp : frame) :
  rewrite_macs p = Some pp -> length pp = length p.
Proof.
  intros Hrw.
  destruct (Z.le_gt_cases 12 (Z.of_nat (length p))) as [Hlen|Hlen].
  - rewrite rewrite_macs_spec in Hrw by done. injection Hrw as <-.
    cbn [length]. rewrite length_app, length_take, length_drop. lia.
  - exfalso. revert Hrw. unfold rewrite_macs.
    do 12 (destruct p as [|? p]; [by vm_compute|]).
    simpl in Hlen. lia.
Qed.

(** ** The stages, one at a time *)

Lemma hash_bytes_is_Some (p : frame) (l : locals) :
  key_within (Z.of_nat (length p)) l -> is_Some (hash_bytes p l).
Proof.
  unfold key_within, hash_bytes. destruct (hash l) as [off|]; [|eauto].
  intros (Ho & Hl & Hb). rewrite rd_range_in_range by lia. eauto.
Qed.

Lemma dst_is_broadcast_is_Some (p : frame) :
  6 <= Z.of_nat (length p) -> is_Some (dst_is_broadcast p).
Proof.
  intros Hlen. unfold dst_is_broadcast, and_then, is_ff.
  repeat match goal with
  | |- context [rd p ?i] =>
      let b := fresh "b" in
      destruct (rd_in_range p i ltac:(lia)) as (b & _ & ->); simpl;
      try destruct (u8 b =? 255)
  end; eauto.
Qed.

Lemma l2_demux_in_range (p : frame) :
  18 <= Z.of_nat (length p) ->
  exists eth_type l3_offset,
    l2_demux p = Some (eth_type, l3_offset) /\
    (l3_offset = 14 \/ l3_offset = 18).
Proof.
  intros Hlen. unfold l2_demux.
  destruct (rd_in_range p 12 ltac:(lia)) as (b12 & _ & ->).
  destruct (rd_in_range p 13 ltac:(lia)) as (b13 & _ & ->).
  destruct (rd_in_range p 16 ltac:(lia)) as (b16 & _ & ->).
  destruct (rd_in_range p 17 ltac:(lia)) as (b17 & _ & ->).
  simpl. destruct (be16 (u8 b12) (u8 b13) =? 33024); eauto.
Qed.

Lemma l2_demux_offset (p : frame) (eth_type l3_offset : Z) :
  l2_demux p = Some (eth_type, l3_offset) ->
  l3_offset = 14 \/ l3_offset = 18.
Proof.
  unfold l2_demux. intros Hd.
  destruct (rd p 12); [|discriminate]. destruct (rd p 13); [|discriminate].
  simpl in Hd. destruct (_ =? _) in Hd.
  - destruct (rd p 16); [|discriminate]. destruct (rd p 17); [|discriminate].
    simpl in Hd. injection Hd as _ <-. by right.
  - injection Hd as _ <-. by left.
Qed.

Lemma land_0x0F_range (b : Z) : 0 <= Z.land b 0x0F <= 15.
Proof.
  assert (Z.land b 15 = b mod 16) as ->
    by (change 15 with (Z.ones 4); by rewrite Z.land_ones by lia).
  pose proof (Z.mod_pos_bound b 16). lia.
Qed.

(** What the IPv4 branch leaves in the locals. *)
Lemma ipv4_branch_inv (p : frame) (data_len eth_type l3_offset : Z)
    (l : locals) :
  ipv4_branch p data_len eth_type l3_offset init_locals = Some (Next l) ->
  l = init_locals
  \/ (eth_type = 0x0800 /\ l3_offset + 20 <= icmp_offset l <= l3_offset + 60
      /\ ((valid l = 0 /\ hash l = None /\ hash_len l = 0)
          \/ (valid l = 1 /\ hash l = Some (l3_offset + 12) /\ hash_len l = 4
              /\ l3_offset + 56 <= data_len))).
Proof.
  unfold ipv4_branch. intros Hb.
  destruct (Z.eqb_spec eth_type 2048) as [Het|Het]; simpl in Hb;
    [|injection Hb as <-; by left].
  destruct (rd p l3_offset) as [b|]; [|discriminate]. simpl in Hb.
  destruct (Z.land b 240 =? 64); [|injection Hb as <-; by left].
  pose proof (land_0x0F_range b) as Hihl.
  destruct (Z.ltb_spec (Z.land b 15 * 4) 20); [discriminate|].
  destruct (rd p (l3_offset + 9)) as [proto|]; [|discriminate]. simpl in Hb.
  right. split; [done|].
  destruct (proto =? 1); simpl in Hb.
  - destruct (Z.leb_spec (l3_offset + 20 + 8 + 20 + 8) data_len);
      injection Hb as <-; simpl; (split; [lia|]); [right|left];
      repeat split; lia.
  - injection Hb as <-; simpl. split; [lia|]. by left.
Qed.

Lemma ipv6_branch_inv (p : frame) (data_len eth_type l3_offset : Z)
    (l l' : locals) :
  ipv6_branch p data_len eth_type l3_offset l = Some l' ->
  l' = l
  \/ (eth_type = 0x86dd /\ icmp_offset l' = l3_offset + 40
      /\ ((valid l' = valid l /\ hash l' = hash l /\ hash_len l' = hash_len l)
          \/ (valid l' = 1 /\ hash l' = Some (l3_offset + 8)
              /\ hash_len l' = 16 /\ l3_offset + 80 <= data_len))).
Proof.
  unfold ipv6_branch. intros Hb.
  destruct (Z.eqb_spec eth_type 34525) as [Het|Het]; simpl in Hb;
    [|injection Hb as <-; by left].
  destruct (rd p l3_offset) as [b|]; [|discriminate]. simpl in Hb.
  destruct (Z.land b 240 =? 96); [|injection Hb as <-; by left].
  destruct (rd p (l3_offset + 6)) as [proto|]; [|discriminate]. simpl in Hb.
  right. split; [done|].
  destruct (proto =? 58); simpl in Hb.
  - destruct (Z.leb_spec (l3_offset + 40 + 8 + 32) data_len);
      injection Hb as <-; simpl; (split; [lia|]); [right|left];
      repeat split; lia.
  - injection Hb as <-; simpl. split; [lia|]. by left.
Qed.

Lemma classify_inv (p : frame) (data_len eth_type l3_offset : Z)
    (l : locals) (c : flow unit) :
  classify p data_len eth_type l3_offset = Some (l, c) ->
  classified data_len l3_offset l
  /\ (c = Next () ->
      valid l = 1 /\ is_Some (hash l) /\ 0 <= icmp_offset l).
Proof.
  unfold classify. intros Hc.
  destruct (ipv4_branch _ _ _ _ _) as [[l4|r]|] eqn:H4; simpl in Hc;
    [|injection Hc as <- <-; split; [by left|discriminate]|discriminate].
  destruct (ipv6_branch _ _ _ _ _) as [l6|] eqn:H6; simpl in Hc;
    [|discriminate].
  injection Hc as <- <-.
  apply ipv4_branch_inv in H4. apply ipv6_branch_inv in H6.
  assert (Hcl : classified data_len l3_offset l6).
  { unfold classified.
    destruct H4 as [->|(Het4 & Hoff4 & [(?&?&?)|(?&?&?&?)])];
      destruct H6 as [->|(Het6 & Hoff6 & [(?&?&?)|(?&?&?&?)])];
      simpl in *; try lia; try (left; repeat split; congruence);
      right; (split; [congruence|]); (split; [lia|]);
      try (left; repeat split; (congruence || lia));
      try (right; repeat split; (congruence || lia)). }
  split; [done|].
  unfold check_valid. intros Hnext.
  destruct (Z.eqb_spec (valid l6) 0); [discriminate|].
  destruct (hash l6) eqn:Hh; [|discriminate]. simpl in Hnext.
  destruct (hash_len l6 =? 0); [discriminate|]. simpl in Hnext.
  destruct (Z.ltb_spec (icmp_offset l6) 0); [discriminate|].
  destruct Hcl as [(?&?&?)|(?&?&?)]; [congruence|]. eauto.
Qed.

Lemma classified_key_within (data_len l3_offset n : Z) (l : locals) :
  classified data_len l3_offset l ->
  l3_offset = 14 \/ l3_offset = 18 -> 50 <= n ->
  key_within n l.
Proof.
  unfold classified, key_within.
  intros [(-> & _)|(_ & _ & [(-> & -> & _)|(-> & -> & _)])] Hl3 Hn; lia.
Qed.

Lemma inner_l4_offset_ge (p : frame) (payload_offset l4_offset : Z) :
  inner_l4_offset p payload_offset = Some (Next l4_offset) ->
  payload_offset <= l4_offset <= payload_offset + 60.
Proof.
  unfold inner_l4_offset. intros Hi.
  destruct (rd p (payload_offset + 8)) as [v|]; [|discriminate].
  simpl in Hi. destruct (Z.land v 240 =? 64).
  - destruct (rd p payload_offset) as [b|]; [|discriminate].
    simpl in Hi. injection Hi as <-.
    pose proof (land_0x0F_range b). lia.
  - destruct (Z.land v 240 =? 96); [|discriminate].
    injection Hi as <-. lia.
Qed.

Lemma inner_l4_offset_is_Some (p : frame) (payload_offset : Z) :
  0 <= payload_offset -> payload_offset + 9 <= Z.of_nat (length p) ->
  is_Some (inner_l4_offset p payload_offset).
Proof.
  intros Hlo Hhi. unfold inner_l4_offset.
  destruct (rd_in_range p (payload_offset + 8) ltac:(lia)) as (v & _ & ->).
  destruct (rd_in_range p payload_offset ltac:(lia)) as (b & _ & ->).
  simpl. repeat case_match; eauto.
Qed.

Lemma classify_is_Some (p : frame) (data_len eth_type l3_offset : Z) :
  50 <= Z.of_nat (length p) -> l3_offset = 14 \/ l3_offset = 18 ->
  is_Some (classify p data_len eth_type l3_offset).
Proof.
  intros Hlen Hl3. unfold classify, ipv4_branch, ipv6_branch.
  destruct (rd_in_range p l3_offset ltac:(lia)) as (b & _ & ->).
  destruct (rd_in_range p (l3_offset + 9) ltac:(lia)) as (b9 & _ & ->).
  destruct (rd_in_range p (l3_offset + 6) ltac:(lia)) as (b6 & _ & ->).
  repeat (case_match; simpl; eauto).
Qed.

Section Stages.
Context {H B : Type} `{!Hashlimit H} `{!Bitmap B}.
Implicit Types (st : state H B) (r : result H) (e : env) (p pp : frame).

Lemma port_filter_is_Some (pm : option B) p (l : locals) :
  0 <= icmp_offset l ->
  is_Some (port_filter pm p (Z.of_nat (length p)) l).
Proof.
  intros Hoff. unfold port_filter. destruct pm as [m|]; [|eauto].
  destruct (Z.ltb_spec (Z.of_nat (length p)) (icmp_offset l + 8 + 9));
    [eauto|].
  destruct (inner_l4_offset_is_Some p (icmp_offset l + 8))
    as [[l4|reason] Hl4]; [lia|lia| |]; rewrite Hl4; simpl; [|eauto].
  apply inner_l4_offset_ge in Hl4.
  destruct (Z.ltb_spec (Z.of_nat (length p)) (l4 + 2)); [eauto|].
  destruct (rd_in_range p l4 ltac:(lia)) as (hi & _ & ->).
  destruct (rd_in_range p (l4 + 1) ltac:(lia)) as (lo & _ & ->).
  simpl. case_match; eauto.
Qed.

(** A frame gets past a configured whitelist only with the bit of its
    (presumed) inner source port set. *)
Lemma port_filter_pass_inv (m : B) p (data_len : Z) (l : locals) :
  port_filter (Some m) p data_len l = Some (Next ()) ->
  exists l4_offset hi lo,
    icmp_offset l + 8 + 9 <= data_len
    /\ inner_l4_offset p (icmp_offset l + 8) = Some (Next l4_offset)
    /\ l4_offset + 2 <= data_len
    /\ rd p l4_offset = Some hi /\ rd p (l4_offset + 1) = Some lo
    /\ bitmap_get m (be16 hi lo) <> 0.
Proof.
  unfold port_filter. intros Hpf.
  destruct (Z.ltb_spec data_len (icmp_offset l + 8 + 9)); [discriminate|].
  destruct (inner_l4_offset _ _) as [[l4|reason]|] eqn:Hl4; simpl in Hpf;
    [|discriminate|discriminate].
  destruct (Z.ltb_spec data_len (l4 + 2)); [discriminate|].
  destruct (rd p l4) as [hi|] eqn:Hhi; [|discriminate].
  destruct (rd p (l4 + 1)) as [lo|] eqn:Hlo; [|discriminate]. simpl in Hpf.
  destruct (Z.eqb_spec (bitmap_get m (be16 hi lo)) 0); [discriminate|].
  exists l4, hi, lo. repeat split; (done || lia).
Qed.

Lemma reject_inv st p (data_len : Z) (reason : string) (l : locals)
    (src ifc : H) r :
  reject st p data_len reason l src ifc = Some r ->
  r_verdict r = Rejected reason /\ r_frame r = p
  /\ r_sources r = src /\ r_ifaces r = ifc
  /\ reject_lines st p data_len reason l (r_out r).
Proof.
  unfold reject, reject_lines. intros Hr.
  destruct (Z.ltb_spec 2 (verbose st)).
  - destruct (hash_bytes p l) as [ip|]; [|discriminate].
    destruct (rd_range p 0 data_len) as [hex|]; [|discriminate].
    simpl in Hr. injection Hr as <-. simpl.
    repeat split. right; right. split; [lia|]. eauto.
  - destruct (Z.ltb_spec 1 (verbose st)).
    + destruct (hash_bytes p l) as [ip|]; [|discriminate].
      simpl in Hr. injection Hr as <-. simpl.
      repeat split. right; left. split; [lia|]. eauto.
    + simpl in Hr. injection Hr as <-. simpl.
      repeat split. left. split; [lia|done].
Qed.

Lemma reject_is_Some st p (reason : string) (l : locals) (src ifc : H) :
  key_within (Z.of_nat (length p)) l ->
  is_Some (reject st p (Z.of_nat (length p)) reason l src ifc).
Proof.
  intros Hk. unfold reject.
  destruct (hash_bytes_is_Some p l Hk) as [ip ->].
  rewrite rd_range_all. simpl. repeat case_match; simpl; eauto.
Qed.

Lemma transmit_inv st e pp (data_len : Z) (l : locals) (src ifc : H) r :
  transmit st e pp data_len l src ifc = Some r ->
  admitted (r_verdict r) = true /\ r_frame r = pp
  /\ r_sources r = src /\ r_ifaces r = ifc
  /\ exists lines, transmit_lines st pp data_len l lines
     /\ ((dry_run st = 0 /\ exists buf,
            rd_range pp 0 data_len = Some buf
            /\ r_out r = lines ++ [Send buf]
            /\ r_verdict r = (if (send_r e <? 0) && negb (send_enobufs e)
                              then SendFatal else Transmitting))
         \/ (dry_run st <> 0 /\ r_out r = lines
             /\ r_verdict r = Transmitting)).
Proof.
  unfold transmit. intros Hr.
  destruct (if 2 <? verbose st then _ else _) as [lines|] eqn:Hlines;
    [|discriminate].
  simpl in Hr.
  assert (Hl : transmit_lines st pp data_len l lines).
  { unfold transmit_lines. revert Hlines.
    destruct (Z.ltb_spec 2 (verbose st)).
    - destruct (hash_bytes pp l) as [ip|]; [|discriminate].
      destruct (rd_range pp 0 data_len) as [hex|]; [|discriminate].
      simpl. intros [= <-]. right; right. split; [lia|]. eauto.
    - destruct (Z.eqb_spec (verbose st) 1).
      + destruct (hash_bytes pp l) as [ip|]; [|discriminate].
        simpl. intros [= <-]. right; left. eauto.
      + intros [= <-]. left. split; [lia|done]. }
  destruct (Z.eqb_spec (dry_run st) 0) as [Hd|Hd].
  - destruct (rd_range pp 0 data_len) as [buf|]; [|discriminate].
    simpl in Hr. injection Hr as <-. simpl.
    split; [by destruct (_ && _)|]. repeat split.
    exists lines. split; [done|]. left. split; [done|]. eauto.
  - injection Hr as <-. simpl. repeat split.
    exists lines. split; [done|]. by right.
Qed.

Lemma transmit_is_Some st e pp (l : locals) (src ifc : H) :
  key_within (Z.of_nat (length pp)) l ->
  is_Some (transmit st e pp (Z.of_nat (length pp)) l src ifc).
Proof.
  intros Hk. unfold transmit.
  destruct (hash_bytes_is_Some pp l Hk) as [ip ->].
  rewrite rd_range_all. simpl. repeat case_match; simpl; eauto.
Qed.

(** Which of the three ways out of the rate-limit stage was taken. *)
Lemma ratelimit_and_send_inv st e pp (data_len : Z) (l : locals) r :
  ratelimit_and_send st e pp data_len l = Some r ->
  exists key ok src,
    hash_bytes pp l = Some key
    /\ hashlimit_touch_hash (sources st) (t_sources e) key = (ok, src)
    /\ ((ok = false
         /\ reject st pp data_len "Ratelimited on source IP" l src
              (ifaces st) = Some r)
        \/ (ok = true /\ exists ok' ifc,
              hashlimit_touch (ifaces st) (t_ifaces e) 0 = (ok', ifc)
              /\ ((ok' = false
                   /\ reject st pp data_len
                        "Ratelimited on outgoing interface" l src ifc
                      = Some r)
                  \/ (ok' = true
                      /\ transmit st e pp data_len l src ifc = Some r)))).
Proof.
  unfold ratelimit_and_send. intros Hr.
  destruct (hash_bytes pp l) as [key|]; [|discriminate]. simpl in Hr.
  destruct (hashlimit_touch_hash _ _ _) as [ok src] eqn:Hsrc.
  exists key, ok, src. split; [done|]. split; [done|].
  destruct ok; simpl in Hr; [right|left; done].
  split; [done|].
  destruct (hashlimit_touch _ _ _) as [ok' ifc] eqn:Hifc.
  exists ok', ifc. split; [done|].
  destruct ok'; simpl in Hr; [right|left]; done.
Qed.

Lemma ratelimit_and_send_is_Some st e pp (l : locals) :
  key_within (Z.of_nat (length pp)) l ->
  is_Some (ratelimit_and_send st e pp (Z.of_nat (length pp)) l).
Proof.
  intros Hk. unfold ratelimit_and_send.
  destruct (hash_bytes_is_Some pp l Hk) as [key ->]. simpl.
  destruct (hashlimit_touch_hash _ _ _) as [[] src];
    destruct (hashlimit_touch _ _ _) as [[] ifc]; simpl;
    auto using reject_is_Some, transmit_is_Some.
Qed.

(** Every way through [handle_packet], stage by stage. *)
Lemma handle_packet_inv st e p (data_len : Z) r :
  handle_packet st e p data_len = Some r ->
  (r = dropped st p
   /\ (data_len < 50 \/ dst_is_broadcast p = Some true))
  \/ exists eth_type l3_offset l c,
       50 <= data_len /\ dst_is_broadcast p = Some false
       /\ l2_demux p = Some (eth_type, l3_offset)
       /\ classify p data_len eth_type l3_offset = Some (l, c)
       /\ ((exists reason, c = GotoReject reason
             /\ reject st p data_len reason l (sources st) (ifaces st)
                = Some r)
           \/ (c = Next () /\ exists f,
                 port_filter (ports_map st) p data_len l = Some f
                 /\ ((exists reason, f = GotoReject reason
                       /\ reject st p data_len reason l (sources st)
                            (ifaces st) = Some r)
                     \/ (f = Next () /\ exists pp,
                           rewrite_macs p = Some pp
                           /\ ratelimit_and_send st e pp data_len l
                              = Some r)))).
Proof.
  unfold handle_packet. intros Hr.
  destruct (Z.ltb_spec data_len (14 + 20 + 8 + 8));
    [left; injection Hr as <-; split; [done|lia]|].
  destruct (dst_is_broadcast p) as [[]|] eqn:Hbc; simpl in Hr;
    [left; injection Hr as <-; split; [done|by right]| |discriminate].
  destruct (l2_demux p) as [[eth_type l3_offset]|] eqn:Hl2; simpl in Hr;
    [|discriminate].
  destruct (classify _ _ _ _) as [[l c]|] eqn:Hcl; simpl in Hr;
    [|discriminate].
  right. exists eth_type, l3_offset, l, c.
  split; [lia|]. do 3 (split; [done|]).
  destruct c as [[]|reason]; [right|left; eauto].
  split; [done|].
  destruct (port_filter _ _ _ _) as [f|] eqn:Hpf; simpl in Hr;
    [|discriminate].
  exists f. split; [done|].
  destruct f as [[]|reason]; [right|left; eauto].
  split; [done|].
  destruct (rewrite_macs p) as [pp|] eqn:Hrw; simpl in Hr; [|discriminate].
  eauto.
Qed.

(** The same, read forwards: the value of [handle_packet] along each
    way through it. *)
Lemma handle_packet_short st e p (data_len : Z) :
  data_len < 50 -> handle_packet st e p data_len = Some (dropped st p).
Proof.
  intros Hlen. unfold handle_packet.
  by destruct (Z.ltb_spec data_len (14 + 20 + 8 + 8)); [|lia].
Qed.

Lemma handle_packet_broadcast st e p (data_len : Z) :
  dst_is_broadcast p = Some true ->
  handle_packet st e p data_len = Some (dropped st p).
Proof.
  intros Hbc. unfold handle_packet. rewrite Hbc. by destruct (_ <? _).
Qed.

Lemma handle_packet_unclassified st e p (data_len eth_type l3_offset : Z)
    (l : locals) (reason : string) :
  50 <= data_len -> dst_is_broadcast p = Some false ->
  l2_demux p = Some (eth_type, l3_offset) ->
  classify p data_len eth_type l3_offset = Some (l, GotoReject reason) ->
  handle_packet st e p data_len
  = reject st p data_len reason l (sources st) (ifaces st).
Proof.
  intros Hlen Hbc Hl2 Hcl. unfold handle_packet.
  destruct (Z.ltb_spec data_len (14 + 20 + 8 + 8)); [lia|].
  rewrite Hbc. simpl. rewrite Hl2. simpl. by rewrite Hcl.
Qed.

Lemma handle_packet_filtered st e p (data_len eth_type l3_offset : Z)
    (l : locals) (reason : string) :
  50 <= data_len -> dst_is_broadcast p = Some false ->
  l2_demux p = Some (eth_type, l3_offset) ->
  classify p data_len eth_type l3_offset = Some (l, Next ()) ->
  port_filter (ports_map st) p data_len l = Some (GotoReject reason) ->
  handle_packet st e p data_len
  = reject st p data_len reason l (sources st) (ifaces st).
Proof.
  intros Hlen Hbc Hl2 Hcl Hpf. unfold handle_packet.
  destruct (Z.ltb_spec data_len (14 + 20 + 8 + 8)); [lia|].
  rewrite Hbc. simpl. rewrite Hl2. simpl. rewrite Hcl. simpl.
  by rewrite Hpf.
Qed.

Lemma handle_packet_checked st e p pp (data_len eth_type l3_offset : Z)
    (l : locals) :
  50 <= data_len -> dst_is_broadcast p = Some false ->
  l2_demux p = Some (eth_type, l3_offset) ->
  classify p data_len eth_type l3_offset = Some (l, Next ()) ->
  port_filter (ports_map st) p data_len l = Some (Next ()) ->
  rewrite_macs p = Some pp ->
  handle_packet st e p data_len = ratelimit_and_send st e pp data_len l.
Proof.
  intros Hlen Hbc Hl2 Hcl Hpf Hrw. unfold handle_packet.
  destruct (Z.ltb_spec data_len (14 + 20 + 8 + 8)); [lia|].
  rewrite Hbc. simpl. rewrite Hl2. simpl. rewrite Hcl. simpl.
  rewrite Hpf. simpl. by rewrite Hrw.
Qed.

Lemma handle_packet_is_Some st e p :
  is_Some (handle_packet st e p (Z.of_nat (length p))).
Proof.
  unfold handle_packet.
  destruct (Z.ltb_spec (Z.of_nat (length p)) (14 + 20 + 8 + 8)); [eauto|].
  destruct (dst_is_broadcast_is_Some p) as [[] ->]; [lia|simpl; eauto|].
  destruct (l2_demux_in_range p) as (eth_type & l3_offset & -> & Hl3);
    [lia|].
  simpl.
  destruct (classify_is_Some p (Z.of_nat (length p)) eth_type l3_offset)
    as [[l c] Hcl]; [lia|done|].
  rewrite Hcl. simpl.
  destruct (classify_inv _ _ _ _ _ _ Hcl) as [Hshape Hnext].
  assert (Hkey : key_within (Z.of_nat (length p)) l)
    by (eapply classified_key_within; [done|done|lia]).
  destruct c as [[]|reason]; [|by apply reject_is_Some].
  destruct Hnext as (_ & _ & Hoff); [done|].
  destruct (port_filter_is_Some (ports_map st) p l Hoff) as [f ->].
  simpl. destruct f as [[]|reason]; [|by apply reject_is_Some].
  destruct (rewrite_macs p) as [pp|] eqn:Hrw;
    [|rewrite rewrite_macs_spec in Hrw by lia; discriminate].
  simpl. pose proof (rewrite_macs_length _ _ Hrw) as Hlen.
  rewrite <- Hlen. apply ratelimit_and_send_is_Some. by rewrite Hlen.
Qed.

End Stages.

Lemma broadcast_prefix (p : frame) :
  take 6 p = replicate 6 Byte.xff -> dst_is_broadcast p = Some true.
Proof.
  intros Hp. do 6 (destruct p as [|? p]; [discriminate|]).
  simpl in Hp. by simplify_eq.
Qed.

Lemma rewritten_lookup_dst (p : frame) (i : nat) :
  (i < 6)%nat -> rewritten p !! i = Some Byte.xff.
Proof.
  intros Hi. unfold rewritten.
  rewrite lookup_app_l by (rewrite length_replicate; lia).
  by apply lookup_replicate_2.
Qed.

Lemma rewritten_lookup_src (p : frame) (i : nat) :
  (12 <= length p)%nat -> (i < 6)%nat ->
  rewritten p !! (6 + i)%nat = p !! i.
Proof.
  intros Hlen Hi. unfold rewritten.
  rewrite lookup_app_r by (rewrite length_replicate; lia).
  rewrite length_replicate.
  rewrite lookup_app_l by (rewrite length_take; lia).
  replace (6 + i - 6)%nat with i by lia.
  by apply lookup_take_lt.
Qed.

Lemma rewritten_lookup_rest (p : frame) (i : nat) :
  (12 <= length p)%nat -> (12 <= i)%nat ->
  rewritten p !! i = p !! i.
Proof.
  intros Hlen Hi. unfold rewritten.
  rewrite lookup_app_r by (rewrite length_replicate; lia).
  rewrite length_replicate.
  rewrite lookup_app_r by (rewrite length_take; lia).
  rewrite length_take, lookup_drop. f_equal. lia.
Qed.

Lemma rewrite_macs_rewritten (p pp : frame) :
  rewrite_macs p = Some pp -> pp = rewritten p /\ (12 <= length p)%nat.
Proof.
  intros Hrw.
  destruct (Z.le_gt_cases 12 (Z.of_nat (length p))) as [Hlen|Hlen].
  - rewrite rewrite_macs_spec in Hrw by done. injection Hrw as <-.
    split; [done|lia].
  - exfalso. revert Hrw. unfold rewrite_macs.
    do 12 (destruct p as [|? p]; [by vm_compute|]).
    simpl in Hlen. lia.
Qed.

Lemma classify_reason (p : frame) (data_len eth_type l3_offset : Z)
    (l : locals) (reason : string) :
  classify p data_len eth_type l3_offset = Some (l, GotoReject reason) ->
  reason = "IPv4 header invalid length"%string
  \/ reason = "Invalid protocol or too short"%string.
Proof.
  unfold classify, ipv4_branch, check_valid. intros Hc.
  repeat (simplify_option_eq || case_match); auto.
Qed.

Section PortFilterReason.
Context {B : Type} `{!Bitmap B}.

Lemma port_filter_reason (pm : option B) (p : frame) (data_len : Z)
    (l : locals) (reason : string) :
  port_filter pm p data_len l = Some (GotoReject reason) ->
  In reason ["Payload too short"; "Invalid ICMP payload";
             "Too short to read L4 source port";
             "L4 source port not on whitelist"]%string.
Proof.
  unfold port_filter, inner_l4_offset. intros Hc. simpl.
  repeat (simplify_option_eq || case_match); auto.
Qed.
End PortFilterReason.

(** A key that lies at or beyond offset 12 is the same in the rewritten
    frame as in the captured one. *)
Lemma rewritten_length (p : frame) :
  (12 <= length p)%nat -> length (rewritten p) = length p.
Proof.
  intros Hp. apply rewrite_macs_length. apply rewrite_macs_spec. lia.
Qed.

Lemma rd_range_rewritten (p : frame) (off len : Z) :
  (12 <= length p)%nat -> 12 <= off ->
  rd_range (rewritten p) off len = rd_range p off len.
Proof.
  intros Hp Hoff. unfold rd_range. rewrite rewritten_length by done.
  case_match; [|done]. f_equal. f_equal.
  apply list_eq. intros i. rewrite !lookup_drop.
  apply rewritten_lookup_rest; lia.
Qed.

Lemma hash_bytes_rewritten (p : frame) (l : locals) :
  (12 <= length p)%nat ->
  (forall off, hash l = Some off -> 12 <= off) ->
  hash_bytes (rewritten p) l = hash_bytes p l.
Proof.
  intros Hp Hoff. unfold hash_bytes.
  destruct (hash l) as [off|]; [|done].
  apply rd_range_rewritten; auto.
Qed.

Lemma classified_key_offset (data_len l3_offset : Z) (l : locals) :
  classified data_len l3_offset l ->
  l3_offset = 14 \/ l3_offset = 18 ->
  forall off, hash l = Some off -> 12 <= off.
Proof.
  unfold classified.
  intros [(-> & _)|(_ & _ & [(-> & _)|(-> & _)])] Hl3 off [= <-]; lia.
Qed.

(** ** Two frames that differ in two adjacent bytes *)

Section DifferOnlyAt.
Variables (o : Z) (p1 p2 : frame).
Hypothesis Hdiff : differ_only_at o p1 p2.

Lemma rd_differ (i : Z) : i <> o -> i <> o + 1 -> rd p2 i = rd p1 i.
Proof.
  intros Ho Ho'. unfold rd. destruct (Z.leb_spec 0 i); [|done].
  destruct Hdiff as [_ Hd]. rewrite Hd by lia. done.
Qed.

Lemma rd_range_differ (off len : Z) :
  off + len <= o \/ o + 2 <= off ->
  rd_range p2 off len = rd_range p1 off len.
Proof.
  intros Hout. unfold rd_range. destruct Hdiff as [Hlen Hd].
  rewrite Hlen.
  destruct (Z.leb_spec 0 off); [|done].
  destruct (Z.leb_spec 0 len); [|done].
  destruct (Z.leb_spec (off + len) (Z.of_nat (length p1))); [|done].
  simpl. f_equal. apply list_eq. intros i.
  destruct (decide (i < Z.to_nat len)%nat) as [Hi|Hi].
  - rewrite !lookup_take_lt, !lookup_drop by done. apply Hd; lia.
  - rewrite !lookup_take_ge by lia. done.
Qed.

Lemma hash_bytes_differ (l : locals) :
  key_within o l -> hash_bytes p2 l = hash_bytes p1 l.
Proof.
  unfold key_within, hash_bytes. destruct (hash l) as [off|]; [|done].
  intros (_ & _ & Hb). apply rd_range_differ. by left.
Qed.

Lemma dst_is_broadcast_differ :
  6 <= o -> dst_is_broadcast p2 = dst_is_broadcast p1.
Proof.
  intros Ho. unfold dst_is_broadcast, is_ff.
  by rewrite !rd_differ by lia.
Qed.

Lemma l2_demux_differ : 18 <= o -> l2_demux p2 = l2_demux p1.
Proof.
  intros Ho. unfold l2_demux. by rewrite !rd_differ by lia.
Qed.

Lemma classify_differ (data_len eth_type l3_offset : Z) :
  l3_offset + 10 <= o ->
  classify p2 data_len eth_type l3_offset
  = classify p1 data_len eth_type l3_offset.
Proof.
  intros Ho. unfold classify, ipv4_branch, ipv6_branch.
  by rewrite !rd_differ by lia.
Qed.

Lemma inner_l4_offset_differ :
  inner_l4_offset p2 (o + 8) = inner_l4_offset p1 (o + 8).
Proof.
  unfold inner_l4_offset. by rewrite !rd_differ by lia.
Qed.

Lemma rewritten_differ :
  12 <= o -> (12 <= length p1)%nat ->
  differ_only_at o (rewritten p1) (rewritten p2).
Proof.
  intros Ho Hp1. destruct Hdiff as [Hlen Hd].
  split; [rewrite !rewritten_length by lia; done|].
  intros i Hi Hi'.
  destruct (decide (i < 6)%nat) as [Hlt|Hge].
  { by rewrite !rewritten_lookup_dst. }
  destruct (decide (i < 12)%nat) as [Hlt|Hge'].
  { replace i with (6 + (i - 6))%nat by lia.
    rewrite !rewritten_lookup_src by lia. apply Hd; lia. }
  rewrite !rewritten_lookup_rest by lia. by apply Hd.
Qed.

Lemma rewrite_macs_differ :
  12 <= o ->
  match rewrite_macs p1, rewrite_macs p2 with
  | Some pp1, Some pp2 => differ_only_at o pp1 pp2
  | None, None => True
  | _, _ => False
  end.
Proof.
  intros Ho. pose proof Hdiff as [Hlen _].
  destruct (Z.le_gt_cases 12 (Z.of_nat (length p1))) as [Hp|Hp].
  - rewrite !rewrite_macs_spec by lia. apply rewritten_differ; lia.
  - destruct (rewrite_macs p1) as [pp1|] eqn:H1;
      [apply rewrite_macs_rewritten in H1; lia|].
    destruct (rewrite_macs p2) as [pp2|] eqn:H2;
      [apply rewrite_macs_rewritten in H2; lia|done].
Qed.

End DifferOnlyAt.

Lemma classify_icmp_offset (p : frame) (data_len eth_type l3_offset : Z)
    (l : locals) (c : flow unit) :
  classify p data_len eth_type l3_offset = Some (l, c) ->
  icmp_offset l = -1 \/ l3_offset + 20 <= icmp_offset l.
Proof.
  unfold classify. intros Hc.
  destruct (ipv4_branch _ _ _ _ _) as [[l4|r]|] eqn:H4; simpl in Hc;
    [|injection Hc as <- <-; by left|discriminate].
  destruct (ipv6_branch _ _ _ _ _) as [l6|] eqn:H6; simpl in Hc;
    [|discriminate].
  injection Hc as <- <-.
  apply ipv4_branch_inv in H4. apply ipv6_branch_inv in H6.
  destruct H4 as [->|(_ & Hoff4 & _)];
    destruct H6 as [->|(_ & Hoff6 & _)]; simpl in *; lia.
Qed.

Lemma classified_key_before_icmp (data_len l3_offset : Z) (l : locals) :
  classified data_len l3_offset l -> 0 <= l3_offset ->
  key_within (icmp_offset l) l.
Proof.
  unfold classified, key_within.
  intros [(-> & _)|(_ & ? & [(-> & -> & _)|(-> & -> & ? & _)])] Hl3; lia.
Qed.

Lemma classify_ipv6_pass (p : frame) (data_len eth_type l3_offset : Z) :
  ipv6_conditions p data_len eth_type l3_offset ->
  classify p data_len eth_type l3_offset
  = Some (ipv6_locals l3_offset, Next ()).
Proof.
  intros (-> & (b & Hb & Hnib) & Hnh & Hlen).
  unfold classify, ipv4_branch, ipv6_branch. simpl.
  rewrite Hb. simpl. rewrite Hnib. simpl. rewrite Hnh. simpl.
  destruct (Z.leb_spec (l3_offset + 40 + 8 + 32) data_len); [|lia].
  simpl. unfold check_valid. simpl.
  apply rd_Some_lt in Hb.
  by destruct (Z.ltb_spec (l3_offset + 40) 0); [lia|].
Qed.

Lemma classify_ipv6_inv (p : frame) (data_len eth_type l3_offset : Z)
    (l : locals) :
  classify p data_len eth_type l3_offset = Some (l, Next ()) ->
  eth_type = 0x86dd \/ hash_len l = 16 ->
  ipv6_conditions p data_len eth_type l3_offset /\ l = ipv6_locals l3_offset.
Proof.
  unfold classify, ipv6_conditions. intros Hc Hv6.
  destruct (ipv4_branch _ _ _ _ _) as [[l4|r]|] eqn:H4; simpl in Hc;
    [|discriminate|discriminate].
  destruct (ipv6_branch _ _ _ _ _) as [l6|] eqn:H6; simpl in Hc;
    [|discriminate].
  injection Hc as <- Hchk.
  apply ipv4_branch_inv in H4.
  assert (Hv : valid l6 = 1 /\ hash_len l6 <> 0).
  { revert Hchk. unfold check_valid.
    destruct (Z.eqb_spec (valid l6) 0); [discriminate|].
    destruct (hash l6); [|discriminate]. simpl.
    destruct (Z.eqb_spec (hash_len l6) 0); [discriminate|].
    intros _. split; [|done].
    apply ipv6_branch_inv in H6.
    destruct H4 as [->|(_ & _ & [(?&?&?)|(?&?&?&?)])];
      destruct H6 as [->|(_ & _ & [(?&?&?)|(?&?&?&?)])]; simpl in *; lia. }
  destruct Hv as [Hvalid Hklen].
  revert H6. unfold ipv6_branch.
  destruct (Z.eqb_spec eth_type 34525) as [Het|Het]; simpl.
  - destruct (rd p l3_offset) as [b|] eqn:Hb; [|discriminate]. simpl.
    destruct (Z.eqb_spec (Z.land b 240) 96) as [Hnib|Hnib].
    + destruct (rd p (l3_offset + 6)) as [nh|] eqn:Hnh; [|discriminate].
      simpl. destruct (Z.eqb_spec nh 58) as [->|Hne]; simpl.
      * destruct (Z.leb_spec (l3_offset + 40 + 8 + 32) data_len).
        -- intros [= <-]. split; [|done]. repeat split; eauto.
        -- intros [= <-]. simpl in *.
           destruct H4 as [->|(? & _)]; simpl in *; lia.
      * intros [= <-]. simpl in *.
        destruct H4 as [->|(? & _)]; simpl in *; lia.
    + intros [= <-]. destruct H4 as [->|(? & _)]; simpl in *; lia.
  - intros [= <-].
    destruct H4 as [->|(_ & _ & [(?&?&?)|(?&?&?&?)])];
      destruct Hv6; simpl in *; lia.
Qed.

(** C5. A frame passes classification as IPv6 exactly when its
    EtherType (after the optional VLAN tag) is 0x86dd, the version nibble
    at the L3 offset is 6, the next-header byte at L3+6 is 58 and the
    frame is at least L3 + 40 + 8 + 32 bytes long.  The ICMP offset is
    then L3 + 40 and the key of the per-source rate limiter is the 16
    bytes of the captured frame at L3+8 (also after the rewrite of the
    Ethernet addresses that precedes the limiter). *)
Theorem C5_ipv6_classification (p : frame) (eth_type l3_offset : Z) :
  l2_demux p = Some (eth_type, l3_offset) ->
  let data_len := Z.of_nat (length p) in
  ((exists l, classify p data_len eth_type l3_offset = Some (l, Next ())
              /\ (eth_type = 0x86dd \/ hash_len l = 16))
   <-> (eth_type = 0x86dd
        /\ (exists b, rd p l3_offset = Some b /\ Z.land b 0xF0 = 0x60)
        /\ rd p (l3_offset + 6) = Some 58
        /\ l3_offset + 40 + 8 + 32 <= data_len))
  /\ forall l,
       classify p data_len eth_type l3_offset = Some (l, Next ()) ->
       eth_type = 0x86dd \/ hash_len l = 16 ->
       icmp_offset l = l3_offset + 40
       /\ hash l = Some (l3_offset + 8) /\ hash_len l = 16
       /\ hash_bytes p l
          = Some (take 16 (drop (Z.to_nat (l3_offset + 8)) p))
       /\ hash_bytes (rewritten p) l = hash_bytes p l.
Proof.
  intros Hl2 data_len. pose proof (l2_demux_offset _ _ _ Hl2) as Hl3.
  split.
  - split.
    + intros (l & Hc & Hv6).
      by destruct (classify_ipv6_inv _ _ _ _ _ Hc Hv6) as [? _].
    + intros Hcond. exists (ipv6_locals l3_offset).
      split; [by apply classify_ipv6_pass|by right].
  - intros l Hc Hv6.
    destruct (classify_ipv6_inv _ _ _ _ _ Hc Hv6) as [Hcond ->].
    destruct Hcond as (_ & _ & _ & Hlen). subst data_len.
    repeat split.
    + unfold hash_bytes. simpl. by rewrite rd_range_in_range by lia.
    + apply hash_bytes_rewritten; [lia|]. simpl. intros off [= <-]. lia.
Qed.

(** ** The inner-payload port filter against its description *)

(** The code and the description part ways exactly on the byte that
    selects the case: the code switches on the byte eight further on. *)
Lemma inner_l4_offset_selector (p : frame) (payload_offset b v : Z) :
  rd p payload_offset = Some b ->
  rd p (payload_offset + 8) = Some v ->
  Z.land v 0xF0 = Z.land b 0xF0 ->
  inner_l4_offset p payload_offset = spec_inner_l4_offset p payload_offset.
Proof.
  intros Hb Hv Hsel. unfold inner_l4_offset, spec_inner_l4_offset.
  rewrite Hb, Hv. simpl. rewrite Hsel.
  by repeat case_match.
Qed.

(** ** Properties of the packet path *)

Section Properties.
Context {H B : Type} `{!Hashlimit H} `{!Bitmap B}.
Implicit Types (st : state H B) (r : result H) (e : env) (p pp : frame).

(** C8. Memory safety of the frame accesses: on a buffer [p] of
    [data_len = length p] bytes the call always runs to completion in
    the model where every read of and write to the frame outside
    [0, data_len) is a fault.  Hence each access made by
    [handle_packet] (the destination address, EtherType and VLAN tag,
    the IP header fields, the key bytes, the inner version and IHL
    bytes, the two port bytes, the rewrite and the final dump and
    send) has its index in range. *)
Theorem C8_frame_accesses_in_range st e p :
  is_Some (handle_packet st e p (Z.of_nat (length p))).
Proof. apply handle_packet_is_Some. Qed.

(** C4. A frame whose destination address (bytes 0-5) is
    ff:ff:ff:ff:ff:ff is never admitted: whatever the state, the length
    argument and the rest of the frame, [handle_packet] leaves through
    one of the two plain [return -1] at its top, so it returns -1 with
    the frame, both rate-limit tables and the output untouched. *)
Theorem C4_broadcast_never_admitted st e p (data_len : Z) :
  take 6 p = replicate 6 Byte.xff ->
  exists r, handle_packet st e p data_len = Some r
    /\ r_verdict r = Dropped /\ retcode (r_verdict r) = Some (-1)
    /\ admitted (r_verdict r) = false
    /\ r_sources r = sources st /\ r_ifaces r = ifaces st
    /\ r_frame r = p /\ r_out r = [].
Proof.
  intros Hbc. exists (dropped st p). split; [|done].
  unfold handle_packet. rewrite (broadcast_prefix p Hbc).
  by destruct (_ <? _).
Qed.

(** C1. For every admitted frame that is sent (no dry run), exactly
    one buffer is handed to [send]: the captured bytes with bytes 0-5
    set to [0xff] and bytes 6-11 set to the original bytes 0-5; every
    byte at offset 12 and beyond is the captured one. *)
Theorem C1_egress_bytes st e p r :
  handle_packet st e p (Z.of_nat (length p)) = Some r ->
  admitted (r_verdict r) = true ->
  dry_run st = 0 ->
  sent (r_out r) = [replicate 6 Byte.xff ++ take 6 p ++ drop 12 p]
  /\ forall buf, buf ∈ sent (r_out r) ->
       length buf = length p
       /\ (forall i, (i < 6)%nat -> buf !! i = Some Byte.xff)
       /\ (forall i, (i < 6)%nat -> buf !! (6 + i)%nat = p !! i)
       /\ (forall i, (12 <= i)%nat -> buf !! i = p !! i).
Proof.
  intros Hr Hadm Hdry.
  assert (Hsent : sent (r_out r) = [rewritten p] /\ (12 <= length p)%nat).
  { apply handle_packet_inv in Hr.
    destruct Hr as [[-> _]|(et & l3 & l & c & _ & _ & _ & _ & Hr)];
      [discriminate|].
    destruct Hr as [(reason & _ & Hr)|(_ & f & _ & Hr)];
      [apply reject_inv in Hr as (Hv & _); rewrite Hv in Hadm;
       discriminate|].
    destruct Hr as [(reason & _ & Hr)|(_ & pp & Hrw & Hr)];
      [apply reject_inv in Hr as (Hv & _); rewrite Hv in Hadm;
       discriminate|].
    pose proof (rewrite_macs_length _ _ Hrw) as Hlen.
    apply rewrite_macs_rewritten in Hrw as [-> Hp].
    apply ratelimit_and_send_inv in Hr
      as (key & ok & src & _ & _ & [(_ & Hr)|(_ & ok' & ifc & _ & Hr)]);
      [apply reject_inv in Hr as (Hv & _); rewrite Hv in Hadm;
       discriminate|].
    destruct Hr as [(_ & Hr)|(_ & Hr)];
      [apply reject_inv in Hr as (Hv & _); rewrite Hv in Hadm;
       discriminate|].
    apply transmit_inv in Hr
      as (_ & _ & _ & _ & lines & Hlines & [Hsend|(Hd & _)]); [|done].
    destruct Hsend as (_ & buf & Hbuf & -> & _).
    rewrite <- Hlen, rd_range_all in Hbuf. injection Hbuf as <-.
    split; [|done].
    destruct Hlines as [(_ & ->)|[(_ & ip & _ & ->)|(_ & ip & hex & _ & _ & ->)]];
      reflexivity. }
  destruct Hsent as [Hsent Hp]. split; [exact Hsent|].
  intros buf Hbuf. rewrite Hsent in Hbuf.
  apply list_elem_of_singleton in Hbuf as ->.
  split; [|split; [|split]].
  - apply rewrite_macs_length. apply rewrite_macs_spec. lia.
  - intros i Hi. by apply rewritten_lookup_dst.
  - intros i Hi. by apply rewritten_lookup_src.
  - intros i Hi. by apply rewritten_lookup_rest.
Qed.

(** C2, as the code has it. The Ethernet addresses are rewritten after
    classification and the port whitelist have passed and before the
    two rate limiters are asked.  A frame that leaves through the size
    or broadcast guard, or is rejected by classification or by the
    whitelist, has every byte, and both tables, as on ingress.  A frame
    rejected by either rate limiter has bytes 0-5 set to [0xff] and
    bytes 6-11 set to the original bytes 0-5; bytes from offset 12 on
    are unchanged. *)
Theorem C2_rewrite_precedes_rate_limits st e p (data_len : Z) r :
  handle_packet st e p data_len = Some r ->
  admitted (r_verdict r) = false ->
  (r_verdict r = Dropped /\ r_frame r = p
   /\ r_sources r = sources st /\ r_ifaces r = ifaces st)
  \/ (exists reason,
        r_verdict r = Rejected reason /\ ratelimit_reason reason = false
        /\ r_frame r = p
        /\ r_sources r = sources st /\ r_ifaces r = ifaces st)
  \/ (exists reason,
        r_verdict r = Rejected reason /\ ratelimit_reason reason = true
        /\ r_frame r = replicate 6 Byte.xff ++ take 6 p ++ drop 12 p
        /\ forall i, (12 <= i)%nat -> r_frame r !! i = p !! i).
Proof.
  intros Hr Hadm. apply handle_packet_inv in Hr.
  destruct Hr as [[-> _]|(et & l3 & l & c & _ & _ & _ & Hcl & Hr)];
    [by left|right].
  destruct Hr as [(reason & -> & Hr)|(_ & f & Hpf & Hr)].
  { left. exists reason. apply reject_inv in Hr as (? & ? & ? & ? & _).
    apply classify_reason in Hcl as [-> | ->]; done. }
  destruct Hr as [(reason & -> & Hr)|(_ & pp & Hrw & Hr)].
  { left. exists reason. apply reject_inv in Hr as (? & ? & ? & ? & _).
    apply port_filter_reason in Hpf. simpl in Hpf.
    destruct Hpf as [<-|[<-|[<-|[<-|[]]]]]; done. }
  right. apply rewrite_macs_rewritten in Hrw as [-> Hp].
  assert (Hrest : forall i, (12 <= i)%nat -> rewritten p !! i = p !! i)
    by (intros; by apply rewritten_lookup_rest).
  apply ratelimit_and_send_inv in Hr
    as (key & ok & src & _ & _ & [(_ & Hr)|(_ & ok' & ifc & _ & Hr)]).
  { apply reject_inv in Hr as (? & -> & _). eexists. by repeat split. }
  destruct Hr as [(_ & Hr)|(_ & Hr)].
  { apply reject_inv in Hr as (? & -> & _). eexists. by repeat split. }
  apply transmit_inv in Hr as (Hv & _). congruence.
Qed.

(** C6 fails on the code at verbosity 2. The transmit block tests
    [verbose == 1] (line 223) where the [reject:] block tests
    [verbose > 1] (line 240), so with verbosity 2 an admitted packet,
    which is to print [source_ip transmitting] from verbosity 1 on,
    prints nothing, while a packet rejected at the [reject:] label does
    print its line.  At every other verbosity the lines are those of
    C6: an admitted packet prints one line at verbosity 1 and at 3 and
    above, a packet rejected at the [reject:] label prints one line
    with its reason at 2 and above, and at 3 and above the lines carry
    the hex dump of the whole frame buffer as the call leaves it.  A
    packet that leaves through the size or broadcast guard is dropped
    without a line at any verbosity. *)
Theorem C6_transmit_line_missing_at_verbosity_2 st e p r :
  handle_packet st e p (Z.of_nat (length p)) = Some r ->
  match r_verdict r with
  | Dropped => r_out r = []
  | Rejected reason =>
      (verbose st <= 1 -> r_out r = [])
      /\ (verbose st = 2 -> exists ip,
            printed_ip p (Z.of_nat (length p)) ip
            /\ r_out r = [Printed ip reason None])
      /\ (3 <= verbose st -> exists ip,
            printed_ip p (Z.of_nat (length p)) ip
            /\ r_out r = [Printed ip reason (Some (r_frame r))])
  | Transmitting | SendFatal =>
      (verbose st <= 0 -> printed (r_out r) = [])
      /\ (verbose st = 1 -> exists ip,
            printed_ip p (Z.of_nat (length p)) ip
            /\ printed (r_out r) = [Printed ip "transmitting" None])
      /\ (verbose st = 2 -> printed (r_out r) = [])
      /\ (3 <= verbose st -> exists ip,
            printed_ip p (Z.of_nat (length p)) ip
            /\ printed (r_out r)
               = [Printed ip "transmitting" (Some (r_frame r))])
  end.
Proof.
  intros Hr. apply handle_packet_inv in Hr.
  destruct Hr as [[-> _]|(et & l3 & l & c & _ & _ & Hl2 & Hcl & Hr)];
    [done|].
  assert (Hearly : forall reason,
    reject st p (Z.of_nat (length p)) reason l (sources st) (ifaces st)
      = Some r ->
    match r_verdict r with
    | Rejected reason' =>
        (verbose st <= 1 -> r_out r = [])
        /\ (verbose st = 2 -> exists ip,
              printed_ip p (Z.of_nat (length p)) ip
              /\ r_out r = [Printed ip reason' None])
        /\ (3 <= verbose st -> exists ip,
              printed_ip p (Z.of_nat (length p)) ip
              /\ r_out r = [Printed ip reason' (Some (r_frame r))])
    | _ => False
    end).
  { intros reason Hrej.
    apply reject_inv in Hrej as (-> & -> & _ & _ & Hlines).
    unfold reject_lines in Hlines. rewrite rd_range_all in Hlines.
    destruct Hlines
      as [(Hv & ->)|[(Hv & ip & Hip & ->)|(Hv & ip & hex & Hip & [= <-] & ->)]];
      (split; [|split]); intros Hv'; try lia; try done;
      exists ip; (split; [|done]); by exists et, l3, l, c. }
  destruct Hr as [(reason & -> & Hr)|(_ & f & Hpf & Hr)].
  { specialize (Hearly _ Hr). by destruct (r_verdict r). }
  destruct Hr as [(reason & -> & Hr)|(_ & pp & Hrw & Hr)].
  { specialize (Hearly _ Hr). by destruct (r_verdict r). }
  pose proof (rewrite_macs_length _ _ Hrw) as Hlen.
  apply rewrite_macs_rewritten in Hrw as [-> Hp].
  destruct (classify_inv _ _ _ _ _ _ Hcl) as [Hshape _].
  pose proof (l2_demux_offset _ _ _ Hl2) as Hl3.
  assert (Hip : forall ip, hash_bytes (rewritten p) l = Some ip ->
                printed_ip p (Z.of_nat (length p)) ip).
  { intros ip Hip. exists et, l3, l, c. repeat split; try done.
    rewrite <- Hip. symmetry. apply hash_bytes_rewritten; [done|].
    by eapply classified_key_offset. }
  rewrite <- Hlen in Hr.
  assert (Hlate : forall reason src ifc,
    reject st (rewritten p) (Z.of_nat (length (rewritten p))) reason l
      src ifc = Some r ->
    match r_verdict r with
    | Rejected reason' =>
        (verbose st <= 1 -> r_out r = [])
        /\ (verbose st = 2 -> exists ip,
              printed_ip p (Z.of_nat (length p)) ip
              /\ r_out r = [Printed ip reason' None])
        /\ (3 <= verbose st -> exists ip,
              printed_ip p (Z.of_nat (length p)) ip
              /\ r_out r = [Printed ip reason' (Some (r_frame r))])
    | _ => False
    end).
  { intros reason src ifc Hrej.
    apply reject_inv in Hrej as (-> & -> & _ & _ & Hlines).
    unfold reject_lines in Hlines. rewrite rd_range_all in Hlines.
    destruct Hlines
      as [(Hv & ->)|[(Hv & ip & Hip' & ->)|(Hv & ip & hex & Hip' & [= <-] & ->)]];
      (split; [|split]); intros Hv'; try lia; try done;
      exists ip; (split; [|done]); by apply Hip. }
  apply ratelimit_and_send_inv in Hr
    as (key & ok & src & _ & _ & [(_ & Hr)|(_ & ok' & ifc & _ & Hr)]).
  { specialize (Hlate _ _ _ Hr). by destruct (r_verdict r). }
  destruct Hr as [(_ & Hr)|(_ & Hr)].
  { specialize (Hlate _ _ _ Hr). by destruct (r_verdict r). }
  apply transmit_inv in Hr
    as (Hadm & -> & _ & _ & lines & Hlines & Hsend).
  assert (Hpr : printed (r_out r) = lines).
  { destruct Hsend as [(_ & buf & _ & -> & _)|(_ & -> & _)];
      destruct Hlines
        as [(_ & ->)|[(_ & ? & _ & ->)|(_ & ? & ? & _ & _ & ->)]];
      reflexivity. }
  rewrite Hpr. unfold transmit_lines in Hlines.
  rewrite rd_range_all in Hlines.
  assert (Hgoal :
    (verbose st <= 0 -> lines = [])
    /\ (verbose st = 1 -> exists ip,
          printed_ip p (Z.of_nat (length p)) ip
          /\ lines = [Printed ip "transmitting" None])
    /\ (verbose st = 2 -> lines = [])
    /\ (3 <= verbose st -> exists ip,
          printed_ip p (Z.of_nat (length p)) ip
          /\ lines = [Printed ip "transmitting" (Some (rewritten p))])).
  { destruct Hlines
      as [(Hv & ->)|[(Hv & ip & Hip' & ->)|(Hv & ip & hex & Hip' & [= <-] & ->)]];
      (split; [|split; [|split]]); intros Hv'; try lia; try done;
      exists ip; (split; [|done]); by apply Hip. }
  destruct (r_verdict r); try done.
Qed.

(** C9. When a frame passes classification and the per-source limiter
    admits it but the per-interface limiter denies it, the frame is
    rejected (return -1) and the sources table is left exactly as the
    admitting touch of the source's bucket made it: nothing is
    refunded, and it is the table that the same call ends with when
    the per-interface limiter admits. *)
Theorem C9_source_token_not_refunded st e p (data_len : Z) r :
  handle_packet st e p data_len = Some r ->
  r_verdict r = Rejected "Ratelimited on outgoing interface" ->
  retcode (r_verdict r) = Some (-1)
  /\ (exists key,
        hashlimit_touch_hash (sources st) (t_sources e) key
          = (true, r_sources r))
  /\ fst (hashlimit_touch (ifaces st) (t_ifaces e) 0) = false
  /\ forall ifc' r',
       handle_packet (with_ifaces st ifc') e p data_len = Some r' ->
       admitted (r_verdict r') = true ->
       r_sources r' = r_sources r.
Proof.
  intros Hr Hv. split; [by rewrite Hv|].
  apply handle_packet_inv in Hr.
  destruct Hr as [[-> _]|(et & l3 & l & c & _ & _ & Hl2 & Hcl & Hr)];
    [done|].
  destruct Hr as [(reason & -> & Hr)|(_ & f & Hpf & Hr)].
  { apply reject_inv in Hr as (Hv' & _). rewrite Hv in Hv'.
    injection Hv' as <-. by apply classify_reason in Hcl as [|]. }
  destruct Hr as [(reason & -> & Hr)|(_ & pp & Hrw & Hr)].
  { apply reject_inv in Hr as (Hv' & _). rewrite Hv in Hv'.
    injection Hv' as <-. apply port_filter_reason in Hpf. simpl in Hpf.
    by destruct Hpf as [?|[?|[?|[?|[]]]]]. }
  apply ratelimit_and_send_inv in Hr
    as (key & ok & src & Hkey & Hsrc & [(_ & Hr)|(-> & ok' & ifc & Hifc & Hr)]).
  { apply reject_inv in Hr as (Hv' & _). congruence. }
  destruct Hr as [(-> & Hr)|(_ & Hr)];
    [|apply transmit_inv in Hr as (Hadm & _); by rewrite Hv in Hadm].
  apply reject_inv in Hr as (_ & _ & Hsrc' & _). subst src.
  split; [eauto|]. split; [by rewrite Hifc|].
  intros ifc' r' Hr' Hadm'.
  apply handle_packet_inv in Hr'.
  destruct Hr' as [[-> _]|(et' & l3' & l' & c' & _ & _ & Hl2' & Hcl' & Hr')];
    [done|].
  rewrite Hl2 in Hl2'. injection Hl2' as <- <-.
  rewrite Hcl in Hcl'. injection Hcl' as <- <-.
  destruct Hr' as [(reason & _ & Hr')|(_ & f' & _ & Hr')];
    [apply reject_inv in Hr' as (Hv' & _); by rewrite Hv' in Hadm'|].
  destruct Hr' as [(reason & _ & Hr')|(_ & pp' & Hrw' & Hr')];
    [apply reject_inv in Hr' as (Hv' & _); by rewrite Hv' in Hadm'|].
  rewrite Hrw in Hrw'. injection Hrw' as <-.
  apply ratelimit_and_send_inv in Hr'
    as (key' & ok2 & src' & Hkey' & Hsrc' & Hr').
  rewrite Hkey in Hkey'. injection Hkey' as <-.
  simpl in Hsrc'. rewrite Hsrc in Hsrc'. injection Hsrc' as <- <-.
  destruct Hr' as [(? & _)|(_ & ok2' & ifc2 & _ & [(_ & Hr')|(_ & Hr')])];
    [done| |].
  - apply reject_inv in Hr' as (Hv' & _). by rewrite Hv' in Hadm'.
  - by apply transmit_inv in Hr' as (_ & _ & -> & _).
Qed.

Lemma reject_dry_twin st (d : Z) p (data_len : Z) (reason : string)
    (l : locals) (src ifc : H) r :
  reject (with_dry_run st 0) p data_len reason l src ifc = Some r ->
  reject (with_dry_run st d) p data_len reason l src ifc = Some r
  /\ dry_twin r r.
Proof.
  intros Hr. split; [exact Hr|].
  apply reject_inv in Hr as (Hv & _ & _ & _ & Hlines).
  unfold dry_twin. rewrite Hv. simpl.
  destruct Hlines
    as [(_ & ->)|[(_ & ? & _ & ->)|(_ & ? & ? & _ & _ & ->)]];
    by repeat split.
Qed.

Lemma transmit_dry_twin st e (d : Z) pp (l : locals) (src ifc : H) r :
  d <> 0 ->
  transmit (with_dry_run st 0) e pp (Z.of_nat (length pp)) l src ifc
    = Some r ->
  exists r',
    transmit (with_dry_run st d) e pp (Z.of_nat (length pp)) l src ifc
      = Some r'
    /\ dry_twin r r'.
Proof.
  intros Hd. unfold transmit.
  cbn [with_dry_run sources ifaces verbose dry_run ports_map].
  rewrite rd_range_all.
  destruct (Z.eqb_spec d 0); [done|].
  destruct (if 2 <? verbose st then _ else _) as [lines|] eqn:Hlines;
    [|discriminate].
  simpl. intros [= <-]. eexists. split; [done|].
  assert (Hp : printed lines = lines /\ sent lines = []).
  { revert Hlines. repeat case_match; intros; simplify_option_eq; done. }
  destruct Hp as [Hp Hs].
  unfold dry_twin, printed, sent in *. simpl.
  rewrite !omap_app, Hp, Hs. simpl. rewrite app_nil_r.
  repeat split; by destruct (_ && _).
Qed.

Lemma ratelimit_and_send_dry_twin st e (d : Z) pp (l : locals) r :
  d <> 0 ->
  ratelimit_and_send (with_dry_run st 0) e pp (Z.of_nat (length pp)) l
    = Some r ->
  exists r',
    ratelimit_and_send (with_dry_run st d) e pp (Z.of_nat (length pp)) l
      = Some r'
    /\ dry_twin r r'.
Proof.
  intros Hd. unfold ratelimit_and_send.
  cbn [with_dry_run sources ifaces verbose dry_run ports_map].
  destruct (hash_bytes pp l) as [key|]; [|discriminate]. simpl.
  destruct (hashlimit_touch_hash _ _ _) as [[] src].
  - destruct (hashlimit_touch _ _ _) as [[] ifc]; simpl.
    + by apply transmit_dry_twin.
    + intros Hr. exists r. by apply reject_dry_twin.
  - simpl. intros Hr. exists r. by apply reject_dry_twin.
Qed.

(** C7. Dry-run equivalence: for every frame, state and environment,
    the run with [--dry-run] set and the run with it unset take the
    same decision at every stage (same reject reason, or both reach
    the transmit block), leave the same two rate-limit tables and the
    same frame buffer, and print the same lines; the one difference is
    that only the run without the flag hands the frame to [send]. *)
Theorem C7_dry_run_equivalence st e p (d : Z) :
  d <> 0 ->
  exists r_wet r_dry,
    handle_packet (with_dry_run st 0) e p (Z.of_nat (length p))
      = Some r_wet
    /\ handle_packet (with_dry_run st d) e p (Z.of_nat (length p))
       = Some r_dry
    /\ r_verdict r_dry = (if admitted (r_verdict r_wet) then Transmitting
                          else r_verdict r_wet)
    /\ r_sources r_dry = r_sources r_wet
    /\ r_ifaces r_dry = r_ifaces r_wet
    /\ r_frame r_dry = r_frame r_wet
    /\ r_out r_dry = printed (r_out r_wet)
    /\ sent (r_out r_dry) = []
    /\ sent (r_out r_wet) = (if admitted (r_verdict r_wet)
                             then [r_frame r_wet] else []).
Proof.
  intros Hd.
  destruct (handle_packet_is_Some (with_dry_run st 0) e p) as [rw Hw].
  exists rw.
  cut (exists rd, handle_packet (with_dry_run st d) e p
                    (Z.of_nat (length p)) = Some rd /\ dry_twin rw rd).
  { intros (rd & Hrd & Htwin). exists rd. by repeat split; try apply Htwin. }
  pose proof Hw as Hinv. apply handle_packet_inv in Hinv.
  destruct Hinv as [[-> Hwhy]|(et & l3 & l & c & Hlen & Hbc & Hl2 & Hcl & Hr)].
  { exists (dropped (with_dry_run st d) p). split; [|by repeat split].
    destruct Hwhy; [by apply handle_packet_short
                   |by apply handle_packet_broadcast]. }
  destruct Hr as [(reason & -> & Hr)|(-> & f & Hpf & Hr)].
  { exists rw. rewrite (handle_packet_unclassified _ _ _ _ _ _ _ _
                         Hlen Hbc Hl2 Hcl).
    by apply reject_dry_twin. }
  destruct Hr as [(reason & -> & Hr)|(-> & pp & Hrw & Hr)].
  { exists rw. rewrite (handle_packet_filtered (with_dry_run st d)
                         _ _ _ _ _ _ _ Hlen Hbc Hl2 Hcl Hpf).
    by apply reject_dry_twin. }
  rewrite (handle_packet_checked (with_dry_run st d)
             _ _ _ _ _ _ _ Hlen Hbc Hl2 Hcl Hpf Hrw).
  pose proof (rewrite_macs_length _ _ Hrw) as Hpp.
  rewrite <- Hpp in Hr |- *.
  by apply ratelimit_and_send_dry_twin.
Qed.

Lemma port_filter_differ (o : Z) p1 p2 (pm : option B) (data_len : Z)
    (l : locals) :
  differ_only_at o p1 p2 -> icmp_offset l = o ->
  port_filter pm p2 data_len l = port_filter pm p1 data_len l.
Proof.
  intros Hdiff Ho. unfold port_filter. destruct pm as [m|]; [|done].
  rewrite Ho. case_match; [done|].
  rewrite (inner_l4_offset_differ o p1 p2 Hdiff).
  destruct (inner_l4_offset p1 (o + 8)) as [[l4|reason]|] eqn:Hl4;
    simpl; [|done|done].
  apply inner_l4_offset_ge in Hl4.
  by rewrite !(rd_differ o p1 p2 Hdiff) by lia.
Qed.

Lemma reject_differ (o : Z) p1 p2 st (data_len : Z) (reason : string)
    (l : locals) (src ifc : H) :
  differ_only_at o p1 p2 -> key_within o l ->
  decision <$> reject st p2 data_len reason l src ifc
  = decision <$> reject st p1 data_len reason l src ifc.
Proof.
  intros Hdiff Hkey. unfold reject.
  rewrite (hash_bytes_differ o p1 p2 Hdiff l Hkey).
  unfold rd_range. destruct Hdiff as [-> _].
  destruct (hash_bytes p1 l) as [ip|];
    repeat (case_match; simpl; try done).
Qed.

Lemma transmit_differ (o : Z) pp1 pp2 st e (data_len : Z) (l : locals)
    (src ifc : H) :
  differ_only_at o pp1 pp2 -> key_within o l ->
  decision <$> transmit st e pp2 data_len l src ifc
  = decision <$> transmit st e pp1 data_len l src ifc.
Proof.
  intros Hdiff Hkey. unfold transmit.
  rewrite (hash_bytes_differ o pp1 pp2 Hdiff l Hkey).
  unfold rd_range. destruct Hdiff as [-> _].
  destruct (hash_bytes pp1 l) as [ip|];
    repeat (case_match; simpl; try done).
Qed.

Lemma ratelimit_and_send_differ (o : Z) pp1 pp2 st e (data_len : Z)
    (l : locals) :
  differ_only_at o pp1 pp2 -> key_within o l ->
  decision <$> ratelimit_and_send st e pp2 data_len l
  = decision <$> ratelimit_and_send st e pp1 data_len l.
Proof.
  intros Hdiff Hkey. unfold ratelimit_and_send.
  rewrite (hash_bytes_differ o pp1 pp2 Hdiff l Hkey).
  destruct (hash_bytes pp1 l) as [key|]; [|done]. simpl.
  destruct (hashlimit_touch_hash _ _ _) as [[] src]; simpl;
    [|by apply (reject_differ o)].
  destruct (hashlimit_touch _ _ _) as [[] ifc]; simpl;
    [by apply (transmit_differ o)|by apply (reject_differ o)].
Qed.

(** C10. The classifier never looks at the ICMP type and code. Let
    [icmp_offset] be the offset that the classification of a frame
    computed for its ICMP header.  Any frame of the same length that
    differs from it at most in the bytes at [icmp_offset] and
    [icmp_offset + 1] takes the same way through [handle_packet]
    (same return, same reject reason) and leaves the same two
    rate-limit tables, in every state and environment. *)
Theorem C10_icmp_type_code_not_read st e p1 p2
    (data_len eth_type l3_offset : Z) (l : locals) (c : flow unit) :
  l2_demux p1 = Some (eth_type, l3_offset) ->
  classify p1 data_len eth_type l3_offset = Some (l, c) ->
  0 <= icmp_offset l ->
  differ_only_at (icmp_offset l) p1 p2 ->
  decision <$> handle_packet st e p2 data_len
  = decision <$> handle_packet st e p1 data_len.
Proof.
  intros Hl2 Hcl Hoff Hdiff.
  pose proof (l2_demux_offset _ _ _ Hl2) as Hl3.
  pose proof (classify_icmp_offset _ _ _ _ _ _ Hcl) as Hicmp.
  destruct (classify_inv _ _ _ _ _ _ Hcl) as [Hshape _].
  assert (Hkey : key_within (icmp_offset l) l)
    by (eapply classified_key_before_icmp; [done|lia]).
  set (o := icmp_offset l) in *.
  unfold handle_packet.
  destruct (data_len <? 14 + 20 + 8 + 8); [done|].
  rewrite (dst_is_broadcast_differ o p1 p2 Hdiff) by lia.
  destruct (dst_is_broadcast p1) as [[]|]; simpl; [done| |done].
  rewrite (l2_demux_differ o p1 p2 Hdiff) by lia.
  rewrite Hl2. simpl.
  rewrite (classify_differ o p1 p2 Hdiff) by lia.
  rewrite Hcl. simpl.
  destruct c as [[]|reason]; [|by apply (reject_differ o)].
  rewrite (port_filter_differ o p1 p2) by done.
  destruct (port_filter _ p1 _ _) as [[[]|reason]|]; simpl;
    [|by apply (reject_differ o)|done].
  pose proof (rewrite_macs_differ o p1 p2 Hdiff ltac:(lia)) as Hrw.
  destruct (rewrite_macs p1) as [pp1|], (rewrite_macs p2) as [pp2|];
    simpl; try done.
  by apply (ratelimit_and_send_differ o).
Qed.

End Properties.

(** ** The properties on the sample frames *)

Lemma differ_only_at_insert (o : Z) (p : frame) (b b' : byte) :
  0 <= o ->
  differ_only_at o p (<[Z.to_nat (o + 1) := b']> (<[Z.to_nat o := b]> p)).
Proof.
  intros Ho. split; [by rewrite !length_insert|].
  intros i Hi Hi'. by rewrite !list_lookup_insert_ne by lia.
Qed.

Example run_valid_ipv4 :
  r_verdict <$> handle_packet (Runs.plain 0) Samples.env0
                  Samples.valid_ipv4 70 = Some Transmitting.
Proof. vm_compute. reflexivity. Qed.

Example run_short_ipv4 :
  r_verdict <$> handle_packet (Runs.plain 0) Samples.env0
                  Samples.short_ipv4 50
  = Some (Rejected "Invalid protocol or too short").
Proof. vm_compute. reflexivity. Qed.

Example run_minimal_ipv6 :
  r_verdict <$> handle_packet (Runs.plain 0) Samples.env0
                  Samples.minimal_ipv6 94 = Some Transmitting.
Proof. vm_compute. reflexivity. Qed.

Example run_second_frame :
  r_verdict <$> handle_packet (Runs.after_one 0) Samples.env0
                  Samples.valid_ipv4 70
  = Some (Rejected "Ratelimited on source IP").
Proof. vm_compute. reflexivity. Qed.

Example run_slow_iface :
  r_verdict <$> handle_packet Runs.slow_iface Samples.env0
                  Samples.valid_ipv4 70
  = Some (Rejected "Ratelimited on outgoing interface").
Proof. vm_compute. reflexivity. Qed.

Example run_whitelisted :
  r_verdict <$> handle_packet Runs.https_only Samples.env0
                  (Samples.icmp4_frame 3 4 64 443) 70 = Some Transmitting.
Proof. vm_compute. reflexivity. Qed.

Example run_not_whitelisted :
  r_verdict <$> handle_packet Runs.https_only Samples.env0
                  (Samples.icmp4_frame 3 4 64 80) 70
  = Some (Rejected "L4 source port not on whitelist").
Proof. vm_compute. reflexivity. Qed.

Lemma C1_egress_bytes_witness :
  exists r,
    handle_packet (Runs.plain 0) Samples.env0 Samples.valid_ipv4 70 = Some r
    /\ admitted (r_verdict r) = true
    /\ dry_run (Runs.plain 0) = 0
    /\ sent (r_out r)
       = [replicate 6 Byte.xff ++ take 6 Samples.valid_ipv4
          ++ drop 12 Samples.valid_ipv4].
Proof.
  run_call r Hr. exists r.
  observe Hr (@r_verdict TokenBucket.table) Transmitting Hv.
  assert (Hadm : admitted (r_verdict r) = true) by (by rewrite Hv).
  split; [done|]. split; [done|]. split; [done|].
  exact (proj1 (C1_egress_bytes (Runs.plain 0) Samples.env0
                  Samples.valid_ipv4 r Hr Hadm eq_refl)).
Defined.

Lemma C4_broadcast_never_admitted_witness :
  take 6 Samples.broadcast_ipv4 = replicate 6 Byte.xff
  /\ exists r,
       handle_packet (Runs.plain 2) Samples.env0 Samples.broadcast_ipv4 70
         = Some r
       /\ r_verdict r = Dropped /\ retcode (r_verdict r) = Some (-1)
       /\ admitted (r_verdict r) = false
       /\ r_sources r = sources (Runs.plain 2)
       /\ r_ifaces r = ifaces (Runs.plain 2)
       /\ r_frame r = Samples.broadcast_ipv4 /\ r_out r = [].
Proof.
  split; [reflexivity|].
  apply (C4_broadcast_never_admitted (Runs.plain 2) Samples.env0
           Samples.broadcast_ipv4 70).
  reflexivity.
Defined.

(** C2 as stated fails: the second frame from one source within the same
    instant is rejected by the per-source limiter, and by then its first
    twelve bytes have been overwritten. *)
Lemma C2_counterexample :
  ~ (forall (st : Runs.st) e p r,
       handle_packet st e p (Z.of_nat (length p)) = Some r ->
       admitted (r_verdict r) = false ->
       r_frame r = p).
Proof.
  intros Hclaim.
  destruct (handle_packet (Runs.after_one 0) Samples.env0
              Samples.valid_ipv4 (Z.of_nat (length Samples.valid_ipv4)))
    as [r|] eqn:Hr; [|by vm_compute in Hr].
  observe Hr (@r_verdict TokenBucket.table)
    (Rejected "Ratelimited on source IP") Hv.
  observe Hr (fun r : result TokenBucket.table => map u8 (take 6 (r_frame r)))
    [255; 255; 255; 255; 255; 255] Hf.
  rewrite (Hclaim _ _ _ _ Hr) in Hf by (by rewrite Hv).
  by vm_compute in Hf.
Qed.

Lemma C2_rewrite_precedes_rate_limits_witness :
  exists r,
    handle_packet (Runs.after_one 0) Samples.env0 Samples.valid_ipv4 70
      = Some r
    /\ admitted (r_verdict r) = false
    /\ r_verdict r = Rejected "Ratelimited on source IP"
    /\ r_frame r = replicate 6 Byte.xff ++ take 6 Samples.valid_ipv4
                   ++ drop 12 Samples.valid_ipv4.
Proof.
  run_call r Hr. exists r.
  observe Hr (@r_verdict TokenBucket.table)
    (Rejected "Ratelimited on source IP") Hv.
  assert (Hadm : admitted (r_verdict r) = false) by (by rewrite Hv).
  split; [done|]. split; [done|]. split; [done|].
  destruct (C2_rewrite_precedes_rate_limits (Runs.after_one 0) Samples.env0
              Samples.valid_ipv4 70 r Hr Hadm)
    as [(Hd & _)|[(reason & Hrej & Hrl & _)|(reason & _ & _ & Hframe & _)]].
  - rewrite Hv in Hd. discriminate.
  - rewrite Hv in Hrej. injection Hrej as <-. discriminate.
  - exact Hframe.
Defined.

(** C3 fails on the code. The quoted packet below is IPv4 with a
    five-word header, a TTL of 63 and TCP source port 443, and port 443
    is on the whitelist.  Switching on the version nibble of the inner
    header, as described, finds the L4 header at offset 62 and the port
    443 there.  The code switches on the byte at [payload_offset + 8]
    instead, which is the TTL; its high nibble is 3, and the frame is
    rejected as "Invalid ICMP payload". *)
Theorem C3_inner_version_read_from_ttl_byte :
  let p := Samples.icmp4_frame 3 4 63 443 in
  let payload_offset := 34 + 8 in
  rd p payload_offset = Some 0x45
  /\ rd p (payload_offset + 8) = Some 63
  /\ spec_inner_l4_offset p payload_offset = Some (Next 62)
  /\ (hi ← rd p 62; lo ← rd p 63; Some (be16 hi lo)) = Some 443
  /\ bitmap_get (PortBitmap.of_ports [443]) 443 = 1
  /\ inner_l4_offset p payload_offset
     = Some (GotoReject "Invalid ICMP payload")
  /\ r_verdict <$> handle_packet Runs.https_only Samples.env0 p 70
     = Some (Rejected "Invalid ICMP payload")
  /\ r_verdict <$> handle_packet Runs.https_only Samples.env0
                     (Samples.icmp4_frame 3 4 64 443) 70
     = Some Transmitting.
Proof. repeat split; vm_compute; reflexivity. Qed.

Lemma C5_ipv6_classification_witness :
  l2_demux Samples.minimal_ipv6 = Some (0x86dd, 14)
  /\ exists l,
       classify Samples.minimal_ipv6 94 0x86dd 14 = Some (l, Next ())
       /\ icmp_offset l = 54 /\ hash l = Some 22 /\ hash_len l = 16
       /\ hash_bytes Samples.minimal_ipv6 l
          = Some (take 16 (drop 22 Samples.minimal_ipv6)).
Proof.
  assert (Hl2 : l2_demux Samples.minimal_ipv6 = Some (0x86dd, 14))
    by (vm_compute; reflexivity).
  split; [exact Hl2|].
  destruct (C5_ipv6_classification Samples.minimal_ipv6 0x86dd 14 Hl2)
    as [Hiff Hkey].
  destruct (proj2 Hiff) as (l & Hc & Hv6).
  { split; [reflexivity|]. split; [|split].
    - exists 0x60. split; vm_compute; reflexivity.
    - vm_compute; reflexivity.
    - vm_compute. discriminate. }
  exists l. split; [exact Hc|].
  destruct (Hkey l Hc Hv6) as (Ho & Hh & Hn & Hb & _).
  repeat split; assumption.
Defined.

Lemma C6_transmit_line_missing_at_verbosity_2_witness :
  verbose (Runs.plain 2) = 2
  /\ (exists r,
        handle_packet (Runs.plain 2) Samples.env0 Samples.valid_ipv4
          (Z.of_nat (length Samples.valid_ipv4)) = Some r
        /\ r_verdict r = Transmitting
        /\ length (sent (r_out r)) = 1%nat
        /\ printed (r_out r) = [])
  /\ (exists r ip,
        handle_packet (Runs.plain 1) Samples.env0 Samples.valid_ipv4
          (Z.of_nat (length Samples.valid_ipv4)) = Some r
        /\ r_verdict r = Transmitting
        /\ printed (r_out r) = [Printed ip "transmitting" None])
  /\ (exists r ip,
        handle_packet (Runs.after_one 2) Samples.env0 Samples.valid_ipv4
          (Z.of_nat (length Samples.valid_ipv4)) = Some r
        /\ r_verdict r = Rejected "Ratelimited on source IP"
        /\ r_out r = [Printed ip "Ratelimited on source IP" None]).
Proof.
  split; [reflexivity|]. split; [|split].
  - run_call r Hr. exists r. split; [done|].
    observe Hr (@r_verdict TokenBucket.table) Transmitting Hv.
    observe Hr (fun r : result TokenBucket.table =>
                  length (sent (r_out r))) 1%nat Hs.
    pose proof (C6_transmit_line_missing_at_verbosity_2 (Runs.plain 2)
                  Samples.env0 Samples.valid_ipv4 r Hr) as Hout.
    rewrite Hv in Hout. destruct Hout as (_ & _ & Hsilent & _).
    split; [exact Hv|]. split; [exact Hs|]. by apply Hsilent.
  - run_call r Hr. exists r.
    observe Hr (@r_verdict TokenBucket.table) Transmitting Hv.
    pose proof (C6_transmit_line_missing_at_verbosity_2 (Runs.plain 1)
                  Samples.env0 Samples.valid_ipv4 r Hr) as Hout.
    rewrite Hv in Hout. destruct Hout as (_ & Hline & _).
    destruct Hline as (ip & _ & Hline); [reflexivity|].
    exists ip. split; [done|]. split; [exact Hv|exact Hline].
  - run_call r Hr. exists r.
    observe Hr (@r_verdict TokenBucket.table)
      (Rejected "Ratelimited on source IP") Hv.
    pose proof (C6_transmit_line_missing_at_verbosity_2 (Runs.after_one 2)
                  Samples.env0 Samples.valid_ipv4 r Hr) as Hout.
    rewrite Hv in Hout. destruct Hout as (_ & Hline & _).
    destruct Hline as (ip & _ & Hline); [reflexivity|].
    exists ip. split; [done|]. split; [exact Hv|exact Hline].
Defined.

Lemma C7_dry_run_equivalence_witness :
  1 <> 0
  /\ exists r_wet r_dry,
       handle_packet (with_dry_run (Runs.plain 1) 0) Samples.env0
         Samples.valid_ipv4 70 = Some r_wet
       /\ handle_packet (with_dry_run (Runs.plain 1) 1) Samples.env0
            Samples.valid_ipv4 70 = Some r_dry
       /\ r_sources r_dry = r_sources r_wet
       /\ r_ifaces r_dry = r_ifaces r_wet
       /\ r_out r_dry = printed (r_out r_wet)
       /\ sent (r_out r_dry) = [].
Proof.
  split; [lia|].
  destruct (C7_dry_run_equivalence (Runs.plain 1) Samples.env0
              Samples.valid_ipv4 1 ltac:(lia))
    as (rw & rd & Hw & Hd & _ & Hs & Hi & _ & Ho & Hn & _).
  exists rw, rd. repeat split; assumption.
Defined.

Lemma C9_source_token_not_refunded_witness :
  exists r r',
    handle_packet Runs.slow_iface Samples.env0 Samples.valid_ipv4 70
      = Some r
    /\ r_verdict r = Rejected "Ratelimited on outgoing interface"
    /\ handle_packet (with_ifaces Runs.slow_iface Samples.ifaces0)
         Samples.env0 Samples.valid_ipv4 70 = Some r'
    /\ admitted (r_verdict r') = true
    /\ r_sources r' = r_sources r.
Proof.
  run_call r Hr. run_call r' Hr'. exists r, r'.
  observe Hr (@r_verdict TokenBucket.table)
    (Rejected "Ratelimited on outgoing interface") Hv.
  observe Hr' (@r_verdict TokenBucket.table) Transmitting Hv'.
  assert (Hadm : admitted (r_verdict r') = true) by (by rewrite Hv').
  split; [done|]. split; [done|]. split; [done|]. split; [done|].
  destruct (C9_source_token_not_refunded Runs.slow_iface Samples.env0
              Samples.valid_ipv4 70 r Hr Hv) as (_ & _ & _ & Hsame).
  exact (Hsame Samples.ifaces0 r' Hr' Hadm).
Defined.

Lemma C10_icmp_type_code_not_read_witness :
  let p1 := Samples.valid_ipv4 in
  let p2 := Samples.icmp4_frame 8 0 64 443 in
  let l := {| icmp_offset := 34; valid := 1; hash := Some 26;
              hash_len := 4 |} in
  l2_demux p1 = Some (0x0800, 14)
  /\ classify p1 70 0x0800 14 = Some (l, Next ())
  /\ 0 <= icmp_offset l
  /\ differ_only_at (icmp_offset l) p1 p2
  /\ decision <$> handle_packet (Runs.plain 0) Samples.env0 p2 70
     = decision <$> handle_packet (Runs.plain 0) Samples.env0 p1 70.
Proof.
  intros p1 p2 l.
  assert (Hl2 : l2_demux p1 = Some (0x0800, 14)) by (vm_compute; reflexivity).
  assert (Hcl : classify p1 70 0x0800 14 = Some (l, Next ()))
    by (vm_compute; reflexivity).
  assert (Hoff : 0 <= icmp_offset l) by (simpl; lia).
  assert (Hdiff : differ_only_at (icmp_offset l) p1 p2).
  { change p2 with (<[Z.to_nat (34 + 1) := Samples.byte_of_Z 0]>
                      (<[Z.to_nat 34 := Samples.byte_of_Z 8]> p1)).
    apply differ_only_at_insert. lia. }
  split; [exact Hl2|]. split; [exact Hcl|]. split; [exact Hoff|].
  split; [exact Hdiff|].
  exact (C10_icmp_type_code_not_read (Runs.plain 0) Samples.env0 p1 p2
           70 0x0800 14 l (Next ()) Hl2 Hcl Hoff Hdiff).
Defined.

(** * Further properties of [handle_packet] *)

Lemma u8_inj_xff (b : byte) : u8 b = 255 -> b = Byte.xff.
Proof.
  unfold u8. intros Hb.
  assert (Hn : Byte.to_N b = 255%N) by lia.
  pose proof (Byte.of_to_N b) as Hof. rewrite Hn in Hof.
  by injection Hof.
Qed.

Lemma dst_is_broadcast_true (p : frame) :
  dst_is_broadcast p = Some true <-> take 6 p = replicate 6 Byte.xff.
Proof.
  split; [|apply broadcast_prefix].
  unfold dst_is_broadcast, and_then, is_ff, rd. simpl.
  do 6 (destruct p as [|? p]; [by repeat (simpl; case_match)|]).
  simpl. intros Hbc.
  repeat match type of Hbc with
  | context [u8 ?b =? 255] =>
      destruct (Z.eqb_spec (u8 b) 255) as [->%u8_inj_xff|]; [|discriminate];
      simpl in Hbc
  end.
  by rewrite take_0.
Qed.

Lemma classify_ipv4_pass (p : frame) (data_len eth_type l3_offset b : Z) :
  ipv4_conditions p data_len eth_type l3_offset b ->
  classify p data_len eth_type l3_offset
  = Some (ipv4_locals l3_offset b, Next ()).
Proof.
  intros (-> & Hb & Hnib & Hihl & Hproto & Hlen).
  pose proof (rd_Some_lt _ _ _ Hb) as Hl3.
  unfold classify, ipv4_branch, ipv6_branch. simpl.
  rewrite Hb. simpl. rewrite Hnib. simpl.
  destruct (Z.ltb_spec (Z.land b 15 * 4) 20); [lia|].
  rewrite Hproto. simpl.
  destruct (Z.leb_spec (l3_offset + 20 + 8 + 20 + 8) data_len); [|lia].
  simpl. unfold check_valid, ipv4_locals. simpl.
  by destruct (Z.ltb_spec (l3_offset + Z.land b 15 * 4) 0); [lia|].
Qed.

Lemma classify_ipv4_inv (p : frame) (data_len eth_type l3_offset : Z)
    (l : locals) :
  classify p data_len eth_type l3_offset = Some (l, Next ()) ->
  eth_type = 0x0800 \/ hash_len l = 4 ->
  exists b, ipv4_conditions p data_len eth_type l3_offset b
            /\ l = ipv4_locals l3_offset b.
Proof.
  unfold classify, ipv4_conditions. intros Hc Hv4.
  destruct (ipv4_branch _ _ _ _ _) as [[l4|r]|] eqn:H4; simpl in Hc;
    [|discriminate|discriminate].
  destruct (ipv6_branch _ _ _ _ _) as [l6|] eqn:H6; simpl in Hc;
    [|discriminate].
  injection Hc as <- Hchk.
  apply ipv6_branch_inv in H6.
  assert (Hv : valid l6 = 1 /\ hash_len l6 <> 0).
  { revert Hchk. unfold check_valid.
    destruct (Z.eqb_spec (valid l6) 0); [discriminate|].
    destruct (hash l6); [|discriminate]. simpl.
    destruct (Z.eqb_spec (hash_len l6) 0); [discriminate|].
    intros _. split; [|done].
    apply ipv4_branch_inv in H4.
    destruct H4 as [->|(_ & _ & [(?&?&?)|(?&?&?&?)])];
      destruct H6 as [->|(_ & _ & [(?&?&?)|(?&?&?&?)])]; simpl in *; lia. }
  destruct Hv as [Hvalid Hklen].
  assert (Hsame : l6 = l4 /\ eth_type = 0x0800).
  { pose proof (ipv4_branch_inv _ _ _ _ _ H4) as H4'.
    destruct H4' as [->|(Het & _)];
      destruct H6 as [->|(Het6 & _ & [(?&?&?)|(?&?&?&?)])];
      destruct Hv4; simpl in *; try lia; done. }
  destruct Hsame as [-> Het]. clear H6.
  revert H4. unfold ipv4_branch.
  destruct (Z.eqb_spec eth_type 2048); [|lia]. simpl.
  destruct (rd p l3_offset) as [b|] eqn:Hb; [|discriminate]. simpl.
  destruct (Z.eqb_spec (Z.land b 240) 64) as [Hnib|Hnib];
    [|intros [= <-]; simpl in *; lia].
  destruct (Z.ltb_spec (Z.land b 15 * 4) 20); [discriminate|].
  destruct (rd p (l3_offset + 9)) as [proto|] eqn:Hproto; [|discriminate].
  simpl. destruct (Z.eqb_spec proto 1) as [->|Hne]; simpl;
    [|intros [= <-]; simpl in *; lia].
  destruct (Z.leb_spec (l3_offset + 20 + 8 + 20 + 8) data_len);
    [|intros [= <-]; simpl in *; lia].
  intros [= <-]. exists b. by repeat split.
Qed.

(** X1. A frame passes classification as IPv4 exactly when its EtherType
    (after the optional VLAN tag) is 0x0800, the version nibble at the L3
    offset is 4, the header length IHL*4 is at least 20, the protocol
    byte at L3+9 is 1 and the frame is at least L3 + 56 bytes long (the
    length test counts 20 bytes of outer header whatever the IHL says).
    The ICMP offset is then L3 + IHL*4, and the key of the per-source
    limiter is the four bytes of the captured frame at L3+12, also after
    the rewrite of the Ethernet addresses. *)
Theorem X1_ipv4_classification (p : frame) (eth_type l3_offset : Z) :
  l2_demux p = Some (eth_type, l3_offset) ->
  let data_len := Z.of_nat (length p) in
  ((exists l, classify p data_len eth_type l3_offset = Some (l, Next ())
              /\ (eth_type = 0x0800 \/ hash_len l = 4))
   <-> (exists b,
          eth_type = 0x0800
          /\ rd p l3_offset = Some b /\ Z.land b 0xF0 = 0x40
          /\ 20 <= Z.land b 0x0F * 4
          /\ rd p (l3_offset + 9) = Some 1
          /\ l3_offset + 20 + 8 + 20 + 8 <= data_len))
  /\ forall l b,
       classify p data_len eth_type l3_offset = Some (l, Next ()) ->
       eth_type = 0x0800 \/ hash_len l = 4 ->
       rd p l3_offset = Some b ->
       icmp_offset l = l3_offset + Z.land b 0x0F * 4
       /\ hash l = Some (l3_offset + 12) /\ hash_len l = 4
       /\ hash_bytes p l
          = Some (take 4 (drop (Z.to_nat (l3_offset + 12)) p))
       /\ hash_bytes (rewritten p) l = hash_bytes p l.
Proof.
  intros Hl2 data_len. pose proof (l2_demux_offset _ _ _ Hl2) as Hl3.
  split.
  - split.
    + intros (l & Hc & Hv4).
      destruct (classify_ipv4_inv _ _ _ _ _ Hc Hv4) as (b & Hcond & _).
      by exists b.
    + intros (b & Hcond). exists (ipv4_locals l3_offset b).
      split; [by apply classify_ipv4_pass|by right].
  - intros l b Hc Hv4 Hb.
    destruct (classify_ipv4_inv _ _ _ _ _ Hc Hv4) as (b' & Hcond & ->).
    destruct Hcond as (_ & Hb' & _ & _ & _ & Hlen).
    rewrite Hb in Hb'. injection Hb' as <-. subst data_len.
    repeat split.
    + unfold hash_bytes. simpl. by rewrite rd_range_in_range by lia.
    + apply hash_bytes_rewritten; [lia|]. simpl. intros off [= <-]. lia.
Qed.

Lemma classify_other_ethertype (p : frame) (data_len eth_type l3_offset : Z) :
  eth_type <> 0x0800 -> eth_type <> 0x86dd ->
  classify p data_len eth_type l3_offset
  = Some (init_locals, GotoReject "Invalid protocol or too short").
Proof.
  intros H4 H6. unfold classify, ipv4_branch, ipv6_branch.
  destruct (Z.eqb_spec eth_type 2048); [done|].
  destruct (Z.eqb_spec eth_type 34525); [done|].
  reflexivity.
Qed.

Lemma classify_bad_ihl (p : frame) (data_len eth_type l3_offset : Z)
    (l : locals) :
  classify p data_len eth_type l3_offset
  = Some (l, GotoReject "IPv4 header invalid length")
  <-> l = init_locals /\ eth_type = 0x0800
      /\ exists b, rd p l3_offset = Some b /\ Z.land b 0xF0 = 0x40
                   /\ Z.land b 0x0F * 4 < 20.
Proof.
  unfold classify, ipv4_branch. split.
  - intros Hc.
    destruct (Z.eqb_spec eth_type 2048) as [Het|Het]; simpl in Hc.
    + destruct (rd p l3_offset) as [b|] eqn:Hb; [|discriminate].
      simpl in Hc.
      destruct (Z.eqb_spec (Z.land b 240) 64) as [Hnib|Hnib].
      * destruct (Z.ltb_spec (Z.land b 15 * 4) 20).
        -- simpl in Hc. injection Hc as <-. eauto 10.
        -- destruct (rd p (l3_offset + 9)); [|discriminate].
           simpl in Hc. unfold check_valid in Hc.
           repeat (simplify_option_eq || case_match).
      * simpl in Hc. unfold check_valid in Hc.
        repeat (simplify_option_eq || case_match).
    + unfold check_valid in Hc.
      repeat (simplify_option_eq || case_match).
  - intros (-> & -> & b & Hb & Hnib & Hihl). simpl.
    rewrite Hb. simpl. rewrite Hnib. simpl.
    by destruct (Z.ltb_spec (Z.land b 15 * 4) 20); [|lia].
Qed.

Section MoreStages.
Context {H B : Type} `{!Hashlimit H} `{!Bitmap B}.
Implicit Types (st : state H B) (r : result H) (e : env) (p pp : frame).

Lemma reject_effect st p (data_len : Z) (reason : string) (l : locals)
    (src ifc : H) r :
  reject st p data_len reason l src ifc = Some r ->
  effect r = (Rejected reason, p, src, ifc, []).
Proof.
  intros Hr. apply reject_inv in Hr as (Hv & Hf & Hs & Hi & Hlines).
  unfold effect. rewrite Hv, Hf, Hs, Hi.
  by destruct Hlines
    as [(_ & ->)|[(_ & ? & _ & ->)|(_ & ? & ? & _ & _ & ->)]].
Qed.

Lemma transmit_sent st e pp (data_len : Z) (l : locals) (src ifc : H) r :
  transmit st e pp data_len l src ifc = Some r ->
  (dry_run st = 0 /\ exists buf, rd_range pp 0 data_len = Some buf
                                 /\ sent (r_out r) = [buf])
  \/ (dry_run st <> 0 /\ sent (r_out r) = []).
Proof.
  intros Hr. apply transmit_inv in Hr
    as (_ & _ & _ & _ & lines & Hlines & Hsend).
  assert (Hs : sent lines = [])
    by (by destruct Hlines
          as [(_ & ->)|[(_ & ? & _ & ->)|(_ & ? & ? & _ & _ & ->)]]).
  destruct Hsend as [(Hd & buf & Hbuf & -> & _)|(Hd & -> & _)].
  - left. split; [done|]. exists buf. split; [done|].
    unfold sent in *. by rewrite omap_app, Hs.
  - by right.
Qed.

(** Every way through [handle_packet] leaves the frame as it came or
    with its addresses rewritten. *)
Lemma handle_packet_frame st e p (data_len : Z) r :
  handle_packet st e p data_len = Some r ->
  (admitted (r_verdict r) = false /\ r_frame r = p)
  \/ (r_frame r = rewritten p /\ (12 <= length p)%nat).
Proof.
  intros Hr. apply handle_packet_inv in Hr.
  destruct Hr as [[-> _]|(et & l3 & l & c & _ & _ & _ & _ & Hr)];
    [by left|].
  destruct Hr as [(reason & _ & Hr)|(_ & f & _ & Hr)];
    [apply reject_inv in Hr as (-> & -> & _); by left|].
  destruct Hr as [(reason & _ & Hr)|(_ & pp & Hrw & Hr)];
    [apply reject_inv in Hr as (-> & -> & _); by left|].
  right. apply rewrite_macs_rewritten in Hrw as [-> Hp]. split; [|done].
  apply ratelimit_and_send_inv in Hr
    as (key & ok & src & _ & _ & [(_ & Hr)|(_ & ok' & ifc & _ & Hr)]);
    [by apply reject_inv in Hr as (_ & -> & _)|].
  destruct Hr as [(_ & Hr)|(_ & Hr)];
    [by apply reject_inv in Hr as (_ & -> & _)|].
  by apply transmit_inv in Hr as (_ & -> & _).
Qed.

(** What is handed to [send] in a call on a whole buffer. *)
Lemma handle_packet_sent st e p r :
  handle_packet st e p (Z.of_nat (length p)) = Some r ->
  sent (r_out r)
  = if admitted (r_verdict r) && (dry_run st =? 0) then [rewritten p]
    else [].
Proof.
  intros Hr. apply handle_packet_inv in Hr.
  destruct Hr as [[-> _]|(et & l3 & l & c & _ & _ & _ & _ & Hr)]; [done|].
  assert (Hrej : forall pp reason src ifc,
    reject st pp (Z.of_nat (length p)) reason l src ifc = Some r ->
    sent (r_out r)
    = if admitted (r_verdict r) && (dry_run st =? 0) then [rewritten p]
      else []).
  { intros pp reason src ifc Hrej. apply reject_effect in Hrej.
    unfold effect in Hrej. by injection Hrej as -> _ _ _ ->. }
  destruct Hr as [(reason & _ & Hr)|(_ & f & _ & Hr)]; [by eapply Hrej|].
  destruct Hr as [(reason & _ & Hr)|(_ & pp & Hrw & Hr)]; [by eapply Hrej|].
  pose proof (rewrite_macs_length _ _ Hrw) as Hlen.
  apply rewrite_macs_rewritten in Hrw as [-> Hp].
  apply ratelimit_and_send_inv in Hr
    as (key & ok & src & _ & _ & [(_ & Hr)|(_ & ok' & ifc & _ & Hr)]);
    [by eapply Hrej|].
  destruct Hr as [(_ & Hr)|(_ & Hr)]; [by eapply Hrej|].
  pose proof (transmit_sent _ _ _ _ _ _ _ _ Hr) as Hs.
  apply transmit_inv in Hr as (-> & _). simpl.
  rewrite <- Hlen, rd_range_all in Hs.
  destruct Hs as [(-> & buf & [= <-] & ->)|(Hd & ->)]; [done|].
  by destruct (Z.eqb_spec (dry_run st) 0).
Qed.

End MoreStages.

Section MoreProperties.
Context {H B : Type} `{!Hashlimit H} `{!Bitmap B}.
Implicit Types (st : state H B) (r : result H) (e : env) (p pp : frame).

(** X2. A packet is rejected with "IPv4 header invalid length" exactly
    when it passed the size and broadcast guards, its EtherType (after
    the optional VLAN tag) is 0x0800, the version nibble of its first L3
    byte is 4 and its IHL is below 5; such a packet leaves the frame and
    both tables as they were, whatever its protocol and length. *)
Theorem X2_ipv4_header_too_short st e p (data_len : Z) r :
  handle_packet st e p data_len = Some r ->
  (r_verdict r = Rejected "IPv4 header invalid length"
   <-> 50 <= data_len /\ take 6 p <> replicate 6 Byte.xff
       /\ exists l3_offset b,
            l2_demux p = Some (0x0800, l3_offset)
            /\ rd p l3_offset = Some b /\ Z.land b 0xF0 = 0x40
            /\ Z.land b 0x0F * 4 < 20)
  /\ (r_verdict r = Rejected "IPv4 header invalid length" ->
      r_frame r = p /\ r_sources r = sources st /\ r_ifaces r = ifaces st).
Proof.
  intros Hr. pose proof Hr as Hinv. apply handle_packet_inv in Hinv.
  assert (Hfwd : r_verdict r = Rejected "IPv4 header invalid length" ->
    50 <= data_len /\ dst_is_broadcast p = Some false
    /\ exists l3_offset l,
         l2_demux p = Some (0x0800, l3_offset)
         /\ classify p data_len 0x0800 l3_offset
            = Some (l, GotoReject "IPv4 header invalid length")
         /\ r_frame r = p /\ r_sources r = sources st
         /\ r_ifaces r = ifaces st).
  { intros Hv.
    destruct Hinv as [[-> _]|(et & l3 & l & c & Hlen & Hbc & Hl2 & Hcl & Hp)];
      [done|].
    destruct Hp as [(reason & -> & Hp)|(_ & f & Hpf & Hp)].
    { apply reject_inv in Hp as (Hv' & ? & ? & ? & _).
      rewrite Hv in Hv'. injection Hv' as <-.
      pose proof (proj1 (classify_bad_ihl _ _ _ _ _) Hcl) as (_ & -> & _).
      split; [done|]. split; [done|]. exists l3, l. by repeat split. }
    destruct Hp as [(reason & -> & Hp)|(_ & pp & Hrw & Hp)].
    { apply reject_inv in Hp as (Hv' & _). rewrite Hv in Hv'.
      injection Hv' as <-. apply port_filter_reason in Hpf. simpl in Hpf.
      by destruct Hpf as [?|[?|[?|[?|[]]]]]. }
    apply ratelimit_and_send_inv in Hp
      as (key & ok & src & _ & _ & [(_ & Hp)|(_ & ok' & ifc & _ & Hp)]);
      [apply reject_inv in Hp as (Hv' & _); congruence|].
    destruct Hp as [(_ & Hp)|(_ & Hp)];
      [apply reject_inv in Hp as (Hv' & _); congruence|].
    apply transmit_inv in Hp as (Hadm & _). by rewrite Hv in Hadm. }
  split; [split|].
  - intros Hv. destruct (Hfwd Hv) as (Hlen & Hbc & l3 & l & Hl2 & Hcl & _).
    split; [done|]. split.
    { intros Hff. apply dst_is_broadcast_true in Hff. congruence. }
    apply classify_bad_ihl in Hcl as (_ & _ & b & Hb & Hnib & Hihl).
    exists l3, b. by repeat split.
  - intros (Hlen & Hbc & l3 & b & Hl2 & Hb & Hnib & Hihl).
    assert (Hbc' : dst_is_broadcast p = Some false).
    { destruct Hinv as [[_ [?|Hd]]|(? & ? & ? & ? & _ & ? & _)];
        [lia| |done].
      by apply dst_is_broadcast_true in Hd. }
    assert (Hcl : classify p data_len 0x0800 l3
                  = Some (init_locals,
                          GotoReject "IPv4 header invalid length"))
      by (apply classify_bad_ihl; eauto 10).
    rewrite (handle_packet_unclassified _ _ _ _ _ _ _ _ Hlen Hbc' Hl2 Hcl)
      in Hr.
    by apply reject_inv in Hr as (? & _).
  - intros Hv. by destruct (Hfwd Hv) as (_ & _ & ? & ? & _ & _ & ? & ? & ?).
Qed.

(** X3. A frame whose EtherType (after at most one VLAN tag) is neither
    0x0800 nor 0x86dd, which covers ARP and double-tagged (QinQ)
    frames, is never forwarded: it is dropped by a guard or rejected
    with "Invalid protocol or too short", with the frame and both
    rate-limit tables untouched and nothing sent. *)
Theorem X3_other_ethertype_rejected st e p (data_len : Z) r
    (eth_type l3_offset : Z) :
  handle_packet st e p data_len = Some r ->
  l2_demux p = Some (eth_type, l3_offset) ->
  eth_type <> 0x0800 -> eth_type <> 0x86dd ->
  (r_verdict r = Dropped
   \/ r_verdict r = Rejected "Invalid protocol or too short")
  /\ r_frame r = p /\ r_sources r = sources st /\ r_ifaces r = ifaces st
  /\ sent (r_out r) = [].
Proof.
  intros Hr Hl2 H4 H6. pose proof Hr as Hinv.
  apply handle_packet_inv in Hinv.
  destruct Hinv as [[-> _]|(et & l3 & l & c & Hlen & Hbc & Hl2' & Hcl & _)].
  { split; [by left|done]. }
  rewrite Hl2 in Hl2'. injection Hl2' as <- <-.
  pose proof (classify_other_ethertype p data_len eth_type l3_offset H4 H6)
    as Hcl'.
  rewrite (handle_packet_unclassified _ _ _ _ _ _ _ _ Hlen Hbc Hl2 Hcl')
    in Hr.
  apply reject_effect in Hr. unfold effect in Hr.
  injection Hr as -> -> -> -> ->. split; [by right|done].
Qed.

(** X4. The silent way out, the plain [return -1] that prints nothing at
    any verbosity and touches nothing, is taken exactly by the frames
    shorter than 50 bytes and by those addressed to ff:ff:ff:ff:ff:ff;
    every other frame reaches the [reject:] label or is transmitted. *)
Theorem X4_silent_drop st e p (data_len : Z) r :
  handle_packet st e p data_len = Some r ->
  (r_verdict r = Dropped
   <-> data_len < 50 \/ take 6 p = replicate 6 Byte.xff).
Proof.
  intros Hr. split.
  - intros Hv. apply handle_packet_inv in Hr.
    destruct Hr as [[_ [?|Hbc]]|(et & l3 & l & c & _ & _ & _ & _ & Hr)].
    + by left.
    + right. by apply dst_is_broadcast_true.
    + exfalso.
      destruct Hr as [(reason & _ & Hr)|(_ & f & _ & Hr)];
        [apply reject_inv in Hr as (? & _); congruence|].
      destruct Hr as [(reason & _ & Hr)|(_ & pp & _ & Hr)];
        [apply reject_inv in Hr as (? & _); congruence|].
      apply ratelimit_and_send_inv in Hr
        as (key & ok & src & _ & _ & [(_ & Hr)|(_ & ok' & ifc & _ & Hr)]);
        [apply reject_inv in Hr as (? & _); congruence|].
      destruct Hr as [(_ & Hr)|(_ & Hr)];
        [apply reject_inv in Hr as (? & _); congruence|].
      apply transmit_inv in Hr as (Hadm & _). by rewrite Hv in Hadm.
  - intros [Hlen|Hbc].
    + rewrite handle_packet_short in Hr by done. by injection Hr as <-.
    + apply dst_is_broadcast_true in Hbc.
      rewrite handle_packet_broadcast in Hr by done. by injection Hr as <-.
Qed.

(** X5. What the daemon sends it never forwards again: every buffer
    handed to [send], captured back in any state and at any time, leaves
    [handle_packet] through the broadcast guard, with nothing printed,
    nothing sent and both rate-limit tables untouched. *)
Theorem X5_own_frames_not_reprocessed st e p r :
  handle_packet st e p (Z.of_nat (length p)) = Some r ->
  forall buf, buf ∈ sent (r_out r) ->
  forall st' e' (data_len : Z),
    handle_packet st' e' buf data_len = Some (dropped st' buf)
    /\ r_verdict (dropped st' buf) = Dropped
    /\ r_sources (dropped st' buf) = sources st'
    /\ r_ifaces (dropped st' buf) = ifaces st'
    /\ r_out (dropped st' buf) = [].
Proof.
  intros Hr buf Hbuf st' e' data_len.
  rewrite (handle_packet_sent _ _ _ _ Hr) in Hbuf.
  destruct (_ && _); [|by apply elem_of_nil in Hbuf].
  apply list_elem_of_singleton in Hbuf as ->.
  split; [|done]. apply handle_packet_broadcast.
  by apply broadcast_prefix.
Qed.

(** X6. With a port bitmap configured, a frame is admitted only if the
    two bytes at the L4 offset that the code computed, read as a
    big-endian port, have their bit set in the bitmap. *)
Theorem X6_whitelist_sound st e p (data_len : Z) r (m : B) :
  handle_packet st e p data_len = Some r ->
  ports_map st = Some m ->
  admitted (r_verdict r) = true ->
  exists eth_type l3_offset l l4_offset hi lo,
    l2_demux p = Some (eth_type, l3_offset)
    /\ classify p data_len eth_type l3_offset = Some (l, Next ())
    /\ inner_l4_offset p (icmp_offset l + 8) = Some (Next l4_offset)
    /\ l4_offset + 2 <= data_len
    /\ rd p l4_offset = Some hi /\ rd p (l4_offset + 1) = Some lo
    /\ bitmap_get m (be16 hi lo) <> 0.
Proof.
  intros Hr Hpm Hadm. apply handle_packet_inv in Hr.
  destruct Hr as [[-> _]|(et & l3 & l & c & _ & _ & Hl2 & Hcl & Hr)];
    [done|].
  destruct Hr as [(reason & _ & Hr)|(-> & f & Hpf & Hr)];
    [apply reject_inv in Hr as (Hv & _); by rewrite Hv in Hadm|].
  destruct Hr as [(reason & _ & Hr)|(-> & _)];
    [apply reject_inv in Hr as (Hv & _); by rewrite Hv in Hadm|].
  rewrite Hpm in Hpf.
  apply port_filter_pass_inv in Hpf
    as (l4 & hi & lo & _ & Hl4 & Hlen & Hhi & Hlo & Hbit).
  exists et, l3, l, l4, hi, lo. by repeat split.
Qed.

(** X7. The port whitelist is a pure filter. Without a bitmap none of
    the four port-filter reasons is ever given; and whenever a call with
    a bitmap does not end in one of these four rejects, the same call
    without the bitmap gives the very same result (verdict, frame,
    tables and output). *)
Theorem X7_whitelist_only_filters st e p (data_len : Z) r :
  handle_packet st e p data_len = Some r ->
  (ports_map st = None ->
   forall reason, r_verdict r = Rejected reason ->
                  ~ In reason port_filter_reasons)
  /\ ((forall reason, r_verdict r = Rejected reason ->
                      ~ In reason port_filter_reasons) ->
      handle_packet (with_ports st None) e p data_len = Some r).
Proof.
  intros Hr. pose proof Hr as Hinv. apply handle_packet_inv in Hinv.
  destruct Hinv as [[-> Hwhy]|(et & l3 & l & c & Hlen & Hbc & Hl2 & Hcl & Hp)].
  { split; [done|]. intros _.
    destruct Hwhy;
      [exact (handle_packet_short (with_ports st None) e p data_len
                ltac:(done))
      |exact (handle_packet_broadcast (with_ports st None) e p data_len
                ltac:(done))]. }
  destruct Hp as [(reason & -> & Hp)|(-> & f & Hpf & Hp)].
  { split.
    - intros _ reason' Hv.
      apply reject_inv in Hp as (Hv' & _). rewrite Hv in Hv'.
      injection Hv' as ->.
      apply classify_reason in Hcl as [-> | ->]; simpl; intuition congruence.
    - intros _.
      by rewrite (handle_packet_unclassified (with_ports st None)
                    _ _ _ _ _ _ _ Hlen Hbc Hl2 Hcl). }
  destruct Hp as [(reason & -> & Hp)|(-> & pp & Hrw & Hp)].
  { pose proof (port_filter_reason _ _ _ _ _ Hpf) as Hin.
    apply reject_inv in Hp as (Hv & _). split.
    - intros Hnone. rewrite Hnone in Hpf. discriminate.
    - intros Hnot. by destruct (Hnot _ Hv). }
  split.
  - intros _ reason Hv.
    apply ratelimit_and_send_inv in Hp
      as (key & ok & src & _ & _ & [(_ & Hp)|(_ & ok' & ifc & _ & Hp)]).
    { apply reject_inv in Hp as (Hv' & _). rewrite Hv in Hv'.
      injection Hv' as ->. simpl. intuition congruence. }
    destruct Hp as [(_ & Hp)|(_ & Hp)].
    { apply reject_inv in Hp as (Hv' & _). rewrite Hv in Hv'.
      injection Hv' as ->. simpl. intuition congruence. }
    apply transmit_inv in Hp as (Hadm & _). by rewrite Hv in Hadm.
  - intros _.
    by rewrite (handle_packet_checked (with_ports st None)
                  _ _ _ _ _ _ _ Hlen Hbc Hl2 Hcl eq_refl Hrw).
Qed.

End MoreProperties.

Section EffectsAndOutput.
Context {H B : Type} `{!Hashlimit H} `{!Bitmap B}.
Implicit Types (st : state H B) (r : result H) (e : env) (p pp : frame).

(** The key that reaches the limiter is the one selected on the ingress
    frame. *)
Lemma limiter_key_is_source_address p pp (data_len eth_type l3_offset : Z)
    (l : locals) (c : flow unit) (key : list byte) :
  l2_demux p = Some (eth_type, l3_offset) ->
  classify p data_len eth_type l3_offset = Some (l, c) ->
  rewrite_macs p = Some pp ->
  hash_bytes pp l = Some key ->
  printed_ip p data_len key.
Proof.
  intros Hl2 Hcl Hrw Hkey. exists eth_type, l3_offset, l, c.
  split; [done|]. split; [done|].
  apply rewrite_macs_rewritten in Hrw as [-> Hp].
  rewrite <- Hkey. symmetry. apply hash_bytes_rewritten; [done|].
  destruct (classify_inv _ _ _ _ _ _ Hcl) as [Hshape _].
  eapply classified_key_offset; [done|]. by eapply l2_demux_offset.
Qed.

(** X8. The order of the two limiters. A frame rejected with
    "Ratelimited on source IP" has been charged to its source's bucket
    only: the interface table is untouched.  An admitted frame has been
    charged exactly once to each: the sources table is the result of one
    touch with the frame's source address as key, the interface table
    the result of one touch with key 0, and both touches admitted. *)
Theorem X8_limiter_order st e p (data_len : Z) r :
  handle_packet st e p data_len = Some r ->
  (r_verdict r = Rejected "Ratelimited on source IP" ->
   r_ifaces r = ifaces st
   /\ exists key,
        printed_ip p data_len key
        /\ hashlimit_touch_hash (sources st) (t_sources e) key
           = (false, r_sources r))
  /\ (admitted (r_verdict r) = true ->
      exists key,
        printed_ip p data_len key
        /\ hashlimit_touch_hash (sources st) (t_sources e) key
           = (true, r_sources r)
        /\ hashlimit_touch (ifaces st) (t_ifaces e) 0
           = (true, r_ifaces r)).
Proof.
  intros Hr. apply handle_packet_inv in Hr.
  destruct Hr as [[-> _]|(et & l3 & l & c & _ & _ & Hl2 & Hcl & Hr)];
    [done|].
  destruct Hr as [(reason & -> & Hr)|(_ & f & Hpf & Hr)].
  { apply reject_inv in Hr as (Hv & _). rewrite Hv. split; [|done].
    intros [= ->]. by apply classify_reason in Hcl as [|]. }
  destruct Hr as [(reason & -> & Hr)|(_ & pp & Hrw & Hr)].
  { apply reject_inv in Hr as (Hv & _). rewrite Hv. split; [|done].
    intros [= ->]. apply port_filter_reason in Hpf. simpl in Hpf.
    by destruct Hpf as [?|[?|[?|[?|[]]]]]. }
  apply ratelimit_and_send_inv in Hr
    as (key & ok & src & Hkey & Hsrc & Hr).
  pose proof (limiter_key_is_source_address _ _ _ _ _ _ _ _
                Hl2 Hcl Hrw Hkey) as Hip.
  destruct Hr as [(-> & Hr)|(-> & ok' & ifc & Hifc & Hr)].
  { apply reject_inv in Hr as (Hv & _ & <- & -> & _). rewrite Hv.
    split; [|done]. intros _. split; [done|]. by exists key. }
  destruct Hr as [(-> & Hr)|(-> & Hr)].
  { apply reject_inv in Hr as (Hv & _). rewrite Hv. by split. }
  apply transmit_inv in Hr as (Hadm & _ & <- & <- & _).
  split; [intros Hv; by rewrite Hv in Hadm|].
  intros _. by exists key.
Qed.

Lemma reject_whole_effect st p (reason : string) (l : locals) (src ifc : H) :
  key_within (Z.of_nat (length p)) l ->
  effect <$> reject st p (Z.of_nat (length p)) reason l src ifc
  = Some (Rejected reason, p, src, ifc, []).
Proof.
  intros Hk.
  destruct (reject_is_Some st p reason l src ifc Hk) as [r Hr].
  rewrite Hr. simpl. f_equal. by eapply reject_effect.
Qed.

Lemma transmit_whole_effect st e pp (l : locals) (src ifc : H) :
  key_within (Z.of_nat (length pp)) l ->
  effect <$> transmit st e pp (Z.of_nat (length pp)) l src ifc
  = Some (if dry_run st =? 0
          then (if (send_r e <? 0) && negb (send_enobufs e)
                then SendFatal else Transmitting, pp, src, ifc, [pp])
          else (Transmitting, pp, src, ifc, [])).
Proof.
  intros Hk.
  destruct (transmit_is_Some st e pp l src ifc Hk) as [r Hr].
  rewrite Hr. simpl. f_equal.
  pose proof (transmit_sent _ _ _ _ _ _ _ _ Hr) as Hs.
  rewrite rd_range_all in Hs.
  apply transmit_inv in Hr
    as (_ & Hf & Hsrc & Hifc & lines & _ & Hsend).
  unfold effect. rewrite Hf, Hsrc, Hifc.
  destruct Hsend as [(Hd & _ & _ & _ & ->)|(Hd & _ & ->)].
  - destruct Hs as [(_ & buf & [= <-] & ->)|(? & _)]; [|done].
    by rewrite Hd.
  - destruct Hs as [(? & _)|(_ & ->)]; [done|].
    by destruct (Z.eqb_spec (dry_run st) 0).
Qed.

Lemma ratelimit_and_send_verbose st e pp (l : locals) (v : Z) :
  key_within (Z.of_nat (length pp)) l ->
  effect <$> ratelimit_and_send (with_verbose st v) e pp
               (Z.of_nat (length pp)) l
  = effect <$> ratelimit_and_send st e pp (Z.of_nat (length pp)) l.
Proof.
  intros Hk. unfold ratelimit_and_send.
  cbn [with_verbose sources ifaces verbose dry_run ports_map].
  destruct (hash_bytes pp l) as [key|]; [|done]. simpl.
  destruct (hashlimit_touch_hash _ _ _) as [[] src]; simpl.
  - destruct (hashlimit_touch _ _ _) as [[] ifc]; simpl.
    + by rewrite !transmit_whole_effect.
    + by rewrite !reject_whole_effect.
  - by rewrite !reject_whole_effect.
Qed.

(** X9. Verbosity is observation only: at any two verbosity levels a
    call on the same frame, state and environment takes the same way
    out, leaves the same frame buffer and the same two tables and hands
    the same buffers to [send]. *)
Theorem X9_verbosity_changes_nothing st e p (v v' : Z) :
  effect <$> handle_packet (with_verbose st v) e p (Z.of_nat (length p))
  = effect <$> handle_packet (with_verbose st v') e p (Z.of_nat (length p)).
Proof.
  cut (forall w, effect <$> handle_packet (with_verbose st w) e p
                              (Z.of_nat (length p))
                 = effect <$> handle_packet st e p (Z.of_nat (length p))).
  { intros Hw. by rewrite !Hw. }
  intros w. unfold handle_packet.
  destruct (Z.ltb_spec (Z.of_nat (length p)) (14 + 20 + 8 + 8)); [done|].
  destruct (dst_is_broadcast p) as [[]|]; simpl; [done| |done].
  destruct (l2_demux p) as [[et l3]|] eqn:Hl2; simpl; [|done].
  destruct (classify _ _ _ _) as [[l c]|] eqn:Hcl; simpl; [|done].
  destruct (classify_inv _ _ _ _ _ _ Hcl) as [Hshape _].
  pose proof (l2_demux_offset _ _ _ Hl2) as Hl3.
  assert (Hkey : key_within (Z.of_nat (length p)) l)
    by (eapply classified_key_within; [done|done|lia]).
  cbn [with_verbose sources ifaces verbose dry_run ports_map].
  destruct c as [[]|reason]; [|by rewrite !reject_whole_effect].
  destruct (port_filter _ _ _ _) as [[[]|reason]|]; simpl;
    [|by rewrite !reject_whole_effect|done].
  destruct (rewrite_macs p) as [pp|] eqn:Hrw; simpl; [|done].
  pose proof (rewrite_macs_length _ _ Hrw) as Hlen.
  rewrite <- Hlen. apply ratelimit_and_send_verbose. by rewrite Hlen.
Qed.

(** X10. The result of [send] decides one thing only. With the same
    clock readings, two calls that differ in what [send] returns leave
    the same frame, the same two tables and the same output and agree on
    whether the frame was admitted; the call ends in [PFATAL] exactly
    when the frame was admitted, the run is not a dry run and [send]
    returned a negative value with [errno] other than [ENOBUFS]. *)
Theorem X10_send_failure st e e' p (data_len : Z) r :
  handle_packet st e p data_len = Some r ->
  t_sources e' = t_sources e -> t_ifaces e' = t_ifaces e ->
  exists r',
    handle_packet st e' p data_len = Some r'
    /\ r_frame r' = r_frame r /\ r_sources r' = r_sources r
    /\ r_ifaces r' = r_ifaces r /\ r_out r' = r_out r
    /\ admitted (r_verdict r') = admitted (r_verdict r)
    /\ (admitted (r_verdict r) = false -> r_verdict r' = r_verdict r)
    /\ (r_verdict r' = SendFatal
        <-> admitted (r_verdict r) = true /\ dry_run st = 0
            /\ send_r e' < 0 /\ send_enobufs e' = false).
Proof.
  intros Hr Hts Hti. pose proof Hr as Hinv. apply handle_packet_inv in Hinv.
  assert (Hsame : handle_packet st e' p data_len = Some r ->
                  admitted (r_verdict r) = false ->
                  exists r',
    handle_packet st e' p data_len = Some r'
    /\ r_frame r' = r_frame r /\ r_sources r' = r_sources r
    /\ r_ifaces r' = r_ifaces r /\ r_out r' = r_out r
    /\ admitted (r_verdict r') = admitted (r_verdict r)
    /\ (admitted (r_verdict r) = false -> r_verdict r' = r_verdict r)
    /\ (r_verdict r' = SendFatal
        <-> admitted (r_verdict r) = true /\ dry_run st = 0
            /\ send_r e' < 0 /\ send_enobufs e' = false)).
  { intros Hr' Hna. exists r. do 7 (split; [done|]). split.
    - intros Hv. by rewrite Hv in Hna.
    - intros (Ha & _). congruence. }
  destruct Hinv as [[-> Hwhy]|(et & l3 & l & c & Hlen & Hbc & Hl2 & Hcl & Hp)].
  { apply Hsame; [|done].
    destruct Hwhy; [by apply handle_packet_short
                   |by apply handle_packet_broadcast]. }
  destruct Hp as [(reason & -> & Hp)|(-> & f & Hpf & Hp)].
  { apply Hsame.
    - by rewrite (handle_packet_unclassified _ _ _ _ _ _ _ _
                    Hlen Hbc Hl2 Hcl).
    - by apply reject_inv in Hp as (-> & _). }
  destruct Hp as [(reason & -> & Hp)|(-> & pp & Hrw & Hp)].
  { apply Hsame.
    - by rewrite (handle_packet_filtered _ _ _ _ _ _ _ _
                    Hlen Hbc Hl2 Hcl Hpf).
    - by apply reject_inv in Hp as (-> & _). }
  rewrite (handle_packet_checked _ e' _ _ _ _ _ _ Hlen Hbc Hl2 Hcl Hpf Hrw)
    in Hsame |- *.
  pose proof Hp as Hp'. unfold ratelimit_and_send in Hp' |- *.
  unfold ratelimit_and_send in Hsame. rewrite Hts, Hti in Hsame |- *.
  destruct (hash_bytes pp l) as [key|]; [|discriminate].
  simpl in Hp', Hsame |- *.
  destruct (hashlimit_touch_hash _ _ _) as [[] src]; simpl in Hp', Hsame |- *;
    [|apply Hsame; [done|by apply reject_inv in Hp' as (-> & _)]].
  destruct (hashlimit_touch _ _ _) as [[] ifc]; simpl in Hp', Hsame |- *;
    [|apply Hsame; [done|by apply reject_inv in Hp' as (-> & _)]].
  clear Hsame. revert Hp'. unfold transmit.
  destruct (if 2 <? verbose st then _ else _) as [lines|]; [|discriminate].
  simpl. destruct (Z.eqb_spec (dry_run st) 0) as [Hd|Hd].
  - destruct (rd_range pp 0 data_len) as [buf|]; [|discriminate]. simpl.
    intros [= <-]. eexists. split; [done|]. simpl.
    assert (Ha : forall x : env,
      admitted (if (send_r x <? 0) && negb (send_enobufs x)
                then SendFatal else Transmitting) = true)
      by (intros x; destruct (send_r x <? 0), (send_enobufs x); reflexivity).
    do 4 (split; [done|]). split; [by rewrite !Ha|].
    split; [intros Hf; by rewrite Ha in Hf|].
    split.
    + intros Hv. split; [apply Ha|]. split; [done|].
      destruct (Z.ltb_spec (send_r e') 0); [|done].
      by destruct (send_enobufs e').
    + intros (_ & _ & Hneg & ->).
      by destruct (Z.ltb_spec (send_r e') 0); [|lia].
  - intros [= <-]. eexists. split; [done|]. simpl.
    do 6 (split; [done|]). split; [done|]. by intros (_ & ? & _).
Qed.

End EffectsAndOutput.

Section ReasonsAndFrame.
Context {H B : Type} `{!Hashlimit H} `{!Bitmap B}.
Implicit Types (st : state H B) (r : result H) (e : env) (p pp : frame).

Lemma reject_lines_reason st p (data_len : Z) (reason : string)
    (l : locals) (out : list event) (ev : event) (shown : string) :
  reject_lines st p data_len reason l out ->
  ev ∈ out -> line_reason ev = Some shown -> shown = reason.
Proof.
  intros [(_ & ->)|[(_ & ? & _ & ->)|(_ & ? & ? & _ & _ & ->)]] Hev Hshown.
  - by apply elem_of_nil in Hev.
  - apply list_elem_of_singleton in Hev as ->. by injection Hshown.
  - apply list_elem_of_singleton in Hev as ->. by injection Hshown.
Qed.

Lemma transmit_lines_reason st pp (data_len : Z) (l : locals)
    (out : list event) (ev : event) (shown : string) :
  transmit_lines st pp data_len l out ->
  ev ∈ out -> line_reason ev = Some shown -> shown = "transmitting"%string.
Proof.
  intros [(_ & ->)|[(_ & ? & _ & ->)|(_ & ? & ? & _ & _ & ->)]] Hev Hshown.
  - by apply elem_of_nil in Hev.
  - apply list_elem_of_singleton in Hev as ->. by injection Hshown.
  - apply list_elem_of_singleton in Hev as ->. by injection Hshown.
Qed.

(** X11. The reasons that are ever given. A reject carries one of the
    eight reason strings of the classifier, the port filter and the two
    limiters; a printed line shows the reject reason of its packet, or
    "transmitting" for an admitted one.  The initial value "unknown" of
    [reason] is never the reason of a reject and is never printed. *)
Theorem X11_reasons st e p (data_len : Z) r :
  handle_packet st e p data_len = Some r ->
  (forall reason, r_verdict r = Rejected reason ->
     In reason (classify_reasons ++ port_filter_reasons
                ++ ratelimit_reasons)
     /\ reason <> "unknown"%string)
  /\ (forall ev shown, ev ∈ r_out r -> line_reason ev = Some shown ->
        shown <> "unknown"%string
        /\ (r_verdict r = Rejected shown
            \/ (admitted (r_verdict r) = true
                /\ shown = "transmitting"%string))).
Proof.
  intros Hr.
  assert (Hknown : forall reason,
    In reason (classify_reasons ++ port_filter_reasons ++ ratelimit_reasons)
    -> reason <> "unknown"%string).
  { intros reason Hin. simpl in Hin.
    repeat (destruct Hin as [<-|Hin]; [discriminate|]). done. }
  assert (Hrej : forall reason,
    r_verdict r = Rejected reason ->
    In reason (classify_reasons ++ port_filter_reasons ++ ratelimit_reasons)).
  { intros reason Hv. apply handle_packet_inv in Hr.
    destruct Hr as [[-> _]|(et & l3 & l & c & _ & _ & _ & Hcl & Hr)];
      [done|].
    destruct Hr as [(reason' & -> & Hr)|(_ & f & Hpf & Hr)].
    { apply reject_inv in Hr as (Hv' & _). rewrite Hv in Hv'.
      injection Hv' as ->.
      apply classify_reason in Hcl as [-> | ->]; simpl; tauto. }
    destruct Hr as [(reason' & -> & Hr)|(_ & pp & _ & Hr)].
    { apply reject_inv in Hr as (Hv' & _). rewrite Hv in Hv'.
      injection Hv' as ->. apply port_filter_reason in Hpf.
      apply in_or_app. right. apply in_or_app. by left. }
    apply ratelimit_and_send_inv in Hr
      as (key & ok & src & _ & _ & [(_ & Hr)|(_ & ok' & ifc & _ & Hr)]).
    { apply reject_inv in Hr as (Hv' & _). rewrite Hv in Hv'.
      injection Hv' as ->. simpl. tauto. }
    destruct Hr as [(_ & Hr)|(_ & Hr)].
    { apply reject_inv in Hr as (Hv' & _). rewrite Hv in Hv'.
      injection Hv' as ->. simpl. tauto. }
    apply transmit_inv in Hr as (Hadm & _). by rewrite Hv in Hadm. }
  split; [intros reason Hv; split; [|apply Hknown]; by apply Hrej|].
  intros ev shown Hev Hshown.
  cut (r_verdict r = Rejected shown
       \/ (admitted (r_verdict r) = true /\ shown = "transmitting"%string)).
  { intros [Hv|[Ha ->]]; (split; [|tauto]); [|discriminate].
    apply Hknown. by apply Hrej. }
  apply handle_packet_inv in Hr.
  destruct Hr as [[-> _]|(et & l3 & l & c & _ & _ & _ & _ & Hr)];
    [by apply elem_of_nil in Hev|].
  assert (Hline : forall pp reason src ifc,
    reject st pp data_len reason l src ifc = Some r ->
    r_verdict r = Rejected shown).
  { intros pp reason src ifc Hrej'.
    apply reject_inv in Hrej' as (-> & _ & _ & _ & Hlines).
    by rewrite (reject_lines_reason _ _ _ _ _ _ _ _ Hlines Hev Hshown). }
  destruct Hr as [(reason & _ & Hr)|(_ & f & _ & Hr)]; [left; eauto|].
  destruct Hr as [(reason & _ & Hr)|(_ & pp & _ & Hr)]; [left; eauto|].
  apply ratelimit_and_send_inv in Hr
    as (key & ok & src & _ & _ & [(_ & Hr)|(_ & ok' & ifc & _ & Hr)]);
    [left; eauto|].
  destruct Hr as [(_ & Hr)|(_ & Hr)]; [left; eauto|].
  right. apply transmit_inv in Hr
    as (Hadm & _ & _ & _ & lines & Hlines & Hsend).
  split; [done|].
  assert (Hin : ev ∈ lines).
  { destruct Hsend as [(_ & buf & _ & Hout & _)|(_ & Hout & _)];
      rewrite Hout in Hev; [|done].
    apply elem_of_app in Hev as [?|Hev]; [done|].
    apply list_elem_of_singleton in Hev as ->. discriminate. }
  by eapply transmit_lines_reason.
Qed.

(** X12. On every way through [handle_packet], rejects included, the
    frame keeps its length and every byte from offset 12 on: EtherType
    and VLAN tag, the IP header, the ICMP header and the quoted packet
    are never modified. *)
Theorem X12_payload_never_modified st e p (data_len : Z) r :
  handle_packet st e p data_len = Some r ->
  length (r_frame r) = length p
  /\ forall i, (12 <= i)%nat -> r_frame r !! i = p !! i.
Proof.
  intros Hr.
  destruct (handle_packet_frame _ _ _ _ _ Hr) as [(_ & ->)|(-> & Hp)];
    [done|].
  split; [by apply rewritten_length|].
  intros i Hi. by apply rewritten_lookup_rest.
Qed.

End ReasonsAndFrame.

(** * Properties of the capture loop *)

Section CaptureLoopFacts.
Context {H B : Type} `{!Hashlimit H} `{!Bitmap B}.
Implicit Types (st : state H B) (r : result H) (x : next_ex)
  (script rest : list next_ex) (run : pcap_run H B).

Lemma next_state_dropped st (p : frame) : next_state st (dropped st p) = st.
Proof. by destruct st. Qed.

Lemma after_output_nil run : after_output [] run = run.
Proof. by destruct run. Qed.

Lemma after_output_app (out out' : list event) run :
  after_output out (after_output out' run) = after_output (out ++ out') run.
Proof. unfold after_output. simpl. by rewrite app_assoc. Qed.

Lemma handle_pcap_is_Some st script : is_Some (handle_pcap st script).
Proof.
  revert st. induction script as [|x rest IH]; intros st; simpl; [eauto|].
  repeat case_match; eauto.
  - destruct (handle_packet_is_Some st (nx_env x) (nx_data x)) as [r ->].
    simpl. destruct (IH (next_state st r)) as [run ->].
    destruct (r_verdict r); simpl; eauto.
Qed.

Lemma handle_pcap_inert st x rest :
  inert x = true -> handle_pcap st (x :: rest) = handle_pcap st rest.
Proof.
  unfold inert. intros Hin. simpl.
  destruct (Z.eqb_spec (nx_ret x) 1) as [Hret|Hret].
  - destruct (Z.eqb_spec (nx_len x) (Z.of_nat (length (nx_data x))));
      [|done].
    simpl in Hin.
    assert (Hdrop : handle_packet st (nx_env x) (nx_data x)
                      (Z.of_nat (length (nx_data x)))
                    = Some (dropped st (nx_data x))).
    { apply orb_true_iff in Hin as [Hlen|Hbc].
      - apply handle_packet_short. by apply Z.ltb_lt.
      - apply handle_packet_broadcast. by apply bool_decide_eq_true in Hbc. }
    rewrite Hdrop. simpl. rewrite next_state_dropped.
    destruct (handle_pcap st rest) as [run|]; [|done].
    simpl. by rewrite after_output_nil.
  - apply negb_true_iff in Hin.
    apply orb_false_iff in Hin as [Hin Hm2].
    apply orb_false_iff in Hin as [H0 Hm1].
    by rewrite H0, Hm1, Hm2.
Qed.

Lemma visible_after_output (out : list event) (o : option (pcap_run H B)) :
  visible <$> (run ← o; Some (after_output out run))
  = (fun v : ending * state H B * list event =>
       (v.1.1, v.1.2, out ++ v.2)) <$> (visible <$> o).
Proof. by destruct o. Qed.

End CaptureLoopFacts.

Section CaptureLoopProperties.
Context {H B : Type} `{!Hashlimit H} `{!Bitmap B}.
Implicit Types (st : state H B) (r : result H) (x : next_ex)
  (script rest : list next_ex) (run : pcap_run H B).

(** X13. Results of [pcap_next_ex] that leave no trace: packets captured
    only in part, packets shorter than 50 bytes, packets addressed to
    the broadcast address and return values other than 1, 0, -1 and -2
    can be struck from a capture without changing how the loop ends,
    the state it leaves or anything it prints or sends. *)
Theorem X13_inert_results_leave_no_trace st script :
  visible <$> handle_pcap st script
  = visible <$> handle_pcap st
                  (List.filter (fun x => negb (inert x)) script).
Proof.
  revert st. induction script as [|x rest IH]; intros st; [done|].
  cbn [List.filter]. destruct (inert x) eqn:Hin; cbn [negb].
  { rewrite handle_pcap_inert by done. apply IH. }
  cbn [handle_pcap].
  destruct (nx_ret x =? 1).
  - destruct (nx_len x =? Z.of_nat (length (nx_data x))); [|apply IH].
    destruct (handle_packet _ _ _ _) as [r|]; [|done].
    cbn [mbind option_bind].
    destruct (r_verdict r); try done;
      by rewrite !visible_after_output, IH.
  - repeat case_match; first [done|apply IH].
Qed.

(** X14. The loop reads a capture in order, one result after the other.
    If on a first part of the capture it is still running at the end,
    its run on the whole capture is that run followed by the run on the
    rest from the state reached; if it returned or exited on the first
    part, the rest is left unread and changes nothing. *)
Theorem X14_loop_composes st (first rest : list next_ex) run :
  handle_pcap st first = Some run ->
  match pr_ending run with
  | Waiting =>
      pr_unread run = []
      /\ handle_pcap st (first ++ rest)
         = after_output (pr_out run) <$> handle_pcap (pr_state run) rest
  | _ =>
      handle_pcap st (first ++ rest)
      = Some {| pr_ending := pr_ending run; pr_state := pr_state run;
                pr_out := pr_out run;
                pr_unread := pr_unread run ++ rest |}
  end.
Proof.
  revert st run. induction first as [|x first IH]; intros st run Hrun.
  { injection Hrun as <-. simpl. split; [done|].
    destruct (handle_pcap st rest) as [run|]; [|done].
    simpl. by rewrite after_output_nil. }
  cbn [handle_pcap app] in Hrun |- *.
  assert (Hstop : forall how,
    how <> Waiting -> Some (stopped how st first) = Some run ->
    match pr_ending run with
    | Waiting =>
        pr_unread run = []
        /\ Some (stopped how st (first ++ rest))
           = after_output (pr_out run) <$> handle_pcap (pr_state run) rest
    | _ =>
        Some (stopped how st (first ++ rest))
        = Some {| pr_ending := pr_ending run; pr_state := pr_state run;
                  pr_out := pr_out run;
                  pr_unread := pr_unread run ++ rest |}
    end).
  { intros how Hhow [= <-]. by destruct how. }
  destruct (nx_ret x =? 1).
  - destruct (nx_len x =? Z.of_nat (length (nx_data x))); [|by apply IH].
    destruct (handle_packet _ _ _ _) as [r|]; [|discriminate].
    cbn [mbind option_bind] in Hrun |- *.
    assert (Hgo :
      (run' ← handle_pcap (next_state st r) first;
       Some (after_output (r_out r) run')) = Some run ->
      match pr_ending run with
      | Waiting =>
          pr_unread run = []
          /\ (run' ← handle_pcap (next_state st r) (first ++ rest);
              Some (after_output (r_out r) run'))
             = after_output (pr_out run)
               <$> handle_pcap (pr_state run) rest
      | _ =>
          (run' ← handle_pcap (next_state st r) (first ++ rest);
           Some (after_output (r_out r) run'))
          = Some {| pr_ending := pr_ending run; pr_state := pr_state run;
                    pr_out := pr_out run;
                    pr_unread := pr_unread run ++ rest |}
      end).
    { destruct (handle_pcap (next_state st r) first) as [run'|] eqn:Hrun';
        [|discriminate].
      simpl. intros [= <-]. specialize (IH _ _ Hrun'). simpl.
      destruct (pr_ending run').
      - by rewrite IH.
      - by rewrite IH.
      - destruct IH as [Hun ->]. split; [done|].
        destruct (handle_pcap (pr_state run') rest) as [run''|]; [|done].
        simpl. by rewrite after_output_app. }
    destruct (r_verdict r); try exact (Hgo Hrun).
    injection Hrun as <-. simpl. done.
  - destruct (nx_ret x =? 0); [by apply Hstop|].
    destruct (nx_ret x =? -1); [by apply Hstop|].
    destruct (nx_ret x =? -2); [by apply Hstop|].
    by apply IH.
Qed.

End CaptureLoopProperties.

Section CaptureLoopOutput.
Context {H B : Type} `{!Hashlimit H} `{!Bitmap B}.
Implicit Types (st : state H B) (r : result H) (x : next_ex)
  (script rest : list next_ex) (run : pcap_run H B).

Lemma sent_app (out out' : list event) :
  sent (out ++ out') = sent out ++ sent out'.
Proof. apply omap_app. Qed.

(** X15. The loop sends nothing but what it captured: the buffers handed
    to [send] during a run are, in capture order, rewritten copies (six
    [0xff], the old destination address, the rest unchanged) of packets
    that were captured whole, each packet sent at most once. *)
Theorem X15_sends_are_rewritten_captures st script run :
  handle_pcap st script = Some run ->
  sent (pr_out run)
    `sublist_of` map (fun x => rewritten (nx_data x))
                     (List.filter whole script)
  /\ (length (sent (pr_out run))
      <= length (List.filter whole script))%nat.
Proof.
  intros Hrun.
  cut (sent (pr_out run)
         `sublist_of` map (fun x => rewritten (nx_data x))
                          (List.filter whole script)).
  { intros Hsub. split; [done|].
    apply sublist_length in Hsub. by rewrite length_map in Hsub. }
  revert st run Hrun.
  induction script as [|x rest IH]; intros st run Hrun.
  { injection Hrun as <-. apply sublist_nil_l. }
  cbn [handle_pcap] in Hrun. cbn [List.filter]. unfold whole at 1.
  destruct (nx_ret x =? 1); cbn [andb].
  - destruct (nx_len x =? Z.of_nat (length (nx_data x))); [|by eapply IH].
    destruct (handle_packet _ _ _ _) as [r|] eqn:Hr; [|discriminate].
    cbn [mbind option_bind] in Hrun. cbn [map].
    assert (Hone : sent (r_out r) `sublist_of` [rewritten (nx_data x)]).
    { rewrite (handle_packet_sent _ _ _ _ Hr).
      destruct (_ && _); [done|apply sublist_nil_l]. }
    assert (Hgo :
      (run' ← handle_pcap (next_state st r) rest;
       Some (after_output (r_out r) run')) = Some run ->
      sent (pr_out run)
        `sublist_of` rewritten (nx_data x)
                     :: map (fun x => rewritten (nx_data x))
                            (List.filter whole rest)).
    { destruct (handle_pcap (next_state st r) rest) as [run'|] eqn:Hrun';
        [|discriminate].
      simpl. intros [= <-]. simpl. rewrite sent_app.
      apply (sublist_app _ [_]); [done|by eapply IH]. }
    destruct (r_verdict r); try exact (Hgo Hrun).
    injection Hrun as <-. simpl. rewrite app_nil_r.
    etrans; [exact Hone|]. apply sublist_skip, sublist_nil_l.
  - destruct (nx_ret x =? 0);
      [injection Hrun as <-; apply sublist_nil_l|].
    destruct (nx_ret x =? -1);
      [injection Hrun as <-; apply sublist_nil_l|].
    destruct (nx_ret x =? -2);
      [injection Hrun as <-; apply sublist_nil_l|].
    by eapply IH.
Qed.

(** X16. The loop keeps the configuration (verbosity, dry-run flag and
    port bitmap) through any capture, and with the dry-run flag set it
    never hands a frame to [send], however many frames are admitted. *)
Theorem X16_dry_run_never_sends st script run :
  handle_pcap st script = Some run ->
  verbose (pr_state run) = verbose st
  /\ dry_run (pr_state run) = dry_run st
  /\ ports_map (pr_state run) = ports_map st
  /\ (dry_run st <> 0 -> sent (pr_out run) = []).
Proof.
  revert st run. induction script as [|x rest IH]; intros st run Hrun.
  { by injection Hrun as <-. }
  cbn [handle_pcap] in Hrun.
  destruct (nx_ret x =? 1).
  - destruct (nx_len x =? Z.of_nat (length (nx_data x))); [|by eapply IH].
    destruct (handle_packet _ _ _ _) as [r|] eqn:Hr; [|discriminate].
    cbn [mbind option_bind] in Hrun.
    assert (Hdry : dry_run st <> 0 -> sent (r_out r) = []).
    { intros Hd. rewrite (handle_packet_sent _ _ _ _ Hr).
      destruct (Z.eqb_spec (dry_run st) 0); [done|].
      by rewrite andb_false_r. }
    assert (Hgo :
      (run' ← handle_pcap (next_state st r) rest;
       Some (after_output (r_out r) run')) = Some run ->
      verbose (pr_state run) = verbose st
      /\ dry_run (pr_state run) = dry_run st
      /\ ports_map (pr_state run) = ports_map st
      /\ (dry_run st <> 0 -> sent (pr_out run) = [])).
    { destruct (handle_pcap (next_state st r) rest) as [run'|] eqn:Hrun';
        [|discriminate].
      simpl. intros [= <-]. simpl.
      destruct (IH _ _ Hrun') as (Hv & Hd & Hp & Hs). simpl in *.
      repeat split; try done.
      intros Hne. by rewrite sent_app, Hdry, Hs. }
    destruct (r_verdict r); try exact (Hgo Hrun).
    injection Hrun as <-. simpl. repeat split.
    intros Hne. by rewrite app_nil_r, Hdry.
  - destruct (nx_ret x =? 0); [by injection Hrun as <-|].
    destruct (nx_ret x =? -1); [by injection Hrun as <-|].
    destruct (nx_ret x =? -2); [by injection Hrun as <-|].
    by eapply IH.
Qed.







End CaptureLoopOutput.

(** * One VLAN tag is transparent *)

Lemma rd_range_is_Some (q : frame) (off len : Z) :
  is_Some (rd_range q off len)
  <-> 0 <= off /\ 0 <= len /\ off + len <= Z.of_nat (length q).
Proof.
  unfold rd_range.
  destruct (Z.leb_spec 0 off); destruct (Z.leb_spec 0 len);
    destruct (Z.leb_spec (off + len) (Z.of_nat (length q))); simpl;
    split; try (intros [? ?]; discriminate); try lia; eauto.
Qed.

Section VlanTag.
Variables (tci_hi tci_lo : byte) (p : frame).
Hypothesis Hp : (12 <= length p)%nat.

Lemma vlan_tagged_length : length (vlan_tagged tci_hi tci_lo p) = (length p + 4)%nat.
Proof.
  unfold vlan_tagged. rewrite !length_app, length_take, length_drop.
  cbn [length]. lia.
Qed.

Lemma vlan_tagged_lookup_low (i : nat) :
  (i < 12)%nat -> (vlan_tagged tci_hi tci_lo p) !! i = p !! i.
Proof.
  intros Hi. unfold vlan_tagged.
  rewrite lookup_app_l by (rewrite length_take; lia).
  by apply lookup_take_lt.
Qed.

Lemma vlan_tagged_lookup_high (i : nat) :
  (12 <= i)%nat -> (vlan_tagged tci_hi tci_lo p) !! (i + 4)%nat = p !! i.
Proof.
  intros Hi. unfold vlan_tagged.
  rewrite lookup_app_r by (rewrite length_take; lia).
  rewrite length_take, Nat.min_l by lia.
  rewrite lookup_app_r by (cbn [length]; lia).
  rewrite lookup_drop. f_equal. cbn [length]. lia.
Qed.

Lemma rd_tagged_low (i : Z) : i < 12 -> rd (vlan_tagged tci_hi tci_lo p) i = rd p i.
Proof.
  intros Hi. unfold rd. destruct (Z.leb_spec 0 i); [|done].
  by rewrite vlan_tagged_lookup_low by lia.
Qed.

Lemma rd_tagged_high (j : Z) : 16 <= j -> rd (vlan_tagged tci_hi tci_lo p) j = rd p (j - 4).
Proof.
  intros Hj. unfold rd.
  destruct (Z.leb_spec 0 j); [|lia].
  destruct (Z.leb_spec 0 (j - 4)); [|lia].
  replace (Z.to_nat j) with (Z.to_nat (j - 4) + 4)%nat by lia.
  by rewrite vlan_tagged_lookup_high by lia.
Qed.

Lemma rd_tagged_tpid : rd (vlan_tagged tci_hi tci_lo p) 12 = Some 0x81 /\ rd (vlan_tagged tci_hi tci_lo p) 13 = Some 0.
Proof.
  unfold rd, vlan_tagged. simpl.
  rewrite !lookup_app_r by (rewrite length_take; lia).
  rewrite length_take, Nat.min_l by lia.
  done.
Qed.

Lemma rd_range_tagged_high (off len : Z) :
  12 <= off -> rd_range (vlan_tagged tci_hi tci_lo p) (off + 4) len = rd_range p off len.
Proof.
  intros Hoff. unfold rd_range. rewrite vlan_tagged_length.
  destruct (Z.leb_spec 0 off); [|lia].
  destruct (Z.leb_spec 0 (off + 4)); [|lia].
  destruct (Z.leb_spec 0 len); [|done]. simpl.
  destruct (Z.leb_spec (off + len) (Z.of_nat (length p)));
    destruct (Z.leb_spec (off + 4 + len) (Z.of_nat (length p + 4)));
    try lia; [|done].
  f_equal. f_equal. apply list_eq. intros i. rewrite !lookup_drop.
  replace (Z.to_nat (off + 4) + i)%nat with (Z.to_nat off + i + 4)%nat
    by lia.
  apply vlan_tagged_lookup_high. lia.
Qed.

Lemma rd_range_tagged_all (data_len : Z) :
  is_Some (rd_range (vlan_tagged tci_hi tci_lo p) 0 (data_len + 4))
  <-> is_Some (rd_range p 0 data_len) \/ (-4 <= data_len < 0).
Proof.
  rewrite !rd_range_is_Some, vlan_tagged_length. lia.
Qed.

End VlanTag.

Lemma rewritten_tagged (tci_hi tci_lo : byte) (p : frame) :
  (12 <= length p)%nat ->
  rewritten (vlan_tagged tci_hi tci_lo p)
  = vlan_tagged tci_hi tci_lo (rewritten p).
Proof.
  intros Hp. do 12 (destruct p as [|? p]; [simpl in Hp; lia|]).
  unfold rewritten, vlan_tagged. simpl. by rewrite !drop_0.
Qed.

Lemma vlan_shift_init : vlan_shift init_locals = init_locals.
Proof. reflexivity. Qed.

Lemma check_valid_vlan_shift (l : locals) :
  check_valid (vlan_shift l) = check_valid l.
Proof.
  unfold check_valid, vlan_shift. simpl.
  assert (Hnull : is_null ((fun off => off + 4) <$> hash l)
                  = is_null (hash l)) by (by destruct (hash l)).
  rewrite Hnull.
  destruct (Z.ltb_spec (icmp_offset l) 0) as [Hneg|Hpos].
  - by destruct (Z.ltb_spec (icmp_offset l) 0); [|lia].
  - by destruct (Z.ltb_spec (icmp_offset l + 4) 0); [lia|].
Qed.

Section VlanClassify.
Variables (tci_hi tci_lo : byte) (p : frame).
Hypothesis Hp : (12 <= length p)%nat.

Lemma dst_is_broadcast_tagged : dst_is_broadcast (vlan_tagged tci_hi tci_lo p) = dst_is_broadcast p.
Proof.
  unfold dst_is_broadcast, is_ff.
  by rewrite !(rd_tagged_low tci_hi tci_lo p Hp) by lia.
Qed.

Lemma l2_demux_tagged (eth_type : Z) :
  l2_demux p = Some (eth_type, 14) -> l2_demux (vlan_tagged tci_hi tci_lo p) = Some (eth_type, 18).
Proof.
  unfold l2_demux.
  destruct (rd_tagged_tpid tci_hi tci_lo p Hp) as [-> ->].
  rewrite !(rd_tagged_high tci_hi tci_lo p Hp) by lia.
  change (16 - 4) with 12. change (17 - 4) with 13.
  destruct (rd p 12) as [b12|]; [|discriminate].
  destruct (rd p 13) as [b13|]; [|discriminate].
  simpl. destruct (be16 b12 b13 =? 33024).
  - destruct (rd p 16); [|discriminate]. by destruct (rd p 17).
  - by intros [= <-].
Qed.

Lemma ipv4_branch_tagged (data_len eth_type : Z) :
  ipv4_branch (vlan_tagged tci_hi tci_lo p) (data_len + 4) eth_type 18 init_locals
  = flow_map vlan_shift <$> ipv4_branch p data_len eth_type 14 init_locals.
Proof.
  unfold ipv4_branch.
  rewrite !(rd_tagged_high tci_hi tci_lo p Hp) by lia.
  change (18 - 4) with 14. change (18 + 9 - 4) with (14 + 9).
  destruct (eth_type =? 2048); [|done].
  destruct (rd p 14) as [b|]; [|done]. simpl.
  destruct (Z.land b 240 =? 64); [|done].
  pose proof (land_0x0F_range b) as Hihl.
  destruct (Z.land b 15 * 4 <? 20); [done|].
  destruct (rd p (14 + 9)) as [proto|]; [|done]. simpl.
  destruct (proto =? 1); simpl.
  - destruct (Z.leb_spec (18 + 20 + 8 + 20 + 8) (data_len + 4));
      destruct (Z.leb_spec (14 + 20 + 8 + 20 + 8) data_len); try lia;
      simpl; unfold vlan_shift; simpl;
      (destruct (Z.ltb_spec (14 + Z.land b 15 * 4) 0); [lia|]);
      do 3 f_equal; lia.
  - unfold vlan_shift; simpl.
    destruct (Z.ltb_spec (14 + Z.land b 15 * 4) 0); [lia|].
    do 3 f_equal; lia.
Qed.

Lemma ipv6_branch_tagged (data_len eth_type : Z) (l : locals) :
  ipv6_branch (vlan_tagged tci_hi tci_lo p) (data_len + 4) eth_type 18 (vlan_shift l)
  = vlan_shift <$> ipv6_branch p data_len eth_type 14 l.
Proof.
  unfold ipv6_branch.
  rewrite !(rd_tagged_high tci_hi tci_lo p Hp) by lia.
  change (18 - 4) with 14. change (18 + 6 - 4) with (14 + 6).
  destruct (eth_type =? 34525); [|done].
  destruct (rd p 14) as [b|]; [|done]. simpl.
  destruct (Z.land b 240 =? 96); [|done].
  destruct (rd p (14 + 6)) as [proto|]; [|done]. simpl.
  destruct (proto =? 58); simpl; [|done].
  by destruct (Z.leb_spec (18 + 40 + 8 + 32) (data_len + 4));
    destruct (Z.leb_spec (14 + 40 + 8 + 32) data_len); try lia.
Qed.

Lemma classify_tagged (data_len eth_type : Z) :
  classify (vlan_tagged tci_hi tci_lo p) (data_len + 4) eth_type 18
  = (fun lc : locals * flow unit => (vlan_shift lc.1, lc.2))
    <$> classify p data_len eth_type 14.
Proof.
  unfold classify. rewrite ipv4_branch_tagged.
  destruct (ipv4_branch p data_len eth_type 14 init_locals)
    as [[l4|reason]|]; simpl; [|done|done].
  rewrite ipv6_branch_tagged.
  destruct (ipv6_branch p data_len eth_type 14 l4) as [l6|]; simpl; [|done].
  by rewrite check_valid_vlan_shift.
Qed.

Lemma inner_l4_offset_tagged (payload_offset : Z) :
  12 <= payload_offset ->
  inner_l4_offset (vlan_tagged tci_hi tci_lo p) (payload_offset + 4)
  = flow_map (fun l4 => l4 + 4) <$> inner_l4_offset p payload_offset.
Proof.
  intros Hpo. unfold inner_l4_offset.
  rewrite !(rd_tagged_high tci_hi tci_lo p Hp) by lia.
  replace (payload_offset + 4 + 8 - 4) with (payload_offset + 8) by lia.
  replace (payload_offset + 4 - 4) with payload_offset by lia.
  destruct (rd p (payload_offset + 8)) as [v|]; [|done]. simpl.
  destruct (Z.land v 240 =? 64).
  - destruct (rd p payload_offset) as [b|]; [|done]. simpl.
    do 2 f_equal. lia.
  - destruct (Z.land v 240 =? 96); [|done]. simpl. do 2 f_equal. lia.
Qed.

End VlanClassify.

Section VlanTransparency.
Context {H B : Type} `{!Hashlimit H} `{!Bitmap B}.
Implicit Types (st : state H B) (r : result H) (e : env) (p pp : frame).
Variables (tci_hi tci_lo : byte).

Lemma port_filter_tagged (pm : option B) p (data_len : Z) (l : locals) :
  (12 <= length p)%nat -> 4 <= icmp_offset l ->
  port_filter pm (vlan_tagged tci_hi tci_lo p) (data_len + 4) (vlan_shift l)
  = port_filter pm p data_len l.
Proof.
  intros Hp Hoff. unfold port_filter. destruct pm as [m|]; [|done].
  assert (Hshift : icmp_offset (vlan_shift l) = icmp_offset l + 4).
  { unfold vlan_shift. simpl.
    by destruct (Z.ltb_spec (icmp_offset l) 0); [lia|]. }
  rewrite Hshift.
  replace (icmp_offset l + 4 + 8) with (icmp_offset l + 8 + 4) by lia.
  destruct (Z.ltb_spec (data_len + 4) (icmp_offset l + 8 + 4 + 9));
    destruct (Z.ltb_spec data_len (icmp_offset l + 8 + 9)); try lia;
    [done|].
  rewrite (inner_l4_offset_tagged tci_hi tci_lo p Hp) by lia.
  destruct (inner_l4_offset p (icmp_offset l + 8)) as [[l4|reason]|] eqn:Hl4;
    simpl; [|done|done].
  apply inner_l4_offset_ge in Hl4.
  destruct (Z.ltb_spec (data_len + 4) (l4 + 4 + 2));
    destruct (Z.ltb_spec data_len (l4 + 2)); try lia; [done|].
  rewrite !(rd_tagged_high tci_hi tci_lo p Hp) by lia.
  replace (l4 + 4 - 4) with l4 by lia.
  replace (l4 + 4 + 1 - 4) with (l4 + 1) by lia.
  done.
Qed.

Lemma hash_bytes_tagged pp (l : locals) :
  (12 <= length pp)%nat ->
  (forall off, hash l = Some off -> 12 <= off) ->
  hash_bytes (vlan_tagged tci_hi tci_lo pp) (vlan_shift l) = hash_bytes pp l.
Proof.
  intros Hpp Hoff. unfold hash_bytes, vlan_shift. simpl.
  destruct (hash l) as [off|]; [|done]. simpl.
  apply rd_range_tagged_high; auto.
Qed.

Lemma dump_tagged pp (data_len : Z) :
  (12 <= length pp)%nat -> 0 <= data_len ->
  (exists hex hex', rd_range (vlan_tagged tci_hi tci_lo pp) 0 (data_len + 4) = Some hex
                    /\ rd_range pp 0 data_len = Some hex')
  \/ (rd_range (vlan_tagged tci_hi tci_lo pp) 0 (data_len + 4) = None
      /\ rd_range pp 0 data_len = None).
Proof.
  intros Hpp Hdl.
  pose proof (rd_range_tagged_all tci_hi tci_lo pp Hpp data_len) as Hiff.
  destruct (rd_range (vlan_tagged tci_hi tci_lo pp) 0 (data_len + 4)) as [hex|];
    destruct (rd_range pp 0 data_len) as [hex'|]; eauto.
  - exfalso. destruct (proj1 Hiff) as [[? ?]|?]; [eauto|done|lia].
  - exfalso. destruct (proj2 Hiff) as [? ?]; [eauto|done].
Qed.

Lemma reject_tagged st pp (data_len : Z) (reason : string) (l : locals)
    (src ifc : H) :
  (12 <= length pp)%nat -> 0 <= data_len ->
  (forall off, hash l = Some off -> 12 <= off) ->
  decision <$> reject st (vlan_tagged tci_hi tci_lo pp) (data_len + 4) reason (vlan_shift l)
                 src ifc
  = decision <$> reject st pp data_len reason l src ifc.
Proof.
  intros Hpp Hdl Hoff. unfold reject.
  rewrite hash_bytes_tagged by done.
  destruct (dump_tagged pp data_len Hpp Hdl)
    as [(hex & hex' & -> & ->)|[-> ->]];
    destruct (hash_bytes pp l) as [ip|];
    repeat (case_match; simpl; try done).
Qed.

Lemma transmit_tagged st e pp (data_len : Z) (l : locals) (src ifc : H) :
  (12 <= length pp)%nat -> 0 <= data_len ->
  (forall off, hash l = Some off -> 12 <= off) ->
  decision <$> transmit st e (vlan_tagged tci_hi tci_lo pp) (data_len + 4) (vlan_shift l) src ifc
  = decision <$> transmit st e pp data_len l src ifc.
Proof.
  intros Hpp Hdl Hoff. unfold transmit.
  rewrite hash_bytes_tagged by done.
  destruct (dump_tagged pp data_len Hpp Hdl)
    as [(hex & hex' & -> & ->)|[-> ->]];
    destruct (hash_bytes pp l) as [ip|];
    repeat (case_match; simpl; try done).
Qed.

Lemma ratelimit_and_send_tagged st e pp (data_len : Z) (l : locals) :
  (12 <= length pp)%nat -> 0 <= data_len ->
  (forall off, hash l = Some off -> 12 <= off) ->
  decision <$> ratelimit_and_send st e (vlan_tagged tci_hi tci_lo pp) (data_len + 4)
                 (vlan_shift l)
  = decision <$> ratelimit_and_send st e pp data_len l.
Proof.
  intros Hpp Hdl Hoff. unfold ratelimit_and_send.
  rewrite hash_bytes_tagged by done.
  destruct (hash_bytes pp l) as [key|]; [|done]. simpl.
  destruct (hashlimit_touch_hash _ _ _) as [[] src]; simpl;
    [|by apply reject_tagged].
  destruct (hashlimit_touch _ _ _) as [[] ifc]; simpl;
    [by apply transmit_tagged|by apply reject_tagged].
Qed.

(** X18. One 802.1Q tag is transparent. Take a frame without a VLAN tag
    and a length argument of at least 50.  The same frame with a tag
    (TPID 0x8100 and any TCI) put in after the MAC addresses, and four
    more bytes of length, takes the same way through [handle_packet]
    (same return, same reject reason) and leaves the same two
    rate-limit tables: every offset is taken four bytes further on and
    the same source address is charged. *)
Theorem X18_vlan_tag_transparent st e p (data_len eth_type : Z) :
  l2_demux p = Some (eth_type, 14) ->
  50 <= data_len ->
  decision <$> handle_packet st e (vlan_tagged tci_hi tci_lo p)
                 (data_len + 4)
  = decision <$> handle_packet st e p data_len.
Proof.
  intros Hl2 Hlen.
  assert (Hp : (12 <= length p)%nat).
  { unfold l2_demux in Hl2.
    destruct (rd p 12) as [b12|] eqn:H12; [|discriminate].
    apply rd_Some_lt in H12. lia. }
  unfold handle_packet.
  destruct (Z.ltb_spec (data_len + 4) (14 + 20 + 8 + 8)); [lia|].
  destruct (Z.ltb_spec data_len (14 + 20 + 8 + 8)); [lia|].
  rewrite (dst_is_broadcast_tagged tci_hi tci_lo p Hp).
  destruct (dst_is_broadcast p) as [[]|]; simpl; [done| |done].
  rewrite (l2_demux_tagged tci_hi tci_lo p Hp _ Hl2), Hl2. simpl.
  rewrite (classify_tagged tci_hi tci_lo p Hp).
  destruct (classify p data_len eth_type 14) as [[l c]|] eqn:Hcl; simpl;
    [|done].
  destruct (classify_inv _ _ _ _ _ _ Hcl) as [Hshape Hnext].
  pose proof (classify_icmp_offset _ _ _ _ _ _ Hcl) as Hicmp.
  assert (Hoff : forall off, hash l = Some off -> 12 <= off)
    by (eapply classified_key_offset; [done|by left]).
  destruct c as [[]|reason]; [|apply reject_tagged; (done || lia)].
  destruct Hnext as (_ & _ & Hpos); [done|].
  rewrite port_filter_tagged by (done || lia).
  destruct (port_filter _ p _ _) as [[[]|reason]|]; simpl;
    [|apply reject_tagged; (done || lia)|done].
  rewrite !rewrite_macs_spec
    by (rewrite ?vlan_tagged_length by done; lia).
  cbn [mbind option_bind].
  change (replicate 6 Byte.xff ++ take 6 (vlan_tagged tci_hi tci_lo p)
          ++ drop 12 (vlan_tagged tci_hi tci_lo p))
    with (rewritten (vlan_tagged tci_hi tci_lo p)).
  change (replicate 6 Byte.xff ++ take 6 p ++ drop 12 p)
    with (rewritten p).
  rewrite rewritten_tagged by done.
  apply ratelimit_and_send_tagged; [|lia|done].
  by rewrite rewritten_length.
Qed.

End VlanTransparency.

(** * Admission, and what the source MAC address is good for *)

Section Admission.
Context {H B : Type} `{!Hashlimit H} `{!Bitmap B}.
Implicit Types (st : state H B) (r : result H) (e : env) (p pp : frame).

(** X19. The whole pipeline in one statement: a frame is admitted
    exactly when it is at least 50 bytes long, is not addressed to the
    broadcast address, passes classification and the port filter (if a
    bitmap is configured), and then the per-source limiter, asked with
    the frame's source address, and the per-interface limiter, asked
    with key 0, both admit. *)
Theorem X19_admission st e p (data_len : Z) r :
  handle_packet st e p data_len = Some r ->
  (admitted (r_verdict r) = true
   <-> 50 <= data_len /\ take 6 p <> replicate 6 Byte.xff
       /\ exists eth_type l3_offset l key,
            l2_demux p = Some (eth_type, l3_offset)
            /\ classify p data_len eth_type l3_offset = Some (l, Next ())
            /\ port_filter (ports_map st) p data_len l = Some (Next ())
            /\ hash_bytes p l = Some key
            /\ (hashlimit_touch_hash (sources st) (t_sources e) key).1
               = true
            /\ (hashlimit_touch (ifaces st) (t_ifaces e) 0).1 = true).
Proof.
  intros Hr. pose proof Hr as Hinv. apply handle_packet_inv in Hinv.
  destruct Hinv as [[-> Hwhy]|(et & l3 & l & c & Hlen & Hbc & Hl2 & Hcl & Hp)].
  { split; [done|]. intros (Hlen & Hbc & _). exfalso.
    destruct Hwhy as [?|Hd]; [lia|].
    by apply dst_is_broadcast_true in Hd. }
  assert (Hnbc : take 6 p <> replicate 6 Byte.xff).
  { intros Hff. apply dst_is_broadcast_true in Hff. congruence. }
  assert (Hno : forall pp reason src ifc,
    reject st pp data_len reason l src ifc = Some r ->
    admitted (r_verdict r) = false)
    by (intros ? ? ? ? Hrej; by apply reject_inv in Hrej as (-> & _)).
  destruct Hp as [(reason & -> & Hp)|(-> & f & Hpf & Hp)].
  { rewrite (Hno _ _ _ _ Hp). split; [done|].
    intros (_ & _ & et' & l3' & l' & key & Hl2' & Hcl' & _).
    rewrite Hl2 in Hl2'. injection Hl2' as <- <-. congruence. }
  destruct Hp as [(reason & -> & Hp)|(-> & pp & Hrw & Hp)].
  { rewrite (Hno _ _ _ _ Hp). split; [done|].
    intros (_ & _ & et' & l3' & l' & key & Hl2' & Hcl' & Hpf' & _).
    rewrite Hl2 in Hl2'. injection Hl2' as <- <-.
    rewrite Hcl in Hcl'. injection Hcl' as <-. congruence. }
  assert (Hkey : hash_bytes pp l = hash_bytes p l).
  { apply rewrite_macs_rewritten in Hrw as [-> Hp12].
    apply hash_bytes_rewritten; [done|].
    destruct (classify_inv _ _ _ _ _ _ Hcl) as [Hshape _].
    eapply classified_key_offset; [done|]. by eapply l2_demux_offset. }
  apply ratelimit_and_send_inv in Hp
    as (key & ok & src & Hk & Hsrc & Hp).
  rewrite Hkey in Hk.
  assert (Hrest : forall P : list byte -> Prop,
    (50 <= data_len /\ take 6 p <> replicate 6 Byte.xff
     /\ exists eth_type l3_offset l0 key0,
          l2_demux p = Some (eth_type, l3_offset)
          /\ classify p data_len eth_type l3_offset = Some (l0, Next ())
          /\ port_filter (ports_map st) p data_len l0 = Some (Next ())
          /\ hash_bytes p l0 = Some key0
          /\ P key0) <-> P key).
  { intros P. split.
    - intros (_ & _ & et' & l3' & l' & key' & Hl2' & Hcl' & _ & Hk' & HP).
      rewrite Hl2 in Hl2'. injection Hl2' as <- <-.
      rewrite Hcl in Hcl'. injection Hcl' as <-.
      rewrite Hk in Hk'. by injection Hk' as <-.
    - intros HP. split; [done|]. split; [done|].
      exists et, l3, l, key. by repeat split. }
  rewrite (Hrest (fun k =>
    (hashlimit_touch_hash (sources st) (t_sources e) k).1 = true
    /\ (hashlimit_touch (ifaces st) (t_ifaces e) 0).1 = true)).
  rewrite Hsrc. simpl.
  destruct Hp as [(-> & Hp)|(-> & ok' & ifc & Hifc & Hp)].
  { rewrite (Hno _ _ _ _ Hp). split; [done|]. by intros [? _]. }
  rewrite Hifc. simpl.
  destruct Hp as [(-> & Hp)|(-> & Hp)].
  { rewrite (Hno _ _ _ _ Hp). split; [done|]. by intros [_ ?]. }
  apply transmit_inv in Hp as (-> & _). done.
Qed.

End Admission.

Section SourceMac.
Variables (p1 p2 : frame).
Hypothesis Hsame : same_but_source_mac p1 p2.

Lemma rd_same_but_source_mac (i : Z) :
  i < 6 \/ 12 <= i -> rd p2 i = rd p1 i.
Proof.
  intros Hi. unfold rd. destruct (Z.leb_spec 0 i); [|done].
  destruct Hsame as [_ Hs]. by rewrite Hs by lia.
Qed.

Lemma rd_range_same_but_source_mac (off len : Z) :
  12 <= off -> rd_range p2 off len = rd_range p1 off len.
Proof.
  intros Hoff. unfold rd_range. destruct Hsame as [-> Hs].
  case_match; [|done]. f_equal. apply list_eq. intros i.
  destruct (decide (i < Z.to_nat len)%nat).
  - rewrite !lookup_take_lt, !lookup_drop by done. apply Hs. lia.
  - by rewrite !lookup_take_ge by lia.
Qed.

Lemma hash_bytes_same_but_source_mac (l : locals) :
  (forall off, hash l = Some off -> 12 <= off) ->
  hash_bytes p2 l = hash_bytes p1 l.
Proof.
  intros Hoff. unfold hash_bytes. destruct (hash l) as [off|]; [|done].
  apply rd_range_same_but_source_mac. auto.
Qed.

Lemma rewritten_same_but_source_mac : rewritten p2 = rewritten p1.
Proof.
  destruct Hsame as [Hlen Hs]. unfold rewritten. f_equal. f_equal.
  - apply list_eq. intros i. destruct (decide (i < 6)%nat).
    + rewrite !lookup_take_lt by done. apply Hs. lia.
    + by rewrite !lookup_take_ge by lia.
  - apply list_eq. intros i. rewrite !lookup_drop. apply Hs. lia.
Qed.

Lemma dst_is_broadcast_same_but_source_mac :
  dst_is_broadcast p2 = dst_is_broadcast p1.
Proof.
  unfold dst_is_broadcast, is_ff.
  by rewrite !rd_same_but_source_mac by lia.
Qed.

Lemma l2_demux_same_but_source_mac : l2_demux p2 = l2_demux p1.
Proof. unfold l2_demux. by rewrite !rd_same_but_source_mac by lia. Qed.

Lemma classify_same_but_source_mac (data_len eth_type l3_offset : Z) :
  12 <= l3_offset ->
  classify p2 data_len eth_type l3_offset
  = classify p1 data_len eth_type l3_offset.
Proof.
  intros Hl3. unfold classify, ipv4_branch, ipv6_branch.
  by rewrite !rd_same_but_source_mac by lia.
Qed.

Lemma inner_l4_offset_same_but_source_mac (payload_offset : Z) :
  12 <= payload_offset ->
  inner_l4_offset p2 payload_offset = inner_l4_offset p1 payload_offset.
Proof.
  intros Hpo. unfold inner_l4_offset.
  by rewrite !rd_same_but_source_mac by lia.
Qed.

End SourceMac.

Section SourceMacIrrelevant.
Context {H B : Type} `{!Hashlimit H} `{!Bitmap B}.
Implicit Types (st : state H B) (r : result H) (e : env) (p pp : frame).

Lemma port_filter_same_but_source_mac p1 p2 (pm : option B)
    (data_len : Z) (l : locals) :
  same_but_source_mac p1 p2 -> 4 <= icmp_offset l ->
  port_filter pm p2 data_len l = port_filter pm p1 data_len l.
Proof.
  intros Hsame Hoff. unfold port_filter. destruct pm as [m|]; [|done].
  case_match; [done|].
  rewrite (inner_l4_offset_same_but_source_mac p1 p2 Hsame) by lia.
  destruct (inner_l4_offset p1 _) as [[l4|reason]|] eqn:Hl4; simpl;
    [|done|done].
  apply inner_l4_offset_ge in Hl4.
  by rewrite !(rd_same_but_source_mac p1 p2 Hsame) by lia.
Qed.

Lemma reject_same_but_source_mac p1 p2 st (data_len : Z) (reason : string)
    (l : locals) (src ifc : H) :
  same_but_source_mac p1 p2 ->
  (forall off, hash l = Some off -> 12 <= off) ->
  outcome <$> reject st p2 data_len reason l src ifc
  = outcome <$> reject st p1 data_len reason l src ifc.
Proof.
  intros Hsame Hoff. unfold reject.
  rewrite (hash_bytes_same_but_source_mac p1 p2 Hsame l Hoff).
  unfold rd_range. destruct Hsame as [-> _].
  destruct (hash_bytes p1 l) as [ip|];
    repeat (case_match; simpl; try done).
Qed.

(** X20. The sender's MAC address plays no part. Two frames that differ
    only in bytes 6 to 11 take the same way through [handle_packet],
    leave the same two rate-limit tables and put the same bytes on the
    wire: the forwarded frame carries the old destination address as its
    source, and nothing of the original source address. *)
Theorem X20_source_mac_irrelevant st e p1 p2 (data_len : Z) :
  same_but_source_mac p1 p2 ->
  outcome <$> handle_packet st e p2 data_len
  = outcome <$> handle_packet st e p1 data_len.
Proof.
  intros Hsame. unfold handle_packet.
  destruct (data_len <? 14 + 20 + 8 + 8); [done|].
  rewrite (dst_is_broadcast_same_but_source_mac p1 p2 Hsame).
  destruct (dst_is_broadcast p1) as [[]|]; simpl; [done| |done].
  rewrite (l2_demux_same_but_source_mac p1 p2 Hsame).
  destruct (l2_demux p1) as [[et l3]|] eqn:Hl2; simpl; [|done].
  pose proof (l2_demux_offset _ _ _ Hl2) as Hl3.
  rewrite (classify_same_but_source_mac p1 p2 Hsame) by lia.
  destruct (classify p1 data_len et l3) as [[l c]|] eqn:Hcl; simpl; [|done].
  destruct (classify_inv _ _ _ _ _ _ Hcl) as [Hshape Hnext].
  pose proof (classify_icmp_offset _ _ _ _ _ _ Hcl) as Hicmp.
  assert (Hoff : forall off, hash l = Some off -> 12 <= off)
    by (by eapply classified_key_offset).
  destruct c as [[]|reason]; [|by apply reject_same_but_source_mac].
  destruct Hnext as (_ & _ & Hpos); [done|].
  rewrite (port_filter_same_but_source_mac p1 p2) by (done || lia).
  destruct (port_filter _ p1 _ _) as [[[]|reason]|]; simpl;
    [|by apply reject_same_but_source_mac|done].
  destruct Hsame as [Hlen Hs].
  destruct (Z.le_gt_cases 12 (Z.of_nat (length p1))) as [Hp|Hp].
  - rewrite !rewrite_macs_spec by lia. cbn [mbind option_bind].
    change (replicate 6 Byte.xff ++ take 6 p2 ++ drop 12 p2)
      with (rewritten p2).
    by rewrite (rewritten_same_but_source_mac p1 p2 (conj Hlen Hs)).
  - destruct (rewrite_macs p1) as [pp1|] eqn:H1;
      [apply rewrite_macs_rewritten in H1; lia|].
    destruct (rewrite_macs p2) as [pp2|] eqn:H2;
      [apply rewrite_macs_rewritten in H2; lia|done].
Qed.

End SourceMacIrrelevant.

(** * The further properties on the sample frames and captures *)

Lemma X1_ipv4_classification_witness :
  l2_demux Samples.valid_ipv4 = Some (0x0800, 14)
  /\ exists l,
       classify Samples.valid_ipv4 70 0x0800 14 = Some (l, Next ())
       /\ icmp_offset l = 14 + Z.land 0x45 0x0F * 4
       /\ hash l = Some 26 /\ hash_len l = 4
       /\ hash_bytes Samples.valid_ipv4 l
          = Some (take 4 (drop 26 Samples.valid_ipv4)).
Proof.
  assert (Hl2 : l2_demux Samples.valid_ipv4 = Some (0x0800, 14))
    by (vm_compute; reflexivity).
  split; [exact Hl2|].
  destruct (X1_ipv4_classification Samples.valid_ipv4 0x0800 14 Hl2)
    as [Hiff Hkey].
  destruct (proj2 Hiff) as (l & Hc & Hv4).
  { exists 0x45. repeat split; vm_compute; (reflexivity || discriminate). }
  exists l. split; [exact Hc|].
  destruct (Hkey l 0x45 Hc Hv4 ltac:(vm_compute; reflexivity))
    as (Ho & Hh & Hn & Hb & _).
  repeat split; assumption.
Defined.

Lemma X2_ipv4_header_too_short_witness :
  exists r,
    handle_packet (Runs.plain 0) Samples.env0 MoreSamples.bad_ihl_ipv4 70
      = Some r
    /\ r_verdict r = Rejected "IPv4 header invalid length"
    /\ r_frame r = MoreSamples.bad_ihl_ipv4
    /\ r_sources r = sources (Runs.plain 0)
    /\ r_ifaces r = ifaces (Runs.plain 0).
Proof.
  run_call r Hr. exists r. split; [done|].
  destruct (X2_ipv4_header_too_short (Runs.plain 0) Samples.env0
              MoreSamples.bad_ihl_ipv4 70 r Hr) as [Hiff Hun].
  assert (Hv : r_verdict r = Rejected "IPv4 header invalid length").
  { apply Hiff. split; [lia|]. split; [by vm_compute|].
    exists 14, 0x44. repeat split; vm_compute; reflexivity. }
  split; [exact Hv|]. exact (Hun Hv).
Defined.

Lemma X3_other_ethertype_rejected_witness :
  exists r,
    handle_packet (Runs.plain 0) Samples.env0 MoreSamples.qinq_ipv4 78
      = Some r
    /\ l2_demux MoreSamples.qinq_ipv4 = Some (0x8100, 18)
    /\ (r_verdict r = Dropped
        \/ r_verdict r = Rejected "Invalid protocol or too short")
    /\ r_frame r = MoreSamples.qinq_ipv4
    /\ r_sources r = sources (Runs.plain 0)
    /\ r_ifaces r = ifaces (Runs.plain 0)
    /\ sent (r_out r) = [].
Proof.
  run_call r Hr. exists r. split; [done|].
  assert (Hl2 : l2_demux MoreSamples.qinq_ipv4 = Some (0x8100, 18))
    by (vm_compute; reflexivity).
  split; [exact Hl2|].
  exact (X3_other_ethertype_rejected (Runs.plain 0) Samples.env0
           MoreSamples.qinq_ipv4 78 r 0x8100 18 Hr Hl2
           ltac:(discriminate) ltac:(discriminate)).
Defined.

Lemma X4_silent_drop_witness :
  exists r,
    handle_packet (Runs.plain 3) Samples.env0 Samples.tiny_ipv4 49 = Some r
    /\ r_verdict r = Dropped.
Proof.
  run_call r Hr. exists r. split; [done|].
  apply (X4_silent_drop (Runs.plain 3) Samples.env0 Samples.tiny_ipv4
           49 r Hr).
  left. lia.
Defined.

Lemma X5_own_frames_not_reprocessed_witness :
  exists r,
    handle_packet (Runs.plain 0) Samples.env0 Samples.valid_ipv4 70 = Some r
    /\ rewritten Samples.valid_ipv4 ∈ sent (r_out r)
    /\ handle_packet (Runs.after_one 0) Samples.env0
         (rewritten Samples.valid_ipv4) 70
       = Some (dropped (Runs.after_one 0) (rewritten Samples.valid_ipv4)).
Proof.
  run_call r Hr. exists r. split; [done|].
  observe Hr (fun r : result TokenBucket.table => sent (r_out r))
    [rewritten Samples.valid_ipv4] Hs.
  assert (Hin : rewritten Samples.valid_ipv4 ∈ sent (r_out r))
    by (rewrite Hs; apply list_elem_of_singleton; reflexivity).
  split; [exact Hin|].
  exact (proj1 (X5_own_frames_not_reprocessed (Runs.plain 0) Samples.env0
                  Samples.valid_ipv4 r Hr _ Hin (Runs.after_one 0)
                  Samples.env0 70)).
Defined.

Lemma X6_whitelist_sound_witness :
  exists r,
    handle_packet Runs.https_only Samples.env0
      (Samples.icmp4_frame 3 4 64 443) 70 = Some r
    /\ ports_map Runs.https_only = Some (PortBitmap.of_ports [443])
    /\ admitted (r_verdict r) = true
    /\ exists l4_offset hi lo,
         rd (Samples.icmp4_frame 3 4 64 443) l4_offset = Some hi
         /\ rd (Samples.icmp4_frame 3 4 64 443) (l4_offset + 1) = Some lo
         /\ bitmap_get (PortBitmap.of_ports [443]) (be16 hi lo) <> 0.
Proof.
  run_call r Hr. exists r. split; [done|]. split; [reflexivity|].
  observe Hr (@r_verdict TokenBucket.table) Transmitting Hv.
  assert (Hadm : admitted (r_verdict r) = true) by (by rewrite Hv).
  split; [exact Hadm|].
  destruct (X6_whitelist_sound Runs.https_only Samples.env0
              (Samples.icmp4_frame 3 4 64 443) 70 r
              (PortBitmap.of_ports [443]) Hr eq_refl Hadm)
    as (et & l3 & l & l4 & hi & lo & _ & _ & _ & _ & Hhi & Hlo & Hbit).
  exists l4, hi, lo. split; [exact Hhi|]. split; [exact Hlo|exact Hbit].
Defined.

Lemma X7_whitelist_only_filters_witness :
  exists r,
    handle_packet Runs.https_only Samples.env0
      (Samples.icmp4_frame 3 4 64 443) 70 = Some r
    /\ handle_packet (with_ports Runs.https_only None) Samples.env0
         (Samples.icmp4_frame 3 4 64 443) 70 = Some r.
Proof.
  run_call r Hr. exists r. split; [done|].
  observe Hr (@r_verdict TokenBucket.table) Transmitting Hv.
  apply (X7_whitelist_only_filters Runs.https_only Samples.env0
           (Samples.icmp4_frame 3 4 64 443) 70 r Hr).
  intros reason Hrej. rewrite Hv in Hrej. discriminate.
Defined.

Lemma X8_limiter_order_witness :
  exists r,
    handle_packet (Runs.after_one 0) Samples.env0 Samples.valid_ipv4 70
      = Some r
    /\ r_verdict r = Rejected "Ratelimited on source IP"
    /\ r_ifaces r = ifaces (Runs.after_one 0).
Proof.
  run_call r Hr. exists r. split; [done|].
  observe Hr (@r_verdict TokenBucket.table)
    (Rejected "Ratelimited on source IP") Hv.
  split; [exact Hv|].
  exact (proj1 (proj1 (X8_limiter_order (Runs.after_one 0) Samples.env0
                         Samples.valid_ipv4 70 r Hr) Hv)).
Defined.

Lemma X10_send_failure_witness :
  exists r r',
    handle_packet (Runs.plain 0) Samples.env0 Samples.valid_ipv4 70 = Some r
    /\ t_sources MoreSamples.env_send_fails = t_sources Samples.env0
    /\ t_ifaces MoreSamples.env_send_fails = t_ifaces Samples.env0
    /\ handle_packet (Runs.plain 0) MoreSamples.env_send_fails
         Samples.valid_ipv4 70 = Some r'
    /\ r_sources r' = r_sources r /\ r_ifaces r' = r_ifaces r
    /\ r_out r' = r_out r.
Proof.
  run_call r Hr. exists r.
  destruct (X10_send_failure (Runs.plain 0) Samples.env0
              MoreSamples.env_send_fails Samples.valid_ipv4 70 r Hr
              eq_refl eq_refl)
    as (r' & Hr' & _ & Hs & Hi & Ho & _).
  exists r'. repeat split; assumption || reflexivity.
Defined.

Lemma X11_reasons_witness :
  exists r reason,
    handle_packet (Runs.after_one 2) Samples.env0 Samples.valid_ipv4 70
      = Some r
    /\ r_verdict r = Rejected reason
    /\ In reason (classify_reasons ++ port_filter_reasons
                  ++ ratelimit_reasons)
    /\ reason <> "unknown"%string.
Proof.
  run_call r Hr. exists r, "Ratelimited on source IP"%string.
  split; [done|].
  observe Hr (@r_verdict TokenBucket.table)
    (Rejected "Ratelimited on source IP") Hv.
  split; [exact Hv|].
  exact (proj1 (X11_reasons (Runs.after_one 2) Samples.env0
                  Samples.valid_ipv4 70 r Hr) _ Hv).
Defined.

Lemma X12_payload_never_modified_witness :
  exists r,
    handle_packet (Runs.after_one 0) Samples.env0 Samples.valid_ipv4 70
      = Some r
    /\ length (r_frame r) = length Samples.valid_ipv4
    /\ forall i, (12 <= i)%nat -> r_frame r !! i = Samples.valid_ipv4 !! i.
Proof.
  run_call r Hr. exists r. split; [done|].
  exact (X12_payload_never_modified (Runs.after_one 0) Samples.env0
           Samples.valid_ipv4 70 r Hr).
Defined.

Lemma X14_loop_composes_witness :
  exists run,
    handle_pcap (Runs.plain 0) [MoreSamples.packet Samples.valid_ipv4]
      = Some run
    /\ pr_ending run = Waiting
    /\ handle_pcap (Runs.plain 0)
         ([MoreSamples.packet Samples.valid_ipv4]
          ++ [MoreSamples.packet Samples.valid_ipv4; MoreSamples.code 0])
       = after_output (pr_out run)
         <$> handle_pcap (pr_state run)
               [MoreSamples.packet Samples.valid_ipv4; MoreSamples.code 0].
Proof.
  run_capture run Hrun. exists run. split; [done|].
  assert (He : pr_ending <$> handle_pcap (Runs.plain 0)
                               [MoreSamples.packet Samples.valid_ipv4]
               = Some Waiting) by (vm_compute; reflexivity).
  rewrite Hrun in He. injection He as He. split; [exact He|].
  pose proof (X14_loop_composes (Runs.plain 0)
                [MoreSamples.packet Samples.valid_ipv4]
                [MoreSamples.packet Samples.valid_ipv4; MoreSamples.code 0]
                run Hrun) as Hcomp.
  rewrite He in Hcomp. exact (proj2 Hcomp).
Defined.

Lemma X15_sends_are_rewritten_captures_witness :
  exists run,
    handle_pcap (Runs.plain 0) MoreSamples.burst = Some run
    /\ sent (pr_out run)
         `sublist_of` map (fun x => rewritten (nx_data x))
                          (List.filter whole MoreSamples.burst)
    /\ (length (sent (pr_out run))
        <= length (List.filter whole MoreSamples.burst))%nat.
Proof.
  run_capture run Hrun. exists run. split; [done|].
  exact (X15_sends_are_rewritten_captures (Runs.plain 0) MoreSamples.burst
           run Hrun).
Defined.

Lemma X16_dry_run_never_sends_witness :
  exists run,
    handle_pcap (with_dry_run (Runs.plain 1) 1) MoreSamples.burst = Some run
    /\ dry_run (with_dry_run (Runs.plain 1) 1) <> 0
    /\ sent (pr_out run) = [].
Proof.
  run_capture run Hrun. exists run. split; [done|].
  assert (Hd : dry_run (with_dry_run (Runs.plain 1) 1) <> 0)
    by (simpl; lia).
  split; [exact Hd|].
  destruct (X16_dry_run_never_sends (with_dry_run (Runs.plain 1) 1)
              MoreSamples.burst run Hrun) as (_ & _ & _ & Hs).
  exact (Hs Hd).
Defined.


Lemma X18_vlan_tag_transparent_witness :
  l2_demux Samples.valid_ipv4 = Some (0x0800, 14)
  /\ 50 <= 70
  /\ decision <$> handle_packet Runs.https_only Samples.env0
                    MoreSamples.tagged_ipv4 (70 + 4)
     = decision <$> handle_packet Runs.https_only Samples.env0
                      Samples.valid_ipv4 70.
Proof.
  assert (Hl2 : l2_demux Samples.valid_ipv4 = Some (0x0800, 14))
    by (vm_compute; reflexivity).
  split; [exact Hl2|]. split; [lia|].
  exact (X18_vlan_tag_transparent Byte.x00 (Samples.byte_of_Z 100)
           Runs.https_only Samples.env0 Samples.valid_ipv4 70 0x0800
           Hl2 ltac:(lia)).
Defined.

Lemma X19_admission_witness :
  exists r,
    handle_packet (Runs.plain 0) Samples.env0 Samples.minimal_ipv6 94
      = Some r
    /\ admitted (r_verdict r) = true
    /\ exists key,
         (hashlimit_touch_hash (sources (Runs.plain 0))
            (t_sources Samples.env0) key).1 = true
         /\ (hashlimit_touch (ifaces (Runs.plain 0))
               (t_ifaces Samples.env0) 0).1 = true.
Proof.
  run_call r Hr. exists r. split; [done|].
  observe Hr (@r_verdict TokenBucket.table) Transmitting Hv.
  assert (Hadm : admitted (r_verdict r) = true) by (by rewrite Hv).
  split; [exact Hadm|].
  destruct (proj1 (X19_admission (Runs.plain 0) Samples.env0
                     Samples.minimal_ipv6 94 r Hr) Hadm)
    as (_ & _ & et & l3 & l & key & _ & _ & _ & _ & Hs & Hi).
  exists key. split; [exact Hs|exact Hi].
Defined.

Lemma X20_source_mac_irrelevant_witness :
  same_but_source_mac Samples.valid_ipv4 MoreSamples.other_sender_ipv4
  /\ outcome <$> handle_packet (Runs.plain 0) Samples.env0
                   MoreSamples.other_sender_ipv4 70
     = outcome <$> handle_packet (Runs.plain 0) Samples.env0
                     Samples.valid_ipv4 70.
Proof.
  assert (Hs : same_but_source_mac Samples.valid_ipv4
                 MoreSamples.other_sender_ipv4).
  { unfold MoreSamples.other_sender_ipv4.
    split; [by rewrite !length_insert|].
    intros i Hi. by rewrite !list_lookup_insert_ne by lia. }
  split; [exact Hs|].
  exact (X20_source_mac_irrelevant (Runs.plain 0) Samples.env0
           Samples.valid_ipv4 MoreSamples.other_sender_ipv4 70 Hs).
Defined.
